(** * PhronesisFlask: content loading, progress tracking, grading and
    peer-review assignment

    A shallow embedding of the route bodies and helpers of [app.py] and
    [app_perspectives_fix.py] over the tables of [models.py], and the
    properties of the content and progress engine proved about them.

    Conventions.  Python values read from the content files are values of
    [json].  Text is a [string] of ASCII characters.  A Python exception is a
    [Raise] result.  A route is a function from the tables to a result and
    the tables as they stand after the last commit. *)

From Stdlib Require Import ZArith List String Ascii Bool Lia.
From Stdlib Require Import DecimalString.
From Stdlib Require Import Permutation Sorted.
From Stdlib Require Import Floats.SpecFloat.
Import ListNotations.

Set Warnings "-register-all".

Local Open Scope string_scope.
Local Open Scope Z_scope.

(* ================================================================== *)
(** * Python values *)
(* ================================================================== *)

(** The exceptions the modelled code can raise. *)
Inductive exn : Type :=
| IndexError
| KeyError
| TypeError
| ValueError
| AttributeError
| OverflowError
| ZeroDivisionError
| IntegrityError.

Inductive result (A : Type) : Type :=
| Ok (a : A)
| Raise (e : exn).

Arguments Ok {A} a.
Arguments Raise {A} e.

Definition rbind {A B : Type} (r : result A) (k : A -> result B) : result B :=
  match r with
  | Ok a => k a
  | Raise e => Raise e
  end.

Declare Scope res_scope.
Delimit Scope res_scope with res.
Notation "'let?' x ':=' r 'in' k" := (rbind r (fun x => k))
  (at level 10, x name, r at level 100, k at level 200) : res_scope.

(** What [json.load] produces: [None], [bool], [int], [float], [str],
    [list] and [dict] with string keys.  A [dict] is the list of its items
    in insertion order; a lookup takes the first item with the key. *)
Inductive json : Type :=
| JNull
| JBool (b : bool)
| JInt (n : Z)
| JFloat (f : spec_float)
| JStr (s : string)
| JList (l : list json)
| JDict (d : list (string * json)).

(** ** Dictionaries *)

Fixpoint dict_get (d : list (string * json)) (k : string) : option json :=
  match d with
  | [] => None
  | (k', v) :: r => if String.eqb k' k then Some v else dict_get r k
  end.

Definition dict_mem (d : list (string * json)) (k : string) : bool :=
  match dict_get d k with Some _ => true | None => false end.

(** [d[k] = v]: the item keeps its place when the key exists. *)
Fixpoint dict_set (d : list (string * json)) (k : string) (v : json)
  : list (string * json) :=
  match d with
  | [] => [(k, v)]
  | (k', v') :: r =>
      if String.eqb k' k then (k', v) :: r else (k', v') :: dict_set r k v
  end.

(** [d.setdefault(k, v)], for its effect on [d]. *)
Definition dict_setdefault (d : list (string * json)) (k : string) (v : json)
  : list (string * json) :=
  if dict_mem d k then d else dict_set d k v.

(** [x.get(k, dflt)]: only a [dict] has the method. *)
Definition py_get (x : json) (k : string) (dflt : json) : result json :=
  match x with
  | JDict d => Ok (match dict_get d k with Some v => v | None => dflt end)
  | _ => Raise AttributeError
  end.

(** [x[k]] with a string [k]. *)
Definition py_item (x : json) (k : string) : result json :=
  match x with
  | JDict d => match dict_get d k with Some v => Ok v | None => Raise KeyError end
  | _ => Raise TypeError
  end.

(** ** Numbers *)

Definition prec : Z := 53.
Definition emax : Z := 1024.

(** The value of a number: not a number, an infinity, or [m * 2^e]. *)
Inductive xval : Type :=
| XNaN
| XInf (neg : bool)
| XFin (m e : Z).

Definition xval_of_float (f : spec_float) : xval :=
  match f with
  | S754_zero _ => XFin 0 0
  | S754_infinity s => XInf s
  | S754_nan => XNaN
  | S754_finite s m e => XFin (if s then Z.neg m else Z.pos m) e
  end.

Definition xcmp (x y : xval) : option comparison :=
  match x, y with
  | XNaN, _ | _, XNaN => None
  | XInf sx, XInf sy =>
      Some (match sx, sy with
            | true, false => Lt | false, true => Gt | _, _ => Eq end)
  | XInf sx, XFin _ _ => Some (if sx then Lt else Gt)
  | XFin _ _, XInf sy => Some (if sy then Gt else Lt)
  | XFin mx ex, XFin my ey =>
      let e0 := Z.min ex ey in
      Some (Z.compare (mx * 2 ^ (ex - e0)) (my * 2 ^ (ey - e0)))
  end.

(** [bool] is a subclass of [int]: [True] is 1 and [False] is 0. *)
Definition json_num (x : json) : option xval :=
  match x with
  | JBool b => Some (XFin (if b then 1 else 0) 0)
  | JInt n => Some (XFin n 0)
  | JFloat f => Some (xval_of_float f)
  | _ => None
  end.

(** [int(f)] of a float: towards zero. *)
Definition float_trunc (f : spec_float) : result Z :=
  match xval_of_float f with
  | XNaN => Raise ValueError
  | XInf _ => Raise OverflowError
  | XFin m e => Ok (if 0 <=? e then m * 2 ^ e else Z.quot m (2 ^ (- e)))
  end.

(** [round(f)] of a float: to the nearest integer, a tie to the even one. *)
Definition round_half_even (num den : Z) : Z :=
  let q := num / den in
  let r := num mod den in
  match Z.compare (2 * r) den with
  | Lt => q
  | Gt => q + 1
  | Eq => if Z.even q then q else q + 1
  end.

Definition float_round (f : spec_float) : result Z :=
  match xval_of_float f with
  | XNaN => Raise ValueError
  | XInf _ => Raise OverflowError
  | XFin m e => Ok (if 0 <=? e then m * 2 ^ e else round_half_even m (2 ^ (- e)))
  end.

(** [float(n)] for an [int] that a double holds. *)
Definition float_of_int (n : Z) : spec_float :=
  binary_normalize prec emax n 0 false.

(** [a / b] on [int]s: the double nearest to the quotient. *)
Definition py_truediv (a b : Z) : result spec_float :=
  let fl (n : Z) :=
    match n with
    | Z0 => S754_zero false
    | Zpos p => S754_finite false p 0
    | Zneg p => S754_finite true p 0
    end in
  if b =? 0 then Raise ZeroDivisionError
  else match SFdiv prec emax (fl a) (fl b) with
       | S754_infinity _ => Raise OverflowError
       | q => Ok q
       end.

(** [x * n] for a float [x] and an [int] [n]. *)
Definition py_mul_float_int (x : spec_float) (n : Z) : spec_float :=
  SFmul prec emax x (float_of_int n).

(** ** Comparisons *)

(** [x == y].  Every float [nan] of a content file is the one object
    [json.decoder.NaN], and two values of content files are only compared
    inside a tuple or a list, where the same object counts as equal: so
    [nan] equals [nan] here. *)
Definition num_eq (x y : xval) : bool :=
  match x, y with
  | XNaN, XNaN => true
  | _, _ => match xcmp x y with Some Eq => true | _ => false end
  end.

Fixpoint py_eq (x y : json) {struct x} : bool :=
  match x, y with
  | JNull, JNull => true
  | JStr s, JStr t => String.eqb s t
  | JList l, JList l' =>
      (fix all2 (l l' : list json) {struct l} : bool :=
         match l, l' with
         | [], [] => true
         | a :: r, b :: r' => py_eq a b && all2 r r'
         | _, _ => false
         end) l l'
  | JDict d, JDict d' =>
      (fix sub (seen : list string) (d0 : list (string * json)) {struct d0} : bool :=
         match d0 with
         | [] => true
         | (k, v) :: r =>
             (if existsb (String.eqb k) seen then true
              else match dict_get d' k with
                   | Some v' => py_eq v v'
                   | None => false
                   end) && sub (k :: seen) r
         end) [] d
      && forallb (fun kv => dict_mem d (fst kv)) d'
  | _, _ =>
      match json_num x, json_num y with
      | Some a, Some b => num_eq a b
      | _, _ => false
      end
  end.

(** [x < y]: numbers with numbers, strings with strings by code point,
    lists by their first differing items; anything else is a [TypeError]. *)
Fixpoint py_lt (x y : json) {struct x} : result bool :=
  match x, y with
  | JStr s, JStr t => Ok (String.ltb s t)
  | JList l, JList l' =>
      (fix lex (l l' : list json) {struct l} : result bool :=
         match l, l' with
         | [], [] => Ok false
         | [], _ :: _ => Ok true
         | _ :: _, [] => Ok false
         | a :: r, b :: r' => if py_eq a b then lex r r' else py_lt a b
         end) l l'
  | _, _ =>
      match json_num x, json_num y with
      | Some a, Some b =>
          Ok (match xcmp a b with Some Lt => true | _ => false end)
      | _, _ => Raise TypeError
      end
  end.

(** Truth value of [x], as [if x:] and [not x] take it. *)
Definition py_truthy (x : json) : bool :=
  match x with
  | JNull => false
  | JBool b => b
  | JInt n => negb (n =? 0)
  | JFloat f => match xval_of_float f with XFin 0 _ => false | _ => true end
  | JStr s => negb (String.eqb s "")
  | JList l => match l with [] => false | _ => true end
  | JDict d => match d with [] => false | _ => true end
  end.

(** The keys of a [dict], each once, in insertion order. *)
Fixpoint dict_keys (seen : list string) (d : list (string * json)) : list string :=
  match d with
  | [] => []
  | (k, _) :: r =>
      if existsb (String.eqb k) seen then dict_keys seen r
      else k :: dict_keys (k :: seen) r
  end.

(** [len(x)]. *)
Definition py_len (x : json) : result Z :=
  match x with
  | JStr s => Ok (Z.of_nat (String.length s))
  | JList l => Ok (Z.of_nat (List.length l))
  | JDict d => Ok (Z.of_nat (List.length (dict_keys [] d)))
  | _ => Raise TypeError
  end.

(** [x[i]] with an [int] [i]; a negative [i] counts from the end. *)
Definition py_index (x : json) (i : Z) : result json :=
  match x with
  | JList l =>
      let n := Z.of_nat (List.length l) in
      let j := if i <? 0 then i + n else i in
      if (0 <=? j) && (j <? n)
      then match nth_error l (Z.to_nat j) with
           | Some v => Ok v
           | None => Raise IndexError
           end
      else Raise IndexError
  | JStr s =>
      let n := Z.of_nat (String.length s) in
      let j := if i <? 0 then i + n else i in
      if (0 <=? j) && (j <? n)
      then match String.get (Z.to_nat j) s with
           | Some c => Ok (JStr (String c ""))
           | None => Raise IndexError
           end
      else Raise IndexError
  | JDict _ => Raise KeyError
  | _ => Raise TypeError
  end.

(** ** Strings *)

Definition ascii_code (c : ascii) : Z := Z.of_N (N_of_ascii c).

(** White space as [str.strip] and [int] see it, among ASCII characters. *)
Definition is_space (c : ascii) : bool :=
  let n := ascii_code c in
  ((9 <=? n) && (n <=? 13)) || ((28 <=? n) && (n <=? 32)).

Definition is_digit (c : ascii) : bool :=
  let n := ascii_code c in (48 <=? n) && (n <=? 57).

Definition is_lower (c : ascii) : bool :=
  let n := ascii_code c in (97 <=? n) && (n <=? 122).

Definition is_upper (c : ascii) : bool :=
  let n := ascii_code c in (65 <=? n) && (n <=? 90).

Definition to_upper (c : ascii) : ascii :=
  if is_lower c then ascii_of_N (N_of_ascii c - 32) else c.

Definition to_lower (c : ascii) : ascii :=
  if is_upper c then ascii_of_N (N_of_ascii c + 32) else c.

Fixpoint lstrip (s : string) : string :=
  match s with
  | String c r => if is_space c then lstrip r else s
  | EmptyString => EmptyString
  end.

Fixpoint rstrip (s : string) : string :=
  match s with
  | String c r =>
      match rstrip r with
      | EmptyString => if is_space c then EmptyString else String c EmptyString
      | r' => String c r'
      end
  | EmptyString => EmptyString
  end.

(** [s.strip()]. *)
Definition str_strip (s : string) : string := rstrip (lstrip s).

(** [s.replace(a, b)] for one-character [a] and [b]. *)
Fixpoint str_replace (a b : ascii) (s : string) : string :=
  match s with
  | String c r => String (if Ascii.eqb c a then b else c) (str_replace a b r)
  | EmptyString => EmptyString
  end.

(** [s.title()]: a letter that follows a letter is lowered, any other
    letter is raised. *)
Fixpoint title_from (previous_is_cased : bool) (s : string) : string :=
  match s with
  | String c r =>
      String (if previous_is_cased then to_lower c else to_upper c)
             (title_from (is_lower c || is_upper c) r)
  | EmptyString => EmptyString
  end.

Definition str_title (s : string) : string := title_from false s.

(** The digits of a decimal literal: single underscores may stand between
    digits. *)
Fixpoint parse_digits (acc : Z) (after_digit : bool) (s : string) : option Z :=
  match s with
  | EmptyString => if after_digit then Some acc else None
  | String c r =>
      if is_digit c then parse_digits (10 * acc + (ascii_code c - 48)) true r
      else if Ascii.eqb c "_" && after_digit then parse_digits acc false r
      else None
  end.

(** [int(s)] of a string, base ten: white space around, a sign, digits.
    (The interpreter's limit on the number of digits is not modelled.) *)
Definition int_of_str (s : string) : result Z :=
  let body (t : string) :=
    match parse_digits 0 false t with
    | Some n => Ok n
    | None => Raise ValueError
    end in
  match str_strip s with
  | String "-" r => rbind (body r) (fun n => Ok (- n))
  | String "+" r => body r
  | t => body t
  end.

(** [int(x)]. *)
Definition py_int (x : json) : result Z :=
  match x with
  | JInt n => Ok n
  | JBool b => Ok (if b then 1 else 0)
  | JFloat f => float_trunc f
  | JStr s => int_of_str s
  | _ => Raise TypeError
  end.

(** ** [list.sort]

    [sort_by key lt l] is [l.sort(key=key)]: the keys are computed first,
    then the items are ordered by [<] on the keys, equal keys keeping their
    order.  The sort is an insertion sort.  It is the interpreter's sort
    where that one does not depend on how it is carried out: when [<] orders
    the keys (no comparison raises), and on lists of at most two items,
    where the one comparison made is of the second key with the first. *)
Section Sort.
Context {K A : Type}.
Variable lt : K -> K -> result bool.

Fixpoint insert (x : K * A) (acc : list (K * A)) : result (list (K * A)) :=
  match acc with
  | [] => Ok [x]
  | y :: r =>
      rbind (lt (fst x) (fst y)) (fun b =>
        if b then Ok (x :: y :: r)
        else rbind (insert x r) (fun r' => Ok (y :: r')))
  end.

Fixpoint sort_keyed (acc : list (K * A)) (l : list (K * A)) : result (list (K * A)) :=
  match l with
  | [] => Ok acc
  | x :: r => rbind (insert x acc) (fun acc' => sort_keyed acc' r)
  end.

Fixpoint with_keys (key : A -> result K) (l : list A) : result (list (K * A)) :=
  match l with
  | [] => Ok []
  | x :: r =>
      rbind (key x) (fun k =>
        rbind (with_keys key r) (fun r' => Ok ((k, x) :: r')))
  end.

Definition sort_by (key : A -> result K) (l : list A) : result (list A) :=
  rbind (with_keys key l) (fun kl =>
    rbind (sort_keyed [] kl) (fun s => Ok (map snd s))).
End Sort.

(* ================================================================== *)
(** * The tables ([models.py]) *)
(* ================================================================== *)

(** The [progress_status] enumeration. *)
Inductive progress_status : Type :=
| not_started
| started
| completed.

Definition status_eqb (a b : progress_status) : bool :=
  match a, b with
  | not_started, not_started | started, started | completed, completed => true
  | _, _ => false
  end.

(** The rows.  The time stamp columns are left out: no operation of the
    engine reads them.  [score] is filled with 0 wherever a row is made. *)
Record Progress : Type := mkProgress {
  p_id : Z;
  p_user_id : Z;
  p_perspective_slug : string;
  p_lesson_id : string;
  p_status : progress_status;
  p_score : Z
}.

Record Artifact : Type := mkArtifact {
  a_id : Z;
  a_user_id : Z;
  a_perspective_slug : string;
  a_title : string;
  a_body_text : string
}.

Record PeerReview : Type := mkPeerReview {
  r_id : Z;
  r_artifact_id : Z;
  r_reviewer_id : Z;
  r_clarity : Z;
  r_logic : Z;
  r_fairness : Z;
  r_comments : string
}.

(** An event as it is handed to the recorder; [e_meta] is the payload
    before it is written out. *)
Record Event : Type := mkEvent {
  e_user_id : Z;
  e_type : string;
  e_perspective_slug : option string;
  e_lesson_id : option string;
  e_meta : option json
}.

(** The tables, each in the order the storage scans it: a new row goes to
    the end.  [events] lists the events emitted through [log_event] and
    [_log_event], oldest first. *)
Record db : Type := mkDb {
  progress : list Progress;
  artifacts : list Artifact;
  peer_reviews : list PeerReview;
  events : list Event
}.

Definition empty_db : db := mkDb [] [] [] [].

(** The integer primary key of a new row: one more than the largest. *)
Definition next_id (ids : list Z) : Z := 1 + fold_right Z.max 0 ids.

(** ** Routes: state and exceptions

    A computation takes the tables and gives a value or an exception,
    together with the tables as committed so far. *)
Definition M (A : Type) : Type := db -> result A * db.

Definition ret {A : Type} (a : A) : M A := fun d => (Ok a, d).

Definition bind {A B : Type} (m : M A) (k : A -> M B) : M B :=
  fun d =>
    match m d with
    | (Ok a, d') => k a d'
    | (Raise e, d') => (Raise e, d')
    end.

Definition lift {A : Type} (r : result A) : M A := fun d => (r, d).

(** [try: m except Exception: h]. *)
Definition try_except {A : Type} (m : M A) (h : M A) : M A :=
  fun d =>
    match m d with
    | (Ok a, d') => (Ok a, d')
    | (Raise _, d') => h d'
    end.

Definition get_db : M db := fun d => (Ok d, d).
Definition put_db (d' : db) : M unit := fun _ => (Ok tt, d').

Declare Scope route_scope.
Delimit Scope route_scope with route.
Notation "x <- m ;; k" := (bind m (fun x => k))
  (at level 61, m at next level, right associativity) : route_scope.
Notation "m ;;; k" := (bind m (fun _ => k))
  (at level 61, right associativity) : route_scope.

(** ** Queries and updates *)

Definition progress_key (user_id : Z) (slug lesson_id : string) (p : Progress) : bool :=
  (p_user_id p =? user_id)
  && String.eqb (p_perspective_slug p) slug
  && String.eqb (p_lesson_id p) lesson_id.

(** [Progress.query.filter_by(user_id, perspective_slug, lesson_id).first()] *)
Definition first_progress (d : db) (user_id : Z) (slug lesson_id : string)
  : option Progress :=
  find (progress_key user_id slug lesson_id) (progress d).

(** [db.session.add(Progress(...)); db.session.commit()]: the unique
    constraint on [(user_id, perspective_slug, lesson_id)] refuses a second
    row with the key. *)
Definition add_progress (user_id : Z) (slug lesson_id : string)
    (st : progress_status) (sc : Z) : M Progress :=
  fun d =>
    if existsb (progress_key user_id slug lesson_id) (progress d)
    then (Raise IntegrityError, d)
    else
      let p := mkProgress (next_id (map p_id (progress d)))
                 user_id slug lesson_id st sc in
      (Ok p, mkDb (progress d ++ [p]) (artifacts d) (peer_reviews d) (events d)).

(** Writing a changed row back at commit: the row with the id is replaced. *)
Definition update_progress (p : Progress) : M unit :=
  fun d =>
    (Ok tt,
     mkDb (map (fun q => if p_id q =? p_id p then p else q) (progress d))
          (artifacts d) (peer_reviews d) (events d)).

(** The number of completed rows of a user in a perspective. *)
Definition count_completed (d : db) (user_id : Z) (slug : string) : Z :=
  Z.of_nat (List.length
    (filter (fun p => (p_user_id p =? user_id)
                      && String.eqb (p_perspective_slug p) slug
                      && status_eqb (p_status p) completed)
            (progress d))).

Definition add_artifact (user_id : Z) (slug title body_text : string) : M Artifact :=
  fun d =>
    let a := mkArtifact (next_id (map a_id (artifacts d)))
               user_id slug title body_text in
    (Ok a, mkDb (progress d) (artifacts d ++ [a]) (peer_reviews d) (events d)).

Definition review_key (artifact_id reviewer_id : Z) (r : PeerReview) : bool :=
  (r_artifact_id r =? artifact_id) && (r_reviewer_id r =? reviewer_id).

(** What an [INTEGER] column of the default storage (SQLite) takes: a
    signed integer of 64 bits. *)
Definition fits_integer (n : Z) : bool :=
  (- 2 ^ 63 <=? n) && (n <? 2 ^ 63).

(** [db.session.add(PeerReview(...)); db.session.commit()].  A rating that
    is a Python [int] outside the range of the column cannot be bound to
    the statement: the driver raises [OverflowError] and no row is made.
    Then [artifact_id] may not be null, and the unique constraint on
    [(artifact_id, reviewer_id)] refuses a second row for the pair. *)
Definition add_review (artifact_id : option Z) (reviewer_id : Z)
    (clarity logic fairness : Z) (comments : string) : M PeerReview :=
  fun d =>
    if negb (fits_integer clarity && fits_integer logic && fits_integer fairness)
    then (Raise OverflowError, d)
    else
      match artifact_id with
      | None => (Raise IntegrityError, d)
      | Some aid =>
          if existsb (review_key aid reviewer_id) (peer_reviews d)
          then (Raise IntegrityError, d)
          else
            let r := mkPeerReview (next_id (map r_id (peer_reviews d)))
                       aid reviewer_id clarity logic fairness comments in
            (Ok r, mkDb (progress d) (artifacts d) (peer_reviews d ++ [r]) (events d))
      end.

Definition add_event (e : Event) : M unit :=
  fun d =>
    (Ok tt, mkDb (progress d) (artifacts d) (peer_reviews d) (events d ++ [e])).

(** ** Requests *)

Inductive http_method : Type := GET | POST.

(** [request.form]: the posted fields; [form_get] is [request.form.get]. *)
Definition form : Type := list (string * string).

Fixpoint form_get (f : form) (k : string) : option string :=
  match f with
  | [] => None
  | (k', v) :: r => if String.eqb k' k then Some v else form_get r k
  end.

(** A posted field as a Python value: a [str], or [None] when absent. *)
Definition form_value (f : form) (k : string) : json :=
  match form_get f k with Some v => JStr v | None => JNull end.

(** The content directory as [glob("*.json")] lists it: the name of each
    file without its [.json] ending, and what [json.load] makes of the
    file: the value, or the exception of a file that cannot be read. *)
Definition content_dir : Type := list (string * result json).

(** [f.stem]: the name without its last suffix; the name [.json] has none. *)
Definition stem (base : string) : string :=
  if String.eqb base "" then ".json" else base.

(** ** More of Python, for the routes that read content *)

(** The items of [x] as [for item in x] goes through them: the items of a
    list, the characters of a string, the keys of a dict. *)
Definition py_iter (x : json) : result (list json) :=
  match x with
  | JList l => Ok l
  | JStr s => Ok (map (fun c => JStr (String c "")) (list_ascii_of_string s))
  | JDict d => Ok (map JStr (dict_keys [] d))
  | _ => Raise TypeError
  end.

(** [k in c] for a string [k]: a key of a dict, an item of a list, a part
    of a string. *)
Definition py_in (k : string) (c : json) : result bool :=
  match c with
  | JDict d => Ok (dict_mem d k)
  | JList l => Ok (existsb (fun v => py_eq (JStr k) v) l)
  | JStr s => Ok (match String.index 0 k s with Some _ => true | None => false end)
  | _ => Raise TypeError
  end.

(** [d.get(key, dflt)] on a dict with string keys, for any [key]: a list
    or a dict cannot be a key. *)
Definition dict_get_key (d : list (string * json)) (key dflt : json) : result json :=
  match key with
  | JStr k => Ok (match dict_get d k with Some v => v | None => dflt end)
  | JList _ | JDict _ => Raise TypeError
  | _ => Ok dflt
  end.

(** [str(n)] of an integer: its decimal digits, with a minus sign when it
    is negative. *)
Definition str_of_int (n : Z) : string := NilZero.string_of_int (Z.to_int n).

(** [str(x)].  What [str] makes of a float, a list or a dict is not
    modelled: it is taken from [repr_of], which stands for Python's
    [repr] of these values, and what is proved holds whatever [repr_of]
    is. *)
Definition py_str (repr_of : json -> string) (x : json) : string :=
  match x with
  | JNull => "None"
  | JBool true => "True"
  | JBool false => "False"
  | JInt n => str_of_int n
  | JStr s => s
  | JFloat _ | JList _ | JDict _ => repr_of x
  end.

(** The name of a status, as the column holds it. *)
Definition status_name (st : progress_status) : string :=
  match st with
  | not_started => "not_started"
  | started => "started"
  | completed => "completed"
  end.

(** What a route that only reads returns: a redirect with its messages,
    or the context of the page. *)
Inductive reply (A : Type) : Type :=
| Flashed (endpoint : string) (flashes : list string)
| Rendered (a : A).

Arguments Flashed {A} endpoint flashes.
Arguments Rendered {A} a.

(** ** Responses *)

(** The [quiz_result] and [minigame_result] dictionaries of [lesson_detail]. *)
Record quiz_result : Type := mkQuizResult {
  q_correct : bool;
  q_selected : Z;
  q_correct_answer : json;
  q_feedback : json
}.

Record minigame_result : Type := mkMinigameResult {
  m_correct : bool;
  m_selected : json;
  m_explanation : json
}.

(** What a route returns: a redirect to an endpoint, or a page with the
    part of its context the engine fills in; and the messages flashed. *)
Inductive response : Type :=
| Redirect (endpoint : string) (flashes : list string)
| LessonPage (progress : Progress) (quiz : option quiz_result)
             (minigame : option minigame_result)
| LessonView (quick_checks : json) (minigame : json)
| CreatorPage (flashes : list string)
| PeerReviewPage (artifact : option Artifact).

Local Open Scope route_scope.

(* ================================================================== *)
(** * [app.py] *)
(* ================================================================== *)

Module App.

(** [load_perspectives]: the files that load, sorted by their [order]. *)
Definition load_perspectives (files : content_dir) : result (list json) :=
  let perspectives :=
    flat_map (fun f => match snd f with Ok v => [v] | Raise _ => [] end) files in
  sort_by py_lt (fun x => py_get x "order" (JInt 999)) perspectives.

Fixpoint first_with_slug (perspectives : list json) (slug : string) : result json :=
  match perspectives with
  | [] => Ok JNull
  | perspective :: r =>
      rbind (py_item perspective "slug") (fun s =>
        if py_eq s (JStr slug) then Ok perspective else first_with_slug r slug)
  end.

(** [get_perspective_by_slug]; [JNull] is [None]. *)
Definition get_perspective_by_slug (files : content_dir) (slug : string) : result json :=
  rbind (load_perspectives files) (fun perspectives =>
    first_with_slug perspectives slug).

(** [calculate_perspective_progress].  [column_eq] is the storage's
    comparison of the text column [perspective_slug] with the value bound
    for it. *)
Definition calculate_perspective_progress (column_eq : string -> json -> bool)
    (d : db) (user_id : Z) (perspective : json) : result Z :=
  rbind (py_get perspective "lessons" JNull) (fun lessons =>
    if negb (py_truthy lessons) then Ok 0
    else
      rbind (py_item perspective "lessons") (fun lessons' =>
      rbind (py_len lessons') (fun total_lessons =>
      rbind (py_item perspective "slug") (fun slug =>
        let completed_lessons :=
          Z.of_nat (List.length
            (filter (fun p => (p_user_id p =? user_id)
                              && column_eq (p_perspective_slug p) slug
                              && status_eqb (p_status p) completed)
                    (progress d))) in
        if 0 <? total_lessons
        then rbind (py_truediv completed_lessons total_lessons) (fun q =>
               float_trunc (py_mul_float_int q 100))
        else Ok 0)))).

(** [log_event]: [meta] is kept when it is given and not empty. *)
Definition log_event (user_id : Z) (event_type : string)
    (perspective_slug lesson_id : option string) (meta : option json) : M unit :=
  add_event (mkEvent user_id event_type perspective_slug lesson_id
               (match meta with
                | Some m => if py_truthy m then Some m else None
                | None => None
                end)).

(** [progress.score = max(progress.score, score)]. *)
Definition ratchet (progress : Progress) (score : Z) : Progress :=
  mkProgress (p_id progress) (p_user_id progress)
    (p_perspective_slug progress) (p_lesson_id progress)
    (p_status progress) (Z.max (p_score progress) score).

(** [progress.status = 'completed']. *)
Definition mark_complete (progress : Progress) : Progress :=
  mkProgress (p_id progress) (p_user_id progress)
    (p_perspective_slug progress) (p_lesson_id progress)
    completed (p_score progress).

(** [lesson_detail], from the point where the perspective and the lesson
    [lesson] with the id [lesson_id] have been found. *)
Definition lesson_detail (user_id : Z) (slug lesson_id : string) (lesson : json)
    (method : http_method) (f : form) : M response :=
  d <- get_db ;;
  progress <-
    match first_progress d user_id slug lesson_id with
    | Some p => ret p
    | None =>
        p <- add_progress user_id slug lesson_id started 0 ;;
        log_event user_id "lesson_started" (Some slug) (Some lesson_id) None ;;;
        ret p
    end ;;
  match method with
  | GET => ret (LessonPage progress None None)
  | POST =>
      let action := form_value f "action" in
      if py_eq action (JStr "submit_quiz") then
        selected_answer <-
          lift (match form_get f "answer" with
                | Some s => int_of_str s
                | None => Ok (-1)
                end) ;;
        quick_checks <- lift (py_get lesson "quick_checks" (JList [JDict []])) ;;
        quick_check <- lift (py_index quick_checks 0) ;;
        correct_answer <- lift (py_get quick_check "answer_index" (JInt 0)) ;;
        let is_correct := py_eq (JInt selected_answer) correct_answer in
        let score := if is_correct then 100 else 0 in
        let progress' := ratchet progress score in
        update_progress progress' ;;;
        log_event user_id "quiz_attempted" (Some slug) (Some lesson_id)
          (Some (JDict [("correct", JBool is_correct); ("score", JInt score)])) ;;;
        feedback <- lift (py_get quick_check "feedback" (JList [])) ;;
        ret (LessonPage progress'
               (Some (mkQuizResult is_correct selected_answer correct_answer feedback))
               None)
      else if py_eq action (JStr "submit_minigame") then
        let selected_option := form_value f "minigame_choice" in
        minigame <- lift (py_get lesson "minigame" (JDict [])) ;;
        correct_option <- lift (py_get minigame "correct_option" JNull) ;;
        let is_correct := py_eq selected_option correct_option in
        game_type <- lift (py_get minigame "type" JNull) ;;
        log_event user_id "minigame_played" (Some slug) (Some lesson_id)
          (Some (JDict [("game_type", game_type); ("correct", JBool is_correct);
                        ("selected", selected_option)])) ;;;
        explanation <- lift (py_get minigame "explanation" (JStr "")) ;;
        ret (LessonPage progress None
               (Some (mkMinigameResult is_correct selected_option explanation)))
      else if py_eq action (JStr "mark_complete") then
        let progress' := mark_complete progress in
        update_progress progress' ;;;
        log_event user_id "lesson_completed" (Some slug) (Some lesson_id) None ;;;
        ret (Redirect "perspective_detail" ["Lesson completed!"])
      else ret (LessonPage progress None None)
  end.

(** [creator_challenge]. *)
Definition creator_challenge (files : content_dir) (user_id : Z) (slug : string)
    (method : http_method) (f : form) : M response :=
  perspective <- lift (get_perspective_by_slug files slug) ;;
  if negb (py_truthy perspective) then
    ret (Redirect "dashboard" ["Perspective not found"])
  else
    match method with
    | GET => ret (CreatorPage [])
    | POST =>
        let title :=
          str_strip (match form_get f "title" with Some s => s | None => "" end) in
        let body_text :=
          str_strip (match form_get f "body_text" with Some s => s | None => "" end) in
        if String.eqb title "" || String.eqb body_text "" then
          ret (CreatorPage ["Both title and content are required"])
        else
          add_artifact user_id slug title body_text ;;;
          log_event user_id "artifact_submitted" (Some slug) None None ;;;
          ret (Redirect "perspective_detail" ["Artifact submitted successfully!"])
    end.

(** The query that ends [peer_review_queue]: the first artifact, as the
    table is scanned, that the user has not written and has not reviewed. *)
Definition next_artifact (d : db) (user_id : Z) : option Artifact :=
  find (fun a =>
          negb (a_user_id a =? user_id)
          && negb (existsb (fun r => (r_reviewer_id r =? user_id)
                                     && (r_artifact_id r =? a_id a))
                           (peer_reviews d)))
       (artifacts d).

(** [peer_review_queue].  [artifact_id] is the posted field [artifact_id]
    as the integer column takes it, [None] when the field is absent. *)
Definition peer_review_queue (user_id : Z) (method : http_method) (f : form)
    (artifact_id : option Z) : M response :=
  let int_field (k : string) :=
    match form_get f k with Some s => int_of_str s | None => Ok 1 end in
  let queue : M response :=
    d <- get_db ;; ret (PeerReviewPage (next_artifact d user_id)) in
  match method with
  | GET => queue
  | POST =>
      let action := form_value f "action" in
      if py_eq action (JStr "submit_review") then
        clarity <- lift (int_field "clarity") ;;
        logic <- lift (int_field "logic") ;;
        fairness <- lift (int_field "fairness") ;;
        let comments :=
          str_strip (match form_get f "comments" with Some s => s | None => "" end) in
        add_review artifact_id user_id clarity logic fairness comments ;;;
        log_event user_id "peer_review_completed" None None None ;;;
        ret (Redirect "peer_review_queue" ["Review submitted successfully!"])
      else if py_eq action (JStr "report") then
        log_event user_id "artifact_reported" None None
          (Some (JDict [("artifact_id", form_value f "artifact_id")])) ;;;
        ret (Redirect "peer_review_queue"
               ["Artifact reported. Thank you for your feedback."])
      else queue
  end.

(** [get_user_progress]: the dictionary from lesson id to status and
    score; a later row of a lesson takes the place of an earlier one. *)
Definition get_user_progress (d : db) (user_id : Z) (perspective_slug : string)
  : list (string * json) :=
  fold_left
    (fun progress_dict record =>
       dict_set progress_dict (p_lesson_id record)
         (JDict [("status", JStr (status_name (p_status record)));
                 ("score", JInt (p_score record))]))
    (filter (fun p => (p_user_id p =? user_id)
                      && String.eqb (p_perspective_slug p) perspective_slug)
            (progress d))
    [].

(** One turn of the loop of [perspective_detail]: the lesson with its
    status and score put in. *)
Definition with_progress (progress : list (string * json)) (lesson : json)
  : result json :=
  rbind (py_item lesson "id") (fun lesson_id =>
  rbind (dict_get_key progress lesson_id (JDict [])) (fun lesson_progress =>
  rbind (py_get lesson_progress "status" (JStr "not_started")) (fun status =>
  rbind (py_get lesson_progress "score" JNull) (fun score =>
    match lesson with
    | JDict ld => Ok (JDict (dict_set (dict_set ld "status" status) "score" score))
    | _ => Raise TypeError
    end)))).

Fixpoint each_with_progress (progress : list (string * json)) (lessons : list json)
  : result (list json) :=
  match lessons with
  | [] => Ok []
  | lesson :: r =>
      rbind (with_progress progress lesson) (fun lesson' =>
        rbind (each_with_progress progress r) (fun r' => Ok (lesson' :: r')))
  end.

(** [perspective_detail]: the perspective as the page gets it, its lessons
    carrying the status and the score of the user. *)
Definition perspective_detail (files : content_dir) (d : db) (user_id : Z)
    (slug : string) : result (reply json) :=
  rbind (get_perspective_by_slug files slug) (fun perspective =>
    if negb (py_truthy perspective) then
      Ok (Flashed "dashboard" ["Perspective not found"])
    else
      let progress := get_user_progress d user_id slug in
      rbind (py_get perspective "lessons" (JList [])) (fun lessons =>
      rbind (py_iter lessons) (fun items =>
      rbind (each_with_progress progress items) (fun items' =>
        Ok (Rendered
              (match perspective, lessons with
               | JDict pd, JList _ =>
                   if dict_mem pd "lessons"
                   then JDict (dict_set pd "lessons" (JList items'))
                   else perspective
               | _, _ => perspective
               end)))))).

(** The loop of [lesson_detail] that looks for the lesson. *)
Fixpoint find_lesson (lessons : list json) (lesson_id : string)
  : result (option json) :=
  match lessons with
  | [] => Ok None
  | l :: r =>
      rbind (py_item l "id") (fun i =>
        if py_eq i (JStr lesson_id) then Ok (Some l) else find_lesson r lesson_id)
  end.

(** [lesson_detail] as a whole: the perspective and the lesson are looked
    up, then the route goes on as [lesson_detail] above. *)
Definition lesson_detail_route (files : content_dir) (user_id : Z)
    (slug lesson_id : string) (method : http_method) (f : form) : M response :=
  perspective <- lift (get_perspective_by_slug files slug) ;;
  if negb (py_truthy perspective) then
    ret (Redirect "dashboard" ["Perspective not found"])
  else
    lessons <- lift (rbind (py_get perspective "lessons" (JList [])) py_iter) ;;
    found <- lift (find_lesson lessons lesson_id) ;;
    match found with
    | Some lesson =>
        if py_truthy lesson
        then lesson_detail user_id slug lesson_id lesson method f
        else ret (Redirect "perspective_detail" ["Lesson not found"])
    | None => ret (Redirect "perspective_detail" ["Lesson not found"])
    end.

(** The fields [admin_upload] requires of an uploaded document. *)
Definition required_fields : list string :=
  ["slug"; "title"; "summary"; "order"; "lessons"].

(** The check of [admin_upload]: the first required field that is not in
    the document, if there is one. *)
Fixpoint missing_field (fields : list string) (content : json)
  : result (option string) :=
  match fields with
  | [] => Ok None
  | field :: r =>
      rbind (py_in field content) (fun present =>
        if present then missing_field r content else Ok (Some field))
  end.

End App.

(* ================================================================== *)
(** * [app_perspectives_fix.py] *)
(* ================================================================== *)

Module Fix.

(** The guard rails of [_load_all_perspectives] on one loaded document
    [data] of the file with the stem [st]; a value without [setdefault]
    raises. *)
Definition guard (st : string) (data : json) : result json :=
  match data with
  | JDict d =>
      let d := dict_setdefault d "slug" (JStr st) in
      let d := dict_setdefault d "title" (JStr (str_title (str_replace "-" " " st))) in
      let d := dict_setdefault d "summary" (JStr "") in
      let order :=
        match py_int (match dict_get d "order" with Some v => v | None => JInt 9999 end) with
        | Ok n => n
        | Raise _ => 9999
        end in
      let d := dict_set d "order" (JInt order) in
      let d := dict_setdefault d "lessons" (JList []) in
      Ok (JDict d)
  | _ => Raise AttributeError
  end.

(** [(a1, a2) < (b1, b2)] on tuples. *)
Definition tuple_lt (a b : json * json) : result bool :=
  if py_eq (fst a) (fst b) then
    if py_eq (snd a) (snd b) then Ok false else py_lt (snd a) (snd b)
  else py_lt (fst a) (fst b).

Definition sort_key (x : json) : result (json * json) :=
  rbind (py_get x "order" (JInt 9999)) (fun o =>
    rbind (py_get x "title" (JStr "")) (fun t => Ok (o, t))).

(** The items gathered by the loop of [_load_all_perspectives]: a file
    that does not load, or whose document the guard rails refuse, is
    skipped. *)
Definition gather (files : content_dir) : list json :=
  flat_map (fun f =>
              match rbind (snd f) (guard (stem (fst f))) with
              | Ok data => [data]
              | Raise _ => []
              end) files.

(** The names of the files for which the loop prints its [Skipping] note. *)
Definition notes (files : content_dir) : list string :=
  flat_map (fun f =>
              match rbind (snd f) (guard (stem (fst f))) with
              | Ok _ => []
              | Raise _ => [fst f ++ ".json"]
              end) files.

(** [_load_all_perspectives]. *)
Definition _load_all_perspectives (files : content_dir) : result (list json) :=
  sort_by tuple_lt sort_key (gather files).

Fixpoint first_with_slug (items : list json) (slug : string) : result json :=
  match items with
  | [] => Ok JNull
  | data :: r =>
      rbind (py_get data "slug" JNull) (fun s =>
        if py_eq s (JStr slug) then Ok data else first_with_slug r slug)
  end.

(** The fallback of [_load_perspective]: a scan of all the perspectives. *)
Definition scan (files : content_dir) (slug : string) : result json :=
  rbind (_load_all_perspectives files) (fun items => first_with_slug items slug).

(** [_load_perspective]: the file [<slug>.json] when there is one, else
    the scan; [JNull] is [None]. *)
Definition _load_perspective (files : content_dir) (slug : string) : result json :=
  match find (fun f => String.eqb (fst f) slug) files with
  | Some f => snd f
  | None => scan files slug
  end.

(** [_compute_progress]. *)
Definition _compute_progress (d : db) (user_id : Z) (perspective_slug : string)
    (total_lessons : Z) : result Z :=
  if total_lessons <=? 0 then Ok 0
  else
    let count := count_completed d user_id perspective_slug in
    rbind (py_truediv (100 * Z.min count total_lessons) total_lessons) float_round.

(** [_log_event]: the event is handed over with [meta or {}]; whatever
    goes wrong in storing it is caught there, so the call does not raise. *)
Definition _log_event (user_id : Z) (etype : string)
    (slug lesson_id : option string) (meta : option json) : M unit :=
  add_event (mkEvent user_id etype slug lesson_id
               (Some (match meta with
                      | Some m => if py_truthy m then m else JDict []
                      | None => JDict []
                      end))).

(** [x or 0] on a score. *)
Definition or_zero (x : Z) : Z := if x =? 0 then 0 else x.

(** [prog.status = "completed"; prog.score = max(prog.score or 0, 100)]. *)
Definition complete (prog : Progress) : Progress :=
  mkProgress (p_id prog) (p_user_id prog) (p_perspective_slug prog)
    (p_lesson_id prog) completed (Z.max (or_zero (p_score prog)) 100).

(** The quiz branch of [lesson], inside its [try]: the messages flashed. *)
Definition grade (user_id : Z) (slug lesson_id : string) (lesson : json)
    (prog : Progress) (f : form) : M (list string) :=
  qidx <- lift (match form_get f "qidx" with
                | Some s => int_of_str s
                | None => Ok 0
                end) ;;
  choice_idx <- lift (match form_get f "answer" with
                      | Some s => int_of_str s
                      | None =>
                          match form_get f "choice_idx" with
                          | Some s => int_of_str s
                          | None => Ok (-1)
                          end
                      end) ;;
  quick_checks <- lift (py_get lesson "quick_checks" (JList [])) ;;
  if 0 <=? qidx then
    n <- lift (py_len quick_checks) ;;
    if qidx <? n then
      qc <- lift (py_index quick_checks qidx) ;;
      answer_index <- lift (rbind (py_get qc "answer_index" (JInt (-1))) py_int) ;;
      let correct := choice_idx =? answer_index in
      _log_event user_id "quiz_attempted" (Some slug) (Some lesson_id)
        (Some (JDict [("qidx", JInt qidx); ("correct", JBool correct)])) ;;;
      (if correct && negb (status_eqb (p_status prog) completed) then
         update_progress (complete prog)
       else ret tt) ;;;
      ret [if correct then "Correct!" else "Try again—check the feedback."]
    else ret []
  else ret [].

(** The mini-game branch of [lesson]: the messages flashed. *)
Definition play (user_id : Z) (slug lesson_id : string) (lesson : json)
    (f : form) : M (list string) :=
  mg <- lift (py_get lesson "minigame" JNull) ;;
  if py_truthy mg then
    type <- lift (py_get mg "type" JNull) ;;
    if py_eq type (JStr "choice") then
      let picked := form_value f "picked_option" in
      correct_option <- lift (py_get mg "correct_option" JNull) ;;
      let correct := py_eq picked correct_option in
      _log_event user_id "minigame_played" (Some slug) (Some lesson_id)
        (Some (JDict [("game", JStr "choice"); ("picked", picked);
                      ("correct", JBool correct)])) ;;;
      ret [if correct then "Mini-game: nice!"
           else "Mini-game: close—check the explanation."]
    else if py_eq type (JStr "slider") then
      let value := form_value f "slider_value" in
      _log_event user_id "minigame_played" (Some slug) (Some lesson_id)
        (Some (JDict [("game", JStr "slider"); ("value", value)])) ;;;
      ret ["Thanks for your rating."]
    else ret []
  else ret [].

(** [lesson], from the point where [_load_perspective] and [_get_lesson]
    have found the lesson [lesson] with the id [lesson_id]. *)
Definition lesson (user_id : Z) (slug lesson_id : string) (lesson : json)
    (method : http_method) (f : form) : M response :=
  d <- get_db ;;
  prog <-
    match first_progress d user_id slug lesson_id with
    | Some p => ret p
    | None => add_progress user_id slug lesson_id started 0
    end ;;
  match method with
  | POST =>
      let action :=
        match form_get f "action" with Some s => s | None => "" end in
      flashes <-
        (if String.eqb action "submit_quiz" || String.eqb action "quick_check" then
           try_except (grade user_id slug lesson_id lesson prog f)
                      (ret ["Could not grade this question."])
         else if String.eqb action "submit_minigame" || String.eqb action "minigame" then
           play user_id slug lesson_id lesson f
         else ret []) ;;
      ret (Redirect "perspectives_bp.lesson" flashes)
  | GET =>
      _log_event user_id "lesson_started" (Some slug) (Some lesson_id) (Some (JDict [])) ;;;
      quick_checks <- lift (py_get lesson "quick_checks" (JList [])) ;;
      minigame <- lift (py_get lesson "minigame" JNull) ;;
      ret (LessonView quick_checks minigame)
  end.

(** The loop of [_get_lesson]: the first lesson whose id, as [str] gives
    it, is [lesson_id]; a lesson without [get] raises. *)
Fixpoint first_with_id (repr_of : json -> string) (lessons : list json)
    (lesson_id : string) : result json :=
  match lessons with
  | [] => Ok JNull
  | lesson :: r =>
      rbind (py_get lesson "id" JNull) (fun i =>
        if String.eqb (py_str repr_of i) lesson_id then Ok lesson
        else first_with_id repr_of r lesson_id)
  end.

(** [_get_lesson]; [JNull] is [None]. *)
Definition _get_lesson (repr_of : json -> string) (data : json)
    (lesson_id : string) : result json :=
  rbind (py_get data "lessons" (JList [])) (fun lessons =>
    rbind (py_iter lessons) (fun items => first_with_id repr_of items lesson_id)).

(** [lesson] as a whole: the perspective and the lesson are looked up,
    outside any [try], then the route goes on as [lesson] above. *)
Definition lesson_route (repr_of : json -> string) (files : content_dir)
    (user_id : Z) (slug lesson_id : string) (method : http_method) (f : form)
  : M response :=
  perspective <- lift (_load_perspective files slug) ;;
  if negb (py_truthy perspective) then
    ret (Redirect "perspectives_bp.dashboard" ["Perspective not found."])
  else
    found <- lift (_get_lesson repr_of perspective lesson_id) ;;
    if negb (py_truthy found) then
      ret (Redirect "perspectives_bp.perspective_detail" ["Lesson not found."])
    else lesson user_id slug lesson_id found method f.

(** [perspective_detail]: the perspective, its lessons and the ids of the
    lessons the user has completed (a set, listed row by row). *)
Definition perspective_detail (files : content_dir) (d : db) (user_id : Z)
    (slug : string) : result (reply (json * json * list string)) :=
  rbind (_load_perspective files slug) (fun data =>
    if negb (py_truthy data) then
      Ok (Flashed "perspectives_bp.dashboard" ["Perspective not found."])
    else
      rbind (py_get data "lessons" (JList [])) (fun lessons =>
        let completed_ids :=
          map p_lesson_id
              (filter (fun p => (p_user_id p =? user_id)
                                && String.eqb (p_perspective_slug p) slug
                                && status_eqb (p_status p) completed)
                      (progress d)) in
        Ok (Rendered (data, lessons, completed_ids)))).

End Fix.

(* ================================================================== *)
(** * What the properties speak of *)
(* ================================================================== *)

(** An artifact a reviewer may still review: written by someone else and
    with no review row of the reviewer. *)
Definition eligible (d : db) (reviewer : Z) (a : Artifact) : Prop :=
  a_user_id a <> reviewer
  /\ forall r, In r (peer_reviews d) ->
               ~ (r_reviewer_id r = reviewer /\ r_artifact_id r = a_id a).

(** The filter of [next_artifact]. *)
Definition may_review (d : db) (user_id : Z) (a : Artifact) : bool :=
  negb (a_user_id a =? user_id)
  && negb (existsb (fun r => (r_reviewer_id r =? user_id)
                             && (r_artifact_id r =? a_id a))
                   (peer_reviews d)).

(** The artifact table lists the artifacts as they were created: each new
    row got the next primary key. *)
Definition in_creation_order (l : list Artifact) : Prop :=
  StronglySorted (fun a b => a_id a < a_id b) l.

(** The artifacts of the tables are in creation order. *)
Definition ordered_artifacts (d : db) : Prop := in_creation_order (artifacts d).

(** The events of one type about one lesson of one user. *)
Definition events_of (d : db) (etype : string) (user_id : Z)
    (slug lesson_id : string) : list Event :=
  filter (fun e => String.eqb (e_type e) etype
                   && (e_user_id e =? user_id)
                   && match e_perspective_slug e with
                      | Some s => String.eqb s slug
                      | None => false
                      end
                   && match e_lesson_id e with
                      | Some l => String.eqb l lesson_id
                      | None => false
                      end)
         (events d).

(** The stored status of a lesson of a user: the row's, or [not_started]
    when there is no row. *)
Definition stored_status (d : db) (user_id : Z) (slug lesson_id : string)
  : progress_status :=
  match first_progress d user_id slug lesson_id with
  | Some p => p_status p
  | None => not_started
  end.

(** The row a first visit to a lesson makes. *)
Definition new_row (d : db) (u : Z) (s l : string) : Progress :=
  mkProgress (next_id (map p_id (progress d))) u s l started 0.

(** The tables as the head of [lesson_detail] ([app.py]) leaves them: the
    lesson has its row, and a row just made has its [lesson_started]. *)
Definition app_entry (d : db) (u : Z) (s l : string) : db :=
  match first_progress d u s l with
  | Some _ => d
  | None =>
      mkDb (progress d ++ [new_row d u s l]) (artifacts d) (peer_reviews d)
           (events d ++ [mkEvent u "lesson_started" (Some s) (Some l) None])
  end.

(** The tables as the head of [lesson] ([app_perspectives_fix.py]) leaves
    them: the lesson has its row. *)
Definition fix_entry (d : db) (u : Z) (s l : string) : db :=
  match first_progress d u s l with
  | Some _ => d
  | None =>
      mkDb (progress d ++ [new_row d u s l]) (artifacts d) (peer_reviews d)
           (events d)
  end.

(** The status of a lesson when the body of a route runs: the row's, or
    [started] for the row the route has just made. *)
Definition entry_status (d : db) (u : Z) (s l : string) : progress_status :=
  match first_progress d u s l with
  | Some p => p_status p
  | None => started
  end.

(** [d.get(k, dflt)] on the items of a [dict]. *)
Definition dict_get_or (d : list (string * json)) (k : string) (dflt : json) : json :=
  match dict_get d k with Some v => v | None => dflt end.

(** A computation keeps an invariant [I] of the tables, whatever it
    returns or raises. *)
Definition keeps {A : Type} (I : db -> Prop) (m : M A) : Prop :=
  forall d, I d -> I (snd (m d)).

(** A lesson of a user has its row, with the key [i], and the
    [lesson_started] events about it are [E]. *)
Definition row_and_events (u : Z) (s l : string) (i : Z) (E : list Event)
    (d : db) : Prop :=
  events_of d "lesson_started" u s l = E
  /\ exists p, first_progress d u s l = Some p /\ p_id p = i.

(** A lesson of a user has its row, with the key [i] and the status [st]. *)
Definition row_status (u : Z) (s l : string) (i : Z) (st : progress_status)
    (d : db) : Prop :=
  exists p, first_progress d u s l = Some p /\ p_id p = i /\ p_status p = st.

(** A content directory of one file, [intro.json], that has only its
    lessons. *)
Definition bare_dir : content_dir :=
  [("intro", Ok (JDict [("lessons", JList [])]))].

(** A content directory of two files that each declare the other's name
    as their slug. *)
Definition crossed_dir : content_dir :=
  [("alpha", Ok (JDict [("slug", JStr "beta"); ("title", JStr "B"); ("order", JInt 1)]));
   ("beta", Ok (JDict [("slug", JStr "alpha"); ("title", JStr "A"); ("order", JInt 2)]))].

(** The documents of a content directory that load and are objects, each
    with the stem of its file, in the order of the directory. *)
Definition kept (files : content_dir) : list (string * list (string * json)) :=
  flat_map (fun f =>
              match snd f with
              | Ok (JDict d) => [(stem (fst f), d)]
              | _ => []
              end) files.

(** [g] is the document [d] of the file with the stem [st] with what is
    missing filled in: the slug with the stem, the title with the stem in
    title case with spaces for hyphens, the summary with the empty string,
    the lessons with the empty list; the order is made an integer, 9999
    when it is missing or [int] refuses it; all else stays. *)
Definition defaulted (st : string) (d : list (string * json)) (g : json) : Prop :=
  exists gd,
    g = JDict gd
    /\ dict_get gd "slug" = Some (dict_get_or d "slug" (JStr st))
    /\ dict_get gd "title"
       = Some (dict_get_or d "title" (JStr (str_title (str_replace "-" " " st))))
    /\ dict_get gd "summary" = Some (dict_get_or d "summary" (JStr ""))
    /\ dict_get gd "lessons" = Some (dict_get_or d "lessons" (JList []))
    /\ dict_get gd "order"
       = Some (JInt (match py_int (dict_get_or d "order" (JInt 9999)) with
                     | Ok n => n
                     | Raise _ => 9999
                     end))
    /\ forall k, ~ In k ["slug"; "title"; "summary"; "lessons"; "order"] ->
                 dict_get gd k = dict_get d k.

(** The integer order and the string title of a loaded document. *)
Definition doc_order (x : json) : Z :=
  match py_get x "order" (JInt 9999) with
  | Ok (JInt n) => n
  | _ => 9999
  end.

Definition doc_title (x : json) : string :=
  match py_get x "title" (JStr "") with
  | Ok (JStr t) => t
  | _ => ""
  end.

(** [x] comes before [y], or with it, by order and then by title. *)
Definition key_le (x y : json) : Prop :=
  doc_order x < doc_order y
  \/ (doc_order x = doc_order y /\ String.leb (doc_title x) (doc_title y) = true).

(** [<] on keys that are an integer and a string. *)
Definition key_ltb (a b : json * json) : bool :=
  match a, b with
  | (JInt n, JStr t), (JInt n', JStr t') =>
      if n =? n' then String.ltb t t' else n <? n'
  | _, _ => false
  end.

Definition int_str_key (k : json * json) : Prop :=
  exists n t, k = (JInt n, JStr t).

(** A content directory with a file that does not parse, a file that
    holds a list, and three perspectives, one of them empty. *)
Definition mixed_dir : content_dir :=
  [("critical-thinking", Ok (JDict []));
   ("broken", Raise ValueError);
   ("notes", Ok (JList [JStr "a"; JStr "b"]));
   ("media", Ok (JDict [("title", JStr "Media"); ("order", JStr " 2 ")]));
   ("arguments", Ok (JDict [("slug", JStr "understanding-arguments");
                            ("title", JStr "Understanding Arguments");
                            ("order", JInt 1);
                            ("lessons", JList [JDict [("id", JStr "l1")]])]))].

(** The key under which [_load_all_perspectives] sorts a document whose
    order is an integer and whose title is a string. *)
Definition doc_key (x : json) : json * json :=
  (JInt (doc_order x), JStr (doc_title x)).

(** A run of visits of one route: each visit is the lesson found, the
    method and the posted form. *)
Definition visit : Type := json * http_method * form.

Fixpoint run (route : json -> http_method -> form -> M response)
    (vs : list visit) (d : db) : db :=
  match vs with
  | [] => d
  | (lesson, method, f) :: r => run route r (snd (route lesson method f d))
  end.

(** The lesson of the seeded perspective "digital-media-literacy". *)
Definition seed_items : list (string * json) :=
    [("id", JStr "signals-of-reliability");
     ("title", JStr "Signals of Reliability");
     ("quick_checks",
      JList
        [JDict
           [("question", JStr "Which is a better first signal of reliability?");
            ("choices",
             JList [JStr "Has a professional-looking logo";
                    JStr "Lists sources and has a corrections policy";
                    JStr "Has lots of advertisements"]);
            ("answer_index", JInt 1);
            ("feedback",
             JList [JStr "Logos can be easily faked.";
                    JStr "Correct.";
                    JStr "Advertisements say nothing about the evidence."])]]);
     ("minigame",
      JDict
        [("type", JStr "choice");
         ("title", JStr "Source Radar");
         ("options", JList [JStr "Low"; JStr "Medium"; JStr "High"]);
         ("correct_option", JStr "Medium");
         ("explanation", JStr "Some transparency, not full accountability.")])].

Definition seed_lesson : json := JDict seed_items.

(** A lesson whose mini-game is a slider. *)
Definition slider_lesson : json :=
  JDict
    [("id", JStr "rate-a-source");
     ("title", JStr "Rate a Source");
     ("quick_checks", JList []);
     ("minigame",
      JDict
        [("type", JStr "slider");
         ("prompt", JStr "How reliable is this source?")])].

(** A perspective of three lessons, and the rows of user 7, who has
    completed two of them. *)
Definition three_lessons : json :=
  JDict
    [("slug", JStr "media");
     ("title", JStr "Media");
     ("lessons",
      JList [JDict [("id", JStr "a")]; JDict [("id", JStr "b")];
             JDict [("id", JStr "c")]])].

Definition two_of_three : db :=
  mkDb [mkProgress 1 7 "media" "a" completed 100;
        mkProgress 2 7 "media" "b" completed 0;
        mkProgress 3 7 "media" "c" started 0]
       [] [] [].

(** The comparison of a text column with a bound string; other values
    are taken to match no row. *)
Definition text_eq (column : string) (v : json) : bool :=
  match v with
  | JStr s => String.eqb column s
  | _ => false
  end.

(** Whether the quotients [100 * k / n] for [k <= n <= bound], as doubles,
    round to the nearest integers of the exact quotients. *)
Definition percent_table (bound : nat) : bool :=
  forallb (fun n =>
             forallb (fun k =>
                        match rbind (py_truediv (100 * Z.of_nat k) (Z.of_nat n)) float_round with
                        | Ok r => r =? round_half_even (100 * Z.of_nat k) (Z.of_nat n)
                        | Raise _ => false
                        end)
                     (seq 0 (S n)))
          (seq 1 bound).

(** A table of three artifacts by the users 1, 2 and 3, the second
    already reviewed by user 1. *)
Definition queue_db : db :=
  mkDb []
       [mkArtifact 1 1 "media" "Mine" "text";
        mkArtifact 2 2 "media" "Checklist" "text";
        mkArtifact 3 3 "media" "Sources" "text"]
       [mkPeerReview 1 2 1 4 4 5 "clear"]
       [].

(** ** Requests and the states they reach *)

(** A request to one of the routes that write to the tables. *)
Inductive request : Type :=
| LessonDetail (user_id : Z) (slug lesson_id : string) (lesson : json)
               (method : http_method) (f : form)
| FixLesson (user_id : Z) (slug lesson_id : string) (lesson : json)
            (method : http_method) (f : form)
| CreatorChallenge (files : content_dir) (user_id : Z) (slug : string)
                   (method : http_method) (f : form)
| PeerReviewQueue (user_id : Z) (method : http_method) (f : form)
                  (artifact_id : option Z).

Definition handle (r : request) : M response :=
  match r with
  | LessonDetail u s l lesson m f => App.lesson_detail u s l lesson m f
  | FixLesson u s l lesson m f => Fix.lesson u s l lesson m f
  | CreatorChallenge files u s m f => App.creator_challenge files u s m f
  | PeerReviewQueue u m f aid => App.peer_review_queue u m f aid
  end.

(** The tables after a sequence of requests. *)
Fixpoint serve (rs : list request) (d : db) : db :=
  match rs with
  | [] => d
  | r :: rs' => serve rs' (snd (handle r d))
  end.

(** The row [q] is the row [p] later on: the same row of the same lesson,
    its score not lower, its status the same or completed. *)
Definition improves (p q : Progress) : Prop :=
  p_id q = p_id p
  /\ p_user_id q = p_user_id p
  /\ p_perspective_slug q = p_perspective_slug p
  /\ p_lesson_id q = p_lesson_id p
  /\ p_score p <= p_score q
  /\ (p_status q = p_status p \/ p_status q = completed).

(** The table [l'] is the table [l] later on: its rows, each possibly
    improved, and then new rows. *)
Definition evolves (l l' : list Progress) : Prop :=
  exists l1 extra, l' = (l1 ++ extra)%list /\ Forall2 improves l l1.

(** The key of a row, and of a review. *)
Definition key_of (p : Progress) : Z * string * string :=
  (p_user_id p, p_perspective_slug p, p_lesson_id p).

Definition pair_of (r : PeerReview) : Z * Z := (r_artifact_id r, r_reviewer_id r).

(** The keys, ids and pairs of the tables are without repetition. *)
Definition unique_rows (d : db) : Prop :=
  NoDup (map p_id (progress d))
  /\ NoDup (map key_of (progress d))
  /\ NoDup (map pair_of (peer_reviews d)).

(** The table after the row with the id of [q] is written as [q]. *)
Definition written (q : Progress) (l : list Progress) : list Progress :=
  map (fun x => if p_id x =? p_id q then q else x) l.

(** While the body of a lesson route runs on the row [p] of the tables
    [d1]: the progress table is that of [d1], or that with the row written
    as an improvement of [p]; the other tables but the events are those
    of [d1]. *)
Definition body_state (d1 : db) (p : Progress) (d : db) : Prop :=
  artifacts d = artifacts d1
  /\ peer_reviews d = peer_reviews d1
  /\ (exists tail, events d = (events d1 ++ tail)%list)
  /\ (progress d = progress d1
      \/ exists q, improves p q /\ progress d = written q (progress d1)).

(** While a route that leaves the progress table alone runs on the
    tables [d0]: the other tables only get new rows at their ends, and the
    reviews stay one for each pair. *)
Definition side_state (d0 d : db) : Prop :=
  progress d = progress d0
  /\ (exists tail, artifacts d = (artifacts d0 ++ tail)%list)
  /\ (exists tail, peer_reviews d = (peer_reviews d0 ++ tail)%list)
  /\ (exists tail, events d = (events d0 ++ tail)%list)
  /\ (NoDup (map pair_of (peer_reviews d0)) -> NoDup (map pair_of (peer_reviews d))).

(** The tables [d'] are the tables [d] later on: the progress rows
    improved or new, the other tables with new rows at their ends. *)
Definition grown (d d' : db) : Prop :=
  evolves (progress d) (progress d')
  /\ (exists tail, artifacts d' = (artifacts d ++ tail)%list)
  /\ (exists tail, peer_reviews d' = (peer_reviews d ++ tail)%list)
  /\ (exists tail, events d' = (events d ++ tail)%list).

(** One table is the beginning of another. *)
Definition prefix_of {A : Type} (l l' : list A) : Prop :=
  exists tail, l' = (l ++ tail)%list.

(** The tables after user 7 has answered the seeded quick check rightly
    in the flow of [app.py] and has then marked the lesson complete. *)
Definition after_two_requests : db :=
  serve [LessonDetail 7 "media" "signals-of-reliability" seed_lesson POST
           [("action", "submit_quiz"); ("answer", "1")];
         LessonDetail 7 "media" "signals-of-reliability" seed_lesson POST
           [("action", "mark_complete")]]
        empty_db.

(** A request to a route of [app.py]. *)
Definition app_only (r : request) : bool :=
  match r with
  | FixLesson _ _ _ _ _ _ => false
  | _ => true
  end.

(** While a route runs on the tables [d1], it has emitted no
    [lesson_started]. *)
Definition quiet (d1 d : db) : Prop :=
  exists tail,
    events d = (events d1 ++ tail)%list
    /\ Forall (fun e => String.eqb (e_type e) "lesson_started" = false) tail.

(** Every lesson of every user has as many [lesson_started] events as it
    has rows. *)
Definition started_matches (d : db) : Prop :=
  forall u s l,
    List.length (events_of d "lesson_started" u s l)
    = List.length (filter (progress_key u s l) (progress d)).

(** A review form with ratings inside the scale. *)
Definition fair_review : form :=
  [("action", "submit_review"); ("clarity", "4"); ("logic", "3");
   ("fairness", "5"); ("comments", " thorough ")].

(** The content directory of the seeded perspective on media literacy. *)
Definition seed_dir : content_dir :=
  [("digital-media-literacy",
    Ok (JDict [("slug", JStr "digital-media-literacy");
               ("title", JStr "Digital Media Literacy");
               ("summary", JStr "Spot manipulation, verify sources.");
               ("order", JInt 2);
               ("lessons", JList [seed_lesson])]))].

(** The order under which [load_perspectives] of [app.py] sorts a
    document whose order is an integer or is missing. *)
Definition app_order (x : json) : Z :=
  match py_get x "order" (JInt 999) with
  | Ok (JInt n) => n
  | _ => 999
  end.

(** [<] on keys that are integers. *)
Definition int_ltb (a b : json) : bool :=
  match a, b with
  | JInt n, JInt m => n <? m
  | _, _ => false
  end.

Definition int_key (k : json) : Prop := exists n, k = JInt n.

(** A reviewer works the queue off: as long as the queue offers an
    artifact, a review of it with the ratings of [f] is submitted; at most
    [n] times. *)
Fixpoint work_off (n : nat) (reviewer : Z) (f : form) (d : db) : db :=
  match n with
  | O => d
  | S n' =>
      match App.next_artifact d reviewer with
      | None => d
      | Some a =>
          work_off n' reviewer f
            (snd (App.peer_review_queue reviewer POST f (Some (a_id a)) d))
      end
  end.

(** ** Quiz submissions *)

(** The index that a quiz submission selects, as each flow reads it: the
    posted [answer] through [int]; without it, -1 in [app.py], and in
    [app_perspectives_fix.py] the posted [choice_idx], or -1. *)
Definition app_selected (f : form) : result Z :=
  match form_get f "answer" with
  | Some s => int_of_str s
  | None => Ok (-1)
  end.

Definition fix_selected (f : form) : result Z :=
  match form_get f "answer" with
  | Some s => int_of_str s
  | None =>
      match form_get f "choice_idx" with
      | Some s => int_of_str s
      | None => Ok (-1)
      end
  end.

(** The index of the quick check that [app_perspectives_fix.py] grades:
    the posted [qidx], or 0. *)
Definition fix_qidx (f : form) : result Z :=
  match form_get f "qidx" with
  | Some s => int_of_str s
  | None => Ok 0
  end.

(** A quiz form that selects the index [n] of the first quick check, in
    whichever flow it is posted. *)
Definition selects (f : form) (n : Z) : Prop :=
  form_get f "action" = Some "submit_quiz"
  /\ app_selected f = Ok n
  /\ fix_selected f = Ok n
  /\ fix_qidx f = Ok 0.

(** The candidate score of a selection, for the answer [a]: 100 when it
    is right, 0 when it is not. *)
Definition candidate (a n : Z) : Z := if n =? a then 100 else 0.

(** The tables after the quiz forms [fs] have been posted, one after the
    other, to a lesson in the flow of [app.py], and in the flow of
    [app_perspectives_fix.py]. *)
Definition app_quizzes (u : Z) (s l : string) (lesson : json) (fs : list form)
    (d : db) : db :=
  serve (map (fun f => LessonDetail u s l lesson POST f) fs) d.

Definition fix_quizzes (u : Z) (s l : string) (lesson : json) (fs : list form)
    (d : db) : db :=
  serve (map (fun f => FixLesson u s l lesson POST f) fs) d.

(** The stored score of a lesson of a user, when the lesson has a row. *)
Definition stored_score (d : db) (u : Z) (s l : string) : option Z :=
  match first_progress d u s l with
  | Some p => Some (p_score p)
  | None => None
  end.



(* ================================================================== *)
(** * Proofs *)
(* ================================================================== *)

(** ** The score ratchet *)

Lemma fold_ratchet_score (cs : list Z) : forall p,
  p_score (fold_left App.ratchet cs p) = fold_left Z.max cs (p_score p).
Proof.
  induction cs as [|c cs IH]; intro p; simpl; [reflexivity|].
  rewrite IH. reflexivity.
Qed.

Lemma fold_max_ge_init (cs : list Z) : forall x, x <= fold_left Z.max cs x.
Proof.
  induction cs as [|c cs IH]; intro x; simpl; [lia|].
  specialize (IH (Z.max x c)). lia.
Qed.

Lemma fold_max_ge_each (cs : list Z) : forall x c,
  In c cs -> c <= fold_left Z.max cs x.
Proof.
  induction cs as [|c0 cs IH]; intros x c Hin; simpl in *; [contradiction|].
  destruct Hin as [->|Hin].
  - pose proof (fold_max_ge_init cs (Z.max x c)). lia.
  - apply IH; assumption.
Qed.

Lemma fold_max_attained (cs : list Z) : forall x,
  fold_left Z.max cs x = x \/ In (fold_left Z.max cs x) cs.
Proof.
  induction cs as [|c cs IH]; intro x; simpl; [left; reflexivity|].
  destruct (IH (Z.max x c)) as [H|H].
  - rewrite H. destruct (Z.max_spec x c) as [[_ ->]|[_ ->]]; auto.
  - right; right; assumption.
Qed.

Lemma fold_max_perm (cs cs' : list Z) :
  Permutation cs cs' -> forall x, fold_left Z.max cs x = fold_left Z.max cs' x.
Proof.
  induction 1 as [|c l l' _ IH|a b l|l1 l2 l3 _ IH1 _ IH2]; intro x; simpl.
  - reflexivity.
  - apply IH.
  - f_equal. lia.
  - rewrite IH1. apply IH2.
Qed.

(** ** The review queue *)

Lemma may_review_eligible (d : db) (user_id : Z) (a : Artifact) :
  may_review d user_id a = true <-> eligible d user_id a.
Proof.
  unfold may_review, eligible.
  rewrite andb_true_iff, !negb_true_iff, Z.eqb_neq.
  split; intros [Hu Hr]; split; try assumption.
  - intros r Hin [H1 H2].
    assert (existsb (fun r0 => (r_reviewer_id r0 =? user_id)
                               && (r_artifact_id r0 =? a_id a)) (peer_reviews d) = true)
      as Hex.
    { apply existsb_exists. exists r. split; [assumption|].
      rewrite H1, H2, !Z.eqb_refl. reflexivity. }
    congruence.
  - destruct (existsb _ (peer_reviews d)) eqn:E; [|reflexivity].
    apply existsb_exists in E. destruct E as [r [Hin Hk]].
    apply andb_true_iff in Hk. rewrite !Z.eqb_eq in Hk.
    exfalso. apply (Hr r Hin). exact Hk.
Qed.

Lemma find_first_sorted {A : Type} (R : A -> A -> Prop) (f : A -> bool) :
  forall l, StronglySorted R l ->
  match find f l with
  | Some a => In a l /\ f a = true
              /\ forall b, In b l -> f b = true -> a = b \/ R a b
  | None => forall b, In b l -> f b = false
  end.
Proof.
  induction l as [|x l IH]; intro Hs; simpl.
  - intros b [].
  - inversion Hs as [|? ? Hs' Hall]; subst.
    destruct (f x) eqn:Ex.
    + split; [left; reflexivity|]. split; [assumption|].
      intros b [->|Hb] _; [left; reflexivity|].
      right. rewrite Forall_forall in Hall. apply Hall; assumption.
    + specialize (IH Hs'). destruct (find f l) as [a|].
      * destruct IH as [Hin [Hfa Hmin]].
        split; [right; assumption|]. split; [assumption|].
        intros b [->|Hb] Hfb; [congruence|]. apply Hmin; assumption.
      * intros b [->|Hb]; [assumption|]. apply IH; assumption.
Qed.

(** C3.  On an artifact table that lists the artifacts as they were
    created, the query of the review queue returns an artifact the reviewer
    did not write and has not reviewed, the earliest created of these; and
    it returns none exactly when there is no such artifact. *)
Theorem next_artifact_first_eligible (d : db) (reviewer : Z)
    (Horder : in_creation_order (artifacts d)) :
  match App.next_artifact d reviewer with
  | Some a =>
      In a (artifacts d)
      /\ eligible d reviewer a
      /\ forall b, In b (artifacts d) -> eligible d reviewer b -> a_id a <= a_id b
  | None => forall b, In b (artifacts d) -> ~ eligible d reviewer b
  end.
Proof.
  pose proof (find_first_sorted _ (may_review d reviewer) _ Horder) as H.
  change (find (may_review d reviewer) (artifacts d))
    with (App.next_artifact d reviewer) in H.
  destruct (App.next_artifact d reviewer) as [a|].
  - destruct H as [Hin [Hfa Hmin]].
    split; [assumption|]. split; [apply may_review_eligible; assumption|].
    intros b Hb Hel. apply may_review_eligible in Hel.
    destruct (Hmin b Hb Hel) as [->|Hlt]; lia.
  - intros b Hb Hel. apply may_review_eligible in Hel.
    rewrite (H b Hb) in Hel. discriminate.
Qed.

Lemma next_artifact_witness :
  in_creation_order (artifacts queue_db)
  /\ match App.next_artifact queue_db 1 with
     | Some a =>
         In a (artifacts queue_db)
         /\ eligible queue_db 1 a
         /\ forall b, In b (artifacts queue_db) -> eligible queue_db 1 b ->
                      a_id a <= a_id b
     | None => forall b, In b (artifacts queue_db) -> ~ eligible queue_db 1 b
     end.
Proof.
  assert (in_creation_order (artifacts queue_db)) as H.
  { unfold in_creation_order, queue_db; simpl.
    repeat (constructor; simpl; try lia). }
  split; [exact H|].
  exact (next_artifact_first_eligible queue_db 1 H).
Defined.

(** The key of a new row is above the keys in the table. *)
Lemma next_id_above (ids : list Z) : Forall (fun i => i < next_id ids) ids.
Proof.
  unfold next_id. induction ids as [|i ids IH]; constructor; cbn [fold_right].
  - lia.
  - eapply Forall_impl; [|exact IH]. cbn beta. intros; lia.
Qed.

Lemma in_creation_order_snoc (l : list Artifact) (a : Artifact) :
  in_creation_order l -> Forall (fun b => a_id b < a_id a) l ->
  in_creation_order (l ++ [a]).
Proof.
  unfold in_creation_order. induction l as [|x l IH]; intros Hs Hall; simpl.
  - constructor; constructor.
  - inversion Hs as [|? ? Hs' Hx]; subst. inversion Hall as [|? ? Hxa Hall']; subst.
    constructor; [apply IH; assumption|].
    apply Forall_app. split; [assumption|]. constructor; [assumption|constructor].
Qed.

(** The table of a fresh database is in creation order, and submitting an
    artifact keeps it so. *)
Lemma add_artifact_keeps_order (user_id : Z) (slug title body : string) (d : db) :
  in_creation_order (artifacts d) ->
  in_creation_order (artifacts (snd (add_artifact user_id slug title body d))).
Proof.
  intro H. unfold add_artifact; simpl.
  apply in_creation_order_snoc; [assumption|].
  pose proof (next_id_above (map a_id (artifacts d))) as Hn.
  rewrite Forall_map in Hn. exact Hn.
Qed.

(** ** Invariants of routes *)

Section Invariants.
Variable I : db -> Prop.

Lemma keeps_ret {A : Type} (a : A) : keeps I (ret a).
Proof. intros d H; exact H. Qed.

Lemma keeps_lift {A : Type} (r : result A) : keeps I (lift r).
Proof. intros d H; exact H. Qed.

Lemma keeps_get_db : keeps I get_db.
Proof. intros d H; exact H. Qed.

Lemma keeps_bind {A B : Type} (m : M A) (k : A -> M B) :
  keeps I m -> (forall a, keeps I (k a)) -> keeps I (bind m k).
Proof.
  intros Hm Hk d H. unfold bind. specialize (Hm d H).
  destruct (m d) as [[a|e] d']; simpl in *; [apply Hk|]; assumption.
Qed.

Lemma keeps_try {A : Type} (m h : M A) :
  keeps I m -> keeps I h -> keeps I (try_except m h).
Proof.
  intros Hm Hh d H. unfold try_except. specialize (Hm d H).
  destruct (m d) as [[a|e] d']; simpl in *; [|apply Hh]; assumption.
Qed.
End Invariants.

Lemma events_of_add_event (e : Event) (etype : string) (u : Z) (s l : string) (d : db) :
  events_of (snd (add_event e d)) etype u s l
  = (events_of d etype u s l ++ events_of (mkDb [] [] [] [e]) etype u s l)%list.
Proof. unfold events_of, add_event; simpl events. apply filter_app. Qed.

(** The row of a lesson after a write of a row with the same key and id. *)
Lemma first_progress_update (q p : Progress) (u : Z) (s l : string) (d : db) :
  first_progress d u s l = Some p ->
  p_id q = p_id p ->
  progress_key u s l q = true ->
  first_progress (snd (update_progress q d)) u s l = Some q.
Proof.
  unfold first_progress, update_progress; simpl progress.
  intros Hf Hid Hk. induction (progress d) as [|x xs IH]; simpl in *; [discriminate|].
  destruct (p_id x =? p_id q) eqn:Ex.
  - rewrite Hk. reflexivity.
  - destruct (progress_key u s l x) eqn:Ek.
    + injection Hf as ->. rewrite Hid, Z.eqb_refl in Ex. discriminate.
    + apply IH; assumption.
Qed.

Lemma first_progress_add (u : Z) (s l : string) (st : progress_status) (sc : Z) (d : db) :
  first_progress d u s l = None ->
  exists p,
    add_progress u s l st sc d
    = (Ok p, mkDb (progress d ++ [p]) (artifacts d) (peer_reviews d) (events d))
    /\ p = mkProgress (next_id (map p_id (progress d))) u s l st sc
    /\ first_progress (snd (add_progress u s l st sc d)) u s l = Some p.
Proof.
  unfold first_progress, add_progress. intro Hf.
  assert (existsb (progress_key u s l) (progress d) = false) as Hex.
  { destruct (existsb _ _) eqn:E; [|reflexivity].
    apply existsb_exists in E. destruct E as [x [Hin Hx]].
    pose proof (find_none _ _ Hf x Hin). congruence. }
  rewrite Hex. eexists. split; [reflexivity|]. split; [reflexivity|].
  simpl progress. 
  assert (forall xs y, find (progress_key u s l) xs = None ->
            progress_key u s l y = true ->
            find (progress_key u s l) (xs ++ [y]) = Some y) as Hsnoc.
  { induction xs as [|x xs IH]; simpl; intros y Hn Hy.
    - rewrite Hy; reflexivity.
    - destruct (progress_key u s l x); [discriminate|]. apply IH; assumption. }
  apply Hsnoc; [assumption|].
  unfold progress_key; simpl. rewrite Z.eqb_refl, !String.eqb_refl. reflexivity.
Qed.

Lemma first_progress_key (d : db) (u : Z) (s l : string) (p : Progress) :
  first_progress d u s l = Some p -> progress_key u s l p = true.
Proof. intro H. apply find_some in H. apply H. Qed.

Section RowAndEvents.
Variables (u : Z) (s l : string) (i : Z) (E : list Event).

Lemma keeps_update_row (q : Progress) :
  p_id q = i -> progress_key u s l q = true ->
  keeps (row_and_events u s l i E) (update_progress q).
Proof.
  intros Hid Hk d [HE [p [Hf Hp]]]. split.
  - exact HE.
  - exists q. split; [|assumption].
    eapply first_progress_update; eauto. congruence.
Qed.

Lemma keeps_add_event_other (e : Event) :
  String.eqb (e_type e) "lesson_started" = false ->
  keeps (row_and_events u s l i E) (add_event e).
Proof.
  intros He d [HE Hrow]. split.
  - rewrite events_of_add_event, HE. unfold events_of; simpl.
    rewrite He. simpl. apply app_nil_r.
  - exact Hrow.
Qed.
End RowAndEvents.

Ltac keeps_step Hk :=
  first
    [ apply keeps_ret
    | apply keeps_lift
    | apply keeps_get_db
    | apply keeps_try
    | apply keeps_add_event_other; reflexivity
    | apply keeps_update_row; [reflexivity | exact Hk]
    | apply keeps_bind; [|intros]
    | match goal with
      | |- keeps _ (if ?b then _ else _) => destruct b
      | |- keeps _ (match ?x with _ => _ end) => destruct x
      end ].

Ltac keeps_from HI :=
  match goal with
  | |- ?I0 (snd (?m ?d0)) =>
      let H := fresh in
      cut (keeps I0 m); [intro H; exact (H d0 HI)|]
  end.

(** A visit of [lesson_detail] to a lesson that has its row keeps the
    row and emits no [lesson_started]. *)
Lemma app_visit_again (u : Z) (s l : string) (lesson : json)
    (method : http_method) (f : form) (d : db) (p : Progress) (E : list Event) :
  first_progress d u s l = Some p ->
  events_of d "lesson_started" u s l = E ->
  row_and_events u s l (p_id p) E (snd (App.lesson_detail u s l lesson method f d)).
Proof.
  intros Hf HE.
  assert (row_and_events u s l (p_id p) E d) as HI.
  { split; [assumption|]. exists p; auto. }
  pose proof (first_progress_key _ _ _ _ _ Hf) as Hk.
  unfold App.lesson_detail.
  unfold bind at 1. cbn [get_db fst snd]. rewrite Hf.
  unfold bind at 1. cbn [ret].
  keeps_from HI. unfold App.log_event.
  repeat keeps_step Hk.
Qed.

(** The first visit of [lesson_detail] to a lesson makes its row, started
    and with the score 0, and emits one [lesson_started]. *)
Lemma app_visit_first (u : Z) (s l : string) (lesson : json)
    (method : http_method) (f : form) (d : db) :
  first_progress d u s l = None ->
  let p := mkProgress (next_id (map p_id (progress d))) u s l started 0 in
  row_and_events u s l (p_id p)
    (events_of d "lesson_started" u s l
       ++ [mkEvent u "lesson_started" (Some s) (Some l) None])%list
    (snd (App.lesson_detail u s l lesson method f d))
  /\ (method = GET ->
      fst (App.lesson_detail u s l lesson method f d) = Ok (LessonPage p None None)).
Proof.
  intros Hf p.
  destruct (first_progress_add u s l started 0 d Hf) as [p' [Hadd [Hp' Hfirst]]].
  fold p in Hp'. subst p'.
  set (d1 := mkDb (progress d ++ [p]) (artifacts d) (peer_reviews d) (events d)) in *.
  set (e := mkEvent u "lesson_started" (Some s) (Some l) None).
  assert (row_and_events u s l (p_id p)
            (events_of d "lesson_started" u s l ++ [e])%list (snd (add_event e d1))) as HI.
  { split.
    - rewrite events_of_add_event. f_equal.
      unfold events_of; simpl. rewrite Z.eqb_refl, !String.eqb_refl. reflexivity.
    - exists p. split; [|reflexivity].
      rewrite Hadd in Hfirst. exact Hfirst. }
  assert (progress_key u s l p = true) as Hk.
  { unfold progress_key; simpl. rewrite Z.eqb_refl, !String.eqb_refl. reflexivity. }
  split.
  - unfold App.lesson_detail.
    unfold bind at 1. cbn [get_db fst snd]. rewrite Hf.
    unfold bind at 1. unfold bind at 1. rewrite Hadd.
    unfold App.log_event at 1. unfold bind at 1.
    unfold add_event at 1. cbn iota beta. cbn [ret].
    keeps_from HI. unfold App.log_event. repeat keeps_step Hk.
  - intros ->. unfold App.lesson_detail, bind. cbn [get_db].
    rewrite Hf, Hadd. reflexivity.
Qed.

Lemma app_run_keeps (u : Z) (s l : string) (i : Z) (E : list Event) (vs : list visit) :
  forall d, row_and_events u s l i E d ->
            row_and_events u s l i E (run (App.lesson_detail u s l) vs d).
Proof.
  induction vs as [|[[lesson method] f] vs IH]; intros d HI; simpl; [exact HI|].
  apply IH. destruct HI as [HE [p [Hf Hp]]]. subst i.
  apply app_visit_again; assumption.
Qed.

(** In the flow of [app.py], whatever the visits to a lesson are, the row
    of the lesson is made once, by the first visit, and one
    [lesson_started] is emitted for it. *)
Lemma app_lesson_started_once (u : Z) (s l : string) (v : visit) (vs : list visit) (d : db) :
  first_progress d u s l = None ->
  events_of d "lesson_started" u s l = [] ->
  row_and_events u s l (next_id (map p_id (progress d)))
    [mkEvent u "lesson_started" (Some s) (Some l) None]
    (run (App.lesson_detail u s l) (v :: vs) d).
Proof.
  intros Hf HE. destruct v as [[lesson method] f]. simpl run.
  apply app_run_keeps.
  destruct (app_visit_first u s l lesson method f d Hf) as [H _].
  rewrite HE in H. exact H.
Qed.

(** In the flow of [app_perspectives_fix.py] every [GET] of a lesson emits
    a [lesson_started], whether the lesson has its row or not. *)
Lemma fix_get_emits (u : Z) (s l : string) (items : list (string * json)) (f : form) (d : db) :
  events_of (snd (Fix.lesson u s l (JDict items) GET f d)) "lesson_started" u s l
  = (events_of d "lesson_started" u s l
       ++ [mkEvent u "lesson_started" (Some s) (Some l) (Some (JDict []))])%list.
Proof.
  unfold Fix.lesson, bind. cbn [get_db].
  assert (forall d1 : db, events d1 = events d ->
            events_of (snd (Fix._log_event u "lesson_started" (Some s) (Some l)
                              (Some (JDict [])) d1)) "lesson_started" u s l
            = (events_of d "lesson_started" u s l
                 ++ [mkEvent u "lesson_started" (Some s) (Some l) (Some (JDict []))])%list)
    as Hlog.
  { intros d1 H1. unfold Fix._log_event. rewrite events_of_add_event.
    unfold events_of. rewrite H1. f_equal. simpl.
    rewrite Z.eqb_refl, !String.eqb_refl. reflexivity. }
  destruct (first_progress d u s l) as [p|] eqn:Hf.
  - cbn [ret]. specialize (Hlog d eq_refl).
    unfold Fix._log_event in *. unfold add_event in *. simpl in *. exact Hlog.
  - destruct (first_progress_add u s l started 0 d Hf) as [p [Hadd _]].
    rewrite Hadd.
    match goal with
    | |- context [Fix._log_event ?a ?b ?c ?e ?m ?d1] =>
        specialize (Hlog d1 eq_refl)
    end.
    unfold Fix._log_event in *. unfold add_event in *. simpl in *. exact Hlog.
Qed.

(** C5.  In the flow of [app_perspectives_fix.py] two visits by [GET] to
    the same lesson by the same user leave one Progress row, started and
    with the score 0, and two [lesson_started] events: the second visit,
    to the row that exists, emits the event again. *)
Theorem fix_lesson_started_twice :
  let visits := [(seed_lesson, GET, []); (seed_lesson, GET, [])] in
  let d := run (Fix.lesson 7 "digital-media-literacy" "signals-of-reliability")
               visits empty_db in
  progress d
  = [mkProgress 1 7 "digital-media-literacy" "signals-of-reliability" started 0]
  /\ events_of d "lesson_started" 7 "digital-media-literacy" "signals-of-reliability"
     = [mkEvent 7 "lesson_started" (Some "digital-media-literacy")
          (Some "signals-of-reliability") (Some (JDict []));
        mkEvent 7 "lesson_started" (Some "digital-media-literacy")
          (Some "signals-of-reliability") (Some (JDict []))].
Proof. vm_compute. split; reflexivity. Qed.

(** ** Completion percentage *)

Lemma percent_table_200 : percent_table 200 = true.
Proof. vm_compute. reflexivity. Qed.

(** [_compute_progress] is 0 for a perspective without lessons, and for up
    to 200 lessons it is the exact quotient [100 * min(count, total) /
    total] rounded to the nearest integer, a tie to the even one. *)
Lemma compute_progress_rounds (d : db) (user_id : Z) (slug : string) (total : Z) :
  total <= 200 ->
  Fix._compute_progress d user_id slug total
  = Ok (if total <=? 0 then 0
        else round_half_even
               (100 * Z.min (count_completed d user_id slug) total) total).
Proof.
  intro Hb. unfold Fix._compute_progress.
  destruct (Z.leb_spec total 0) as [|Hpos]; [reflexivity|].
  set (k := Z.min (count_completed d user_id slug) total).
  assert (0 <= k <= total) as Hk.
  { unfold k, count_completed. lia. }
  pose proof percent_table_200 as HT. unfold percent_table in HT.
  rewrite forallb_forall in HT.
  specialize (HT (Z.to_nat total)).
  rewrite forallb_forall in HT.
  assert (In (Z.to_nat total) (seq 1 200)) as Hn by (apply in_seq; lia).
  assert (In (Z.to_nat k) (seq 0 (S (Z.to_nat total)))) as Hkn by (apply in_seq; lia).
  specialize (HT Hn (Z.to_nat k) Hkn).
  rewrite !Z2Nat.id in HT by lia.
  destruct (rbind (py_truediv (100 * k) total) float_round) as [r|e];
    [|discriminate].
  apply Z.eqb_eq in HT. congruence.
Qed.

(** C2.  For a perspective of three lessons of which the user has
    completed two, [calculate_perspective_progress] of [app.py] returns 66,
    where the rounded quotient, which [_compute_progress] returns, is 67;
    and when the table holds more completed rows than the perspective has
    lessons (here two rows, one lesson) it returns 200, where
    [_compute_progress] caps the count and returns 100. *)
Theorem calculate_perspective_progress_truncates (column_eq : string -> json -> bool)
    (Hcol : forall c s, column_eq c (JStr s) = String.eqb c s) :
  App.calculate_perspective_progress column_eq two_of_three 7 three_lessons = Ok 66
  /\ Fix._compute_progress two_of_three 7 "media" 3 = Ok 67
  /\ round_half_even (100 * 2) 3 = 67
  /\ App.calculate_perspective_progress column_eq two_of_three 7
       (JDict [("slug", JStr "media"); ("lessons", JList [JDict [("id", JStr "a")]])])
     = Ok 200
  /\ Fix._compute_progress two_of_three 7 "media" 1 = Ok 100.
Proof.
  unfold App.calculate_perspective_progress, two_of_three, three_lessons.
  cbn [py_get py_item dict_get String.eqb Ascii.eqb Bool.eqb py_truthy negb rbind
       py_len progress filter p_user_id p_perspective_slug p_status].
  rewrite !Hcol.
  repeat split; vm_compute; reflexivity.
Qed.

Lemma calculate_perspective_progress_witness :
  (forall c s, text_eq c (JStr s) = String.eqb c s)
  /\ App.calculate_perspective_progress text_eq two_of_three 7 three_lessons = Ok 66.
Proof.
  split.
  - intros c s. reflexivity.
  - exact (proj1 (calculate_perspective_progress_truncates text_eq
                    (fun c s => eq_refl))).
Defined.

(** ** Submitting a review *)

Section SubmitReview.
Variables (user_id : Z) (f : form) (aid : Z) (d : db).
Hypothesis Haction : form_get f "action" = Some "submit_review".

Let rating (k : string) : result Z :=
  match form_get f k with Some s => int_of_str s | None => Ok 1 end.

Lemma review_action : py_eq (form_value f "action") (JStr "submit_review") = true.
Proof. unfold form_value. rewrite Haction. reflexivity. Qed.

(** The ratings are stored as they are posted, whatever integers the
    column can hold they are: there is no check against the scale and no
    clamping. *)
Lemma review_stored_unchecked (clarity logic fairness : Z) :
  rating "clarity" = Ok clarity ->
  rating "logic" = Ok logic ->
  rating "fairness" = Ok fairness ->
  fits_integer clarity && fits_integer logic && fits_integer fairness = true ->
  existsb (review_key aid user_id) (peer_reviews d) = false ->
  exists r,
    peer_reviews (snd (App.peer_review_queue user_id POST f (Some aid) d))
    = (peer_reviews d ++ [r])%list
    /\ r_artifact_id r = aid /\ r_reviewer_id r = user_id
    /\ r_clarity r = clarity /\ r_logic r = logic /\ r_fairness r = fairness.
Proof.
  unfold rating. intros Hc Hl Hf Hfits Hnew.
  unfold App.peer_review_queue. rewrite review_action.
  unfold bind, lift. rewrite Hc, Hl, Hf.
  unfold add_review. rewrite Hfits, Hnew. simpl.
  eexists. split; [reflexivity|]. simpl. repeat split.
Qed.

(** A second review of an artifact by a reviewer is refused by the
    unique constraint, and the table is left as it was. *)
Lemma review_duplicate_refused (clarity logic fairness : Z) :
  rating "clarity" = Ok clarity ->
  rating "logic" = Ok logic ->
  rating "fairness" = Ok fairness ->
  fits_integer clarity && fits_integer logic && fits_integer fairness = true ->
  existsb (review_key aid user_id) (peer_reviews d) = true ->
  App.peer_review_queue user_id POST f (Some aid) d = (Raise IntegrityError, d).
Proof.
  unfold rating. intros Hc Hl Hf Hfits Hdup.
  unfold App.peer_review_queue. rewrite review_action.
  unfold bind, lift. rewrite Hc, Hl, Hf.
  unfold add_review. rewrite Hfits, Hdup. reflexivity.
Qed.

(** A rating that the column cannot hold stops the request, and nothing
    is stored. *)
Lemma review_overflow_refused (clarity logic fairness : Z) :
  rating "clarity" = Ok clarity ->
  rating "logic" = Ok logic ->
  rating "fairness" = Ok fairness ->
  fits_integer clarity && fits_integer logic && fits_integer fairness = false ->
  App.peer_review_queue user_id POST f (Some aid) d = (Raise OverflowError, d).
Proof.
  unfold rating. intros Hc Hl Hf Hfits.
  unfold App.peer_review_queue. rewrite review_action.
  unfold bind, lift. rewrite Hc, Hl, Hf.
  unfold add_review. rewrite Hfits. reflexivity.
Qed.

(** A rating that is not the text of an integer stops the request, and
    nothing is stored. *)
Lemma review_not_integer_refused (k : string) (e : exn) :
  In k ["clarity"; "logic"; "fairness"] ->
  rating k = Raise e ->
  exists e', App.peer_review_queue user_id POST f (Some aid) d = (Raise e', d).
Proof.
  unfold rating. intros Hk Hr.
  unfold App.peer_review_queue. rewrite review_action.
  unfold bind, lift.
  destruct (match form_get f "clarity" with Some s => int_of_str s | None => Ok 1 end)
    as [c|ec] eqn:Hc; [|eexists; reflexivity].
  destruct (match form_get f "logic" with Some s => int_of_str s | None => Ok 1 end)
    as [lg|el] eqn:Hl; [|eexists; reflexivity].
  destruct (match form_get f "fairness" with Some s => int_of_str s | None => Ok 1 end)
    as [fa|ef] eqn:Hf; [|eexists; reflexivity].
  simpl in Hk. destruct Hk as [<-|[<-|[<-|[]]]]; congruence.
Qed.
End SubmitReview.

(** C4.  A review posted with the ratings 9, 0 and -3 is accepted: the row
    is stored with these ratings, outside the scale of 1 to 5 that
    [models.py] notes for the columns. *)
Theorem review_outside_scale_is_stored :
  let f := [("action", "submit_review"); ("artifact_id", "3");
            ("clarity", "9"); ("logic", "0"); ("fairness", "-3");
            ("comments", "fine")] in
  let out := App.peer_review_queue 1 POST f (Some 3) queue_db in
  fst out = Ok (Redirect "peer_review_queue" ["Review submitted successfully!"])
  /\ peer_reviews (snd out)
     = [mkPeerReview 1 2 1 4 4 5 "clear"; mkPeerReview 2 3 1 9 0 (-3) "fine"].
Proof. vm_compute. split; reflexivity. Qed.

(** ** The mini-game *)

(** In [app.py] the submitted option is compared with [correct_option]
    whatever the type of the mini-game is, and the explanation is returned
    as the lesson has it. *)
Lemma app_minigame_result (user_id : Z) (slug lesson_id : string)
    (lesson mg : list (string * json)) (f : form) (d : db) (p : Progress) :
  first_progress d user_id slug lesson_id = Some p ->
  form_get f "action" = Some "submit_minigame" ->
  dict_get lesson "minigame" = Some (JDict mg) ->
  fst (App.lesson_detail user_id slug lesson_id (JDict lesson) POST f d)
  = Ok (LessonPage p None
          (Some (mkMinigameResult
                   (py_eq (form_value f "minigame_choice")
                          (match dict_get mg "correct_option" with
                           | Some v => v | None => JNull end))
                   (form_value f "minigame_choice")
                   (match dict_get mg "explanation" with
                    | Some v => v | None => JStr "" end)))).
Proof.
  intros Hf Ha Hmg. unfold App.lesson_detail, bind. cbn [get_db].
  rewrite Hf. cbn [ret].
  unfold form_value at 1 2. rewrite Ha.
  cbn [py_eq String.eqb Ascii.eqb Bool.eqb json_num].
  cbn [py_get lift]. rewrite Hmg. reflexivity.
Qed.

(** In [app_perspectives_fix.py] a slider is recorded with its value and
    is not judged: the event carries no verdict. *)
Lemma fix_slider_not_judged (user_id : Z) (slug lesson_id : string)
    (lesson mg : list (string * json)) (f : form) (d : db) :
  dict_get lesson "minigame" = Some (JDict mg) ->
  mg <> [] ->
  dict_get mg "type" = Some (JStr "slider") ->
  Fix.play user_id slug lesson_id (JDict lesson) f d
  = (Ok ["Thanks for your rating."],
     mkDb (progress d) (artifacts d) (peer_reviews d)
          (events d ++ [mkEvent user_id "minigame_played" (Some slug) (Some lesson_id)
                          (Some (JDict [("game", JStr "slider");
                                        ("value", form_value f "slider_value")]))])).
Proof.
  intros Hmg Hne Ht. unfold Fix.play, bind. cbn [py_get lift]. rewrite Hmg.
  destruct mg as [|kv mg']; [congruence|]. cbn [py_truthy].
  cbn [py_get]. rewrite Ht. reflexivity.
Qed.

(** C9.  In [app.py] a submission to a slider mini-game is judged: with no
    [correct_option] in the lesson and no [minigame_choice] in the form the
    two absent values are equal, so the result and the event say
    [correct = True]. *)
Theorem app_slider_is_judged :
  let f := [("action", "submit_minigame"); ("slider_value", "70")] in
  let out := App.lesson_detail 7 "media" "rate-a-source" slider_lesson POST f empty_db in
  fst out
  = Ok (LessonPage (mkProgress 1 7 "media" "rate-a-source" started 0) None
          (Some (mkMinigameResult true JNull (JStr ""))))
  /\ map e_meta (events (snd out))
     = [None;
        Some (JDict [("game_type", JStr "slider"); ("correct", JBool true);
                     ("selected", JNull)])].
Proof. vm_compute. split; reflexivity. Qed.

(** ** Entering a lesson *)

Lemma py_eq_int (a b : Z) : py_eq (JInt a) (JInt b) = (a =? b).
Proof.
  cbn [py_eq json_num]. unfold num_eq, xcmp.
  rewrite Z.min_id, Z.sub_diag. change (2 ^ 0) with 1. rewrite !Z.mul_1_r.
  destruct (Z.compare_spec a b) as [->|H|H].
  - symmetry; apply Z.eqb_refl.
  - symmetry; apply Z.eqb_neq; lia.
  - symmetry; apply Z.eqb_neq; lia.
Qed.

Lemma py_eq_str (a b : string) : py_eq (JStr a) (JStr b) = String.eqb a b.
Proof. reflexivity. Qed.

Lemma new_row_key (d : db) (u : Z) (s l : string) :
  progress_key u s l (new_row d u s l) = true.
Proof.
  unfold progress_key, new_row; simpl.
  rewrite Z.eqb_refl, !String.eqb_refl. reflexivity.
Qed.

(** The lesson has its row when the body of a route runs, with the status
    [entry_status]. *)
Lemma app_entry_row (d : db) (u : Z) (s l : string) :
  exists p, first_progress (app_entry d u s l) u s l = Some p
            /\ p_status p = entry_status d u s l.
Proof.
  unfold app_entry, entry_status.
  destruct (first_progress d u s l) as [p|] eqn:Hf.
  - exists p. auto.
  - destruct (first_progress_add u s l started 0 d Hf) as [p [Hadd [Hp Hfirst]]].
    exists p. rewrite Hadd in Hfirst. split; [|subst p; reflexivity].
    subst p. exact Hfirst.
Qed.

Lemma fix_entry_row (d : db) (u : Z) (s l : string) :
  exists p, first_progress (fix_entry d u s l) u s l = Some p
            /\ p_status p = entry_status d u s l.
Proof.
  unfold fix_entry, entry_status.
  destruct (first_progress d u s l) as [p|] eqn:Hf.
  - exists p. auto.
  - destruct (first_progress_add u s l started 0 d Hf) as [p [Hadd [Hp Hfirst]]].
    exists p. rewrite Hadd in Hfirst. split; [|subst p; reflexivity].
    subst p. exact Hfirst.
Qed.

(** A route run on the tables is the route run on the tables its head
    leaves. *)
Lemma app_enter (u : Z) (s l : string) (lesson : json) (m : http_method) (f : form) (d : db) :
  App.lesson_detail u s l lesson m f d
  = App.lesson_detail u s l lesson m f (app_entry d u s l).
Proof.
  unfold app_entry. destruct (first_progress d u s l) as [p0|] eqn:Hf; [reflexivity|].
  destruct (first_progress_add u s l started 0 d Hf) as [p1 [Hadd [Hp1 Hfirst]]].
  fold (new_row d u s l) in Hp1. subst p1. rewrite Hadd in Hfirst.
  unfold App.lesson_detail at 2. unfold bind at 1. cbn [get_db].
  change (first_progress _ u s l) with
    (first_progress (snd (Ok (new_row d u s l),
       mkDb (progress d ++ [new_row d u s l]) (artifacts d) (peer_reviews d) (events d)))
       u s l) at 1.
  rewrite Hfirst.
  unfold App.lesson_detail. unfold bind at 1. cbn [get_db]. rewrite Hf.
  unfold bind at 1. unfold bind at 1. rewrite Hadd.
  reflexivity.
Qed.

Lemma fix_enter (u : Z) (s l : string) (lesson : json) (m : http_method) (f : form) (d : db) :
  Fix.lesson u s l lesson m f d
  = Fix.lesson u s l lesson m f (fix_entry d u s l).
Proof.
  unfold fix_entry. destruct (first_progress d u s l) as [p0|] eqn:Hf; [reflexivity|].
  destruct (first_progress_add u s l started 0 d Hf) as [p1 [Hadd [Hp1 Hfirst]]].
  fold (new_row d u s l) in Hp1. subst p1. rewrite Hadd in Hfirst.
  unfold Fix.lesson at 2. unfold bind at 1. cbn [get_db].
  cbn [snd] in Hfirst. rewrite Hfirst.
  unfold Fix.lesson. unfold bind at 1. cbn [get_db]. rewrite Hf.
  unfold bind at 1. rewrite Hadd.
  reflexivity.
Qed.

(** ** Grading a quick check *)

(** [app.py] grades the first quick check: any integer selected is
    compared with [answer_index]; the result carries the selection and the
    whole feedback list; the score is ratcheted, the status left alone. *)
Lemma app_quiz_graded (u : Z) (s l : string) (lesson qc : list (string * json))
    (rest : list json) (f : form) (t : string) (sel : Z) (d : db) (p : Progress) :
  first_progress d u s l = Some p ->
  form_get f "action" = Some "submit_quiz" ->
  form_get f "answer" = Some t ->
  int_of_str t = Ok sel ->
  dict_get lesson "quick_checks" = Some (JList (JDict qc :: rest)) ->
  let answer := dict_get_or qc "answer_index" (JInt 0) in
  let correct := py_eq (JInt sel) answer in
  let score := if correct then 100 else 0 in
  App.lesson_detail u s l (JDict lesson) POST f d
  = (Ok (LessonPage (App.ratchet p score)
           (Some (mkQuizResult correct sel answer
                    (dict_get_or qc "feedback" (JList []))))
           None),
     snd (add_event
            (mkEvent u "quiz_attempted" (Some s) (Some l)
               (Some (JDict [("correct", JBool correct); ("score", JInt score)])))
            (snd (update_progress (App.ratchet p score) d)))).
Proof.
  intros Hf Ha Ht Hsel Hqc answer correct score.
  unfold App.lesson_detail, bind. cbn [get_db]. rewrite Hf. cbn [ret].
  unfold form_value. rewrite Ha.
  cbn [py_eq String.eqb Ascii.eqb Bool.eqb].
  rewrite Ht. cbn [lift]. rewrite Hsel.
  cbn [py_get]. rewrite Hqc.
  reflexivity.
Qed.

Lemma nth_error_index (qcs : list json) (qidx : Z) (v : json) :
  0 <= qidx -> nth_error qcs (Z.to_nat qidx) = Some v ->
  (qidx <? Z.of_nat (List.length qcs)) = true /\ py_index (JList qcs) qidx = Ok v.
Proof.
  intros H0 Hn.
  assert (Z.to_nat qidx < List.length qcs)%nat as Hlt.
  { apply nth_error_Some. congruence. }
  assert ((qidx <? Z.of_nat (List.length qcs)) = true) as Hb by (apply Z.ltb_lt; lia).
  split; [exact Hb|].
  unfold py_index.
  replace (qidx <? 0) with false by (symmetry; apply Z.ltb_ge; lia).
  rewrite Hb. replace (0 <=? qidx) with true by (symmetry; apply Z.leb_le; lia).
  cbn [andb]. rewrite Hn. reflexivity.
Qed.

(** [app_perspectives_fix.py] grades the quick check at [qidx] when there
    is one: the first correct answer completes the lesson. *)
Lemma fix_quiz_graded (u : Z) (s l : string) (lesson qc : list (string * json))
    (qcs : list json) (f : form) (t : string) (sel qidx a : Z) (d : db) (p : Progress) :
  first_progress d u s l = Some p ->
  form_get f "action" = Some "submit_quiz" ->
  match form_get f "qidx" with Some x => int_of_str x | None => Ok 0 end = Ok qidx ->
  form_get f "answer" = Some t ->
  int_of_str t = Ok sel ->
  dict_get lesson "quick_checks" = Some (JList qcs) ->
  0 <= qidx ->
  nth_error qcs (Z.to_nat qidx) = Some (JDict qc) ->
  dict_get qc "answer_index" = Some (JInt a) ->
  let correct := sel =? a in
  let logged :=
    snd (add_event
           (mkEvent u "quiz_attempted" (Some s) (Some l)
              (Some (JDict [("qidx", JInt qidx); ("correct", JBool correct)])))
           d) in
  Fix.lesson u s l (JDict lesson) POST f d
  = (Ok (Redirect "perspectives_bp.lesson"
           [if correct then "Correct!" else "Try again—check the feedback."]),
     if correct && negb (status_eqb (p_status p) completed)
     then snd (update_progress (Fix.complete p) logged)
     else logged).
Proof.
  intros Hf Ha Hq Ht Hsel Hqcs H0 Hn Hans correct logged.
  destruct (nth_error_index qcs qidx _ H0 Hn) as [Hlt Hidx].
  unfold Fix.lesson. unfold bind at 1. cbn [get_db]. rewrite Hf.
  unfold bind at 1. cbn [ret]. rewrite Ha.
  cbn [String.eqb Ascii.eqb Bool.eqb orb].
  unfold Fix.grade, try_except, bind, lift.
  rewrite Hq, Ht, Hsel. cbn [py_get]. rewrite Hqcs.
  replace (0 <=? qidx) with true by (symmetry; apply Z.leb_le; lia).
  cbn [py_len]. rewrite Hlt, Hidx.
  cbn [py_get rbind]. rewrite Hans. cbn [py_int].
  fold correct.
  destruct (correct && negb (status_eqb (p_status p) completed)); reflexivity.
Qed.

(** A quick-check index outside the list is passed over: nothing is
    graded, nothing is emitted and nothing fails. *)
Lemma fix_quiz_out_of_range (u : Z) (s l : string) (lesson : list (string * json))
    (qcs : list json) (f : form) (t : string) (sel qidx : Z) (d : db) (p : Progress) :
  first_progress d u s l = Some p ->
  form_get f "action" = Some "submit_quiz" ->
  match form_get f "qidx" with Some x => int_of_str x | None => Ok 0 end = Ok qidx ->
  form_get f "answer" = Some t ->
  int_of_str t = Ok sel ->
  dict_get lesson "quick_checks" = Some (JList qcs) ->
  qidx < 0 \/ Z.of_nat (List.length qcs) <= qidx ->
  Fix.lesson u s l (JDict lesson) POST f d
  = (Ok (Redirect "perspectives_bp.lesson" []), d).
Proof.
  intros Hf Ha Hq Ht Hsel Hqcs Hout.
  unfold Fix.lesson. unfold bind at 1. cbn [get_db]. rewrite Hf.
  unfold bind at 1. cbn [ret]. rewrite Ha.
  cbn [String.eqb Ascii.eqb Bool.eqb orb].
  unfold Fix.grade, try_except, bind, lift.
  rewrite Hq, Ht, Hsel. cbn [py_get]. rewrite Hqcs.
  destruct (Z.leb_spec 0 qidx) as [H0|H0]; [|reflexivity].
  cbn [py_len].
  replace (qidx <? Z.of_nat (List.length qcs)) with false
    by (symmetry; apply Z.ltb_ge; lia).
  reflexivity.
Qed.
Section RowStatus.
Variables (u : Z) (s l : string) (i : Z) (st : progress_status).

Lemma keeps_status_update (q : Progress) :
  p_id q = i -> progress_key u s l q = true -> p_status q = st ->
  keeps (row_status u s l i st) (update_progress q).
Proof.
  intros Hid Hk Hst d [p [Hf [Hp _]]].
  exists q. split; [|auto].
  eapply first_progress_update; eauto. congruence.
Qed.

Lemma keeps_status_event (e : Event) :
  keeps (row_status u s l i st) (add_event e).
Proof. intros d H. exact H. Qed.
End RowStatus.

Ltac status_step Hk :=
  first
    [ apply keeps_ret
    | apply keeps_lift
    | apply keeps_get_db
    | apply keeps_try
    | apply keeps_status_event
    | apply keeps_status_update; [reflexivity | exact Hk | reflexivity]
    | apply keeps_bind; [|intros]
    | match goal with
      | |- keeps _ (if ?b then _ else _) => destruct b
      | |- keeps _ (match ?x with _ => _ end) => destruct x
      end ].

(** In [app.py] a request that is not [mark_complete] leaves the status
    of the lesson as it is, whatever else it does or raises. *)
Lemma app_status_kept (u : Z) (s l : string) (lesson : json)
    (method : http_method) (f : form) (d : db) :
  py_eq (form_value f "action") (JStr "mark_complete") = false ->
  stored_status (snd (App.lesson_detail u s l lesson method f d)) u s l
  = entry_status d u s l.
Proof.
  intro Hnot. rewrite app_enter.
  destruct (app_entry_row d u s l) as [p [Hf Hst]].
  pose proof (first_progress_key _ _ _ _ _ Hf) as Hk.
  generalize dependent (app_entry d u s l). intros d1 Hf.
  assert (row_status u s l (p_id p) (p_status p) d1) as HI.
  { exists p. auto. }
  cut (row_status u s l (p_id p) (p_status p)
         (snd (App.lesson_detail u s l lesson method f d1))).
  { intros [p' [Hf' [_ Hs']]]. unfold stored_status. rewrite Hf'. congruence. }
  unfold App.lesson_detail.
  unfold bind at 1. cbn [get_db fst snd]. rewrite Hf.
  unfold bind at 1. cbn [ret]. rewrite Hnot.
  keeps_from HI. unfold App.log_event.
  repeat status_step Hk.
Qed.

(** In [app.py] the request [mark_complete] completes the lesson. *)
Lemma app_mark_complete (u : Z) (s l : string) (lesson : json) (f : form) (d : db) :
  form_get f "action" = Some "mark_complete" ->
  stored_status (snd (App.lesson_detail u s l lesson POST f d)) u s l = completed.
Proof.
  intro Ha. rewrite app_enter.
  destruct (app_entry_row d u s l) as [p [Hf _]].
  pose proof (first_progress_key _ _ _ _ _ Hf) as Hk.
  generalize dependent (app_entry d u s l). intros d1 Hf.
  unfold App.lesson_detail, bind. cbn [get_db]. rewrite Hf. cbn [ret].
  unfold form_value. rewrite Ha.
  cbn [py_eq String.eqb Ascii.eqb Bool.eqb json_num].
  unfold App.log_event, add_event. cbn [snd fst update_progress].
  unfold stored_status.
  change (first_progress _ u s l)
    with (first_progress (snd (update_progress (App.mark_complete p) d1)) u s l).
  rewrite (first_progress_update (App.mark_complete p) p u s l d1 Hf eq_refl Hk).
  reflexivity.
Qed.
(** ** Grading, whatever is selected *)

(** [app.py] grades the first quick check when it is an object. *)
Lemma app_quiz_any (u : Z) (s l : string) (lesson qc : list (string * json))
    (rest : list json) (f : form) (sel : Z) (d : db) (p : Progress) :
  first_progress d u s l = Some p ->
  form_get f "action" = Some "submit_quiz" ->
  app_selected f = Ok sel ->
  dict_get lesson "quick_checks" = Some (JList (JDict qc :: rest)) ->
  let answer := dict_get_or qc "answer_index" (JInt 0) in
  let correct := py_eq (JInt sel) answer in
  let score := if correct then 100 else 0 in
  App.lesson_detail u s l (JDict lesson) POST f d
  = (Ok (LessonPage (App.ratchet p score)
           (Some (mkQuizResult correct sel answer
                    (dict_get_or qc "feedback" (JList []))))
           None),
     snd (add_event
            (mkEvent u "quiz_attempted" (Some s) (Some l)
               (Some (JDict [("correct", JBool correct); ("score", JInt score)])))
            (snd (update_progress (App.ratchet p score) d)))).
Proof.
  intros Hf Ha Hsel Hqc answer correct score.
  unfold App.lesson_detail, bind. cbn [get_db]. rewrite Hf. cbn [ret].
  unfold form_value. rewrite Ha.
  cbn [py_eq String.eqb Ascii.eqb Bool.eqb].
  unfold app_selected in Hsel. cbn [lift]. rewrite Hsel.
  cbn [py_get]. rewrite Hqc.
  reflexivity.
Qed.

(** With no quick check to grade, [app.py] fails on the index 0, before
    anything is written. *)
Lemma app_quiz_none (u : Z) (s l : string) (lesson : list (string * json))
    (f : form) (sel : Z) (d : db) (p : Progress) :
  first_progress d u s l = Some p ->
  form_get f "action" = Some "submit_quiz" ->
  app_selected f = Ok sel ->
  dict_get lesson "quick_checks" = Some (JList []) ->
  App.lesson_detail u s l (JDict lesson) POST f d = (Raise IndexError, d).
Proof.
  intros Hf Ha Hsel Hqc.
  unfold App.lesson_detail, bind. cbn [get_db]. rewrite Hf. cbn [ret].
  unfold form_value. rewrite Ha.
  cbn [py_eq String.eqb Ascii.eqb Bool.eqb].
  unfold app_selected in Hsel. cbn [lift]. rewrite Hsel.
  cbn [py_get]. rewrite Hqc.
  reflexivity.
Qed.

(** [app_perspectives_fix.py] grades the quick check at [qidx] when it is
    an object whose answer [int] takes. *)
Lemma fix_quiz_any (u : Z) (s l : string) (lesson qc : list (string * json))
    (qcs : list json) (f : form) (sel qidx a : Z) (d : db) (p : Progress) :
  first_progress d u s l = Some p ->
  form_get f "action" = Some "submit_quiz" ->
  fix_qidx f = Ok qidx ->
  fix_selected f = Ok sel ->
  dict_get lesson "quick_checks" = Some (JList qcs) ->
  0 <= qidx ->
  nth_error qcs (Z.to_nat qidx) = Some (JDict qc) ->
  py_int (dict_get_or qc "answer_index" (JInt (-1))) = Ok a ->
  let correct := sel =? a in
  let logged :=
    snd (add_event
           (mkEvent u "quiz_attempted" (Some s) (Some l)
              (Some (JDict [("qidx", JInt qidx); ("correct", JBool correct)])))
           d) in
  Fix.lesson u s l (JDict lesson) POST f d
  = (Ok (Redirect "perspectives_bp.lesson"
           [if correct then "Correct!" else "Try again—check the feedback."]),
     if correct && negb (status_eqb (p_status p) completed)
     then snd (update_progress (Fix.complete p) logged)
     else logged).
Proof.
  intros Hf Ha Hq Hsel Hqcs H0 Hn Hans correct logged.
  destruct (nth_error_index qcs qidx _ H0 Hn) as [Hlt Hidx].
  unfold Fix.lesson. unfold bind at 1. cbn [get_db]. rewrite Hf.
  unfold bind at 1. cbn [ret]. rewrite Ha.
  cbn [String.eqb Ascii.eqb Bool.eqb orb].
  unfold fix_qidx in Hq. unfold fix_selected in Hsel.
  unfold Fix.grade, try_except, bind, lift.
  rewrite Hq, Hsel. cbn [py_get]. rewrite Hqcs.
  replace (0 <=? qidx) with true by (symmetry; apply Z.leb_le; lia).
  cbn [py_len]. rewrite Hlt, Hidx.
  cbn [py_get rbind]. unfold dict_get_or in Hans. rewrite Hans.
  fold correct.
  destruct (correct && negb (status_eqb (p_status p) completed)); reflexivity.
Qed.

Lemma fix_quiz_outside (u : Z) (s l : string) (lesson : list (string * json))
    (qcs : list json) (f : form) (sel qidx : Z) (d : db) (p : Progress) :
  first_progress d u s l = Some p ->
  form_get f "action" = Some "submit_quiz" ->
  fix_qidx f = Ok qidx ->
  fix_selected f = Ok sel ->
  dict_get lesson "quick_checks" = Some (JList qcs) ->
  qidx < 0 \/ Z.of_nat (List.length qcs) <= qidx ->
  Fix.lesson u s l (JDict lesson) POST f d
  = (Ok (Redirect "perspectives_bp.lesson" []), d).
Proof.
  intros Hf Ha Hq Hsel Hqcs Hout.
  unfold Fix.lesson. unfold bind at 1. cbn [get_db]. rewrite Hf.
  unfold bind at 1. cbn [ret]. rewrite Ha.
  cbn [String.eqb Ascii.eqb Bool.eqb orb].
  unfold fix_qidx in Hq. unfold fix_selected in Hsel.
  unfold Fix.grade, try_except, bind, lift.
  rewrite Hq, Hsel. cbn [py_get]. rewrite Hqcs.
  destruct (Z.leb_spec 0 qidx) as [H0|H0]; [|reflexivity].
  cbn [py_len].
  replace (qidx <? Z.of_nat (List.length qcs)) with false
    by (symmetry; apply Z.ltb_ge; lia).
  reflexivity.
Qed.

(** C1, as the code has it.  For a lesson whose [quick_checks] is a list
    and a quiz submission whose selected index is an integer (the posted
    answer as [int] reads it; without one, -1, or in
    [app_perspectives_fix.py] the posted [choice_idx]): the selected index
    is never compared with the choices of the quick check, and nothing
    fails for an index outside them.

    [app.py] grades the first quick check.  When that is an object,
    [correct] is true exactly when the selected index equals
    [answer_index] (0 when the quick check has none) as Python compares
    them, and the result carries the selected index, the answer and the
    whole feedback list of the quick check (empty when it has none);
    when [quick_checks] is empty the request fails with [IndexError].

    [app_perspectives_fix.py] grades the quick check at [qidx] (0 when
    none is posted).  When the index is in the list and the quick check
    there is an object whose [answer_index] (-1 when it has none) [int]
    takes as [a], it flashes Correct! exactly when the selected index is
    [a], and Try again otherwise; a [qidx] outside the list is passed over:
    nothing is graded, nothing fails and nothing but the row of the visit
    is written.

    So for a first quick check with the choices [choices] and an integer
    answer [a], a selected index below 0 or not below the number of
    choices is graded in both flows, as correct exactly when it is [a]. *)
Theorem quiz_graded_without_range_check
    (u : Z) (s l : string) (lesson : list (string * json)) (qcs : list json)
    (f : form) (d : db)
    (Hqcs : dict_get lesson "quick_checks" = Some (JList qcs))
    (Ha : form_get f "action" = Some "submit_quiz") :
  (forall qc rest sel,
      qcs = JDict qc :: rest ->
      app_selected f = Ok sel ->
      exists p,
        first_progress (app_entry d u s l) u s l = Some p
        /\ fst (App.lesson_detail u s l (JDict lesson) POST f d)
           = Ok (LessonPage
                   (App.ratchet p
                      (if py_eq (JInt sel) (dict_get_or qc "answer_index" (JInt 0))
                       then 100 else 0))
                   (Some (mkQuizResult
                            (py_eq (JInt sel) (dict_get_or qc "answer_index" (JInt 0)))
                            sel
                            (dict_get_or qc "answer_index" (JInt 0))
                            (dict_get_or qc "feedback" (JList []))))
                   None))
  /\ (forall sel,
        qcs = [] ->
        app_selected f = Ok sel ->
        fst (App.lesson_detail u s l (JDict lesson) POST f d) = Raise IndexError)
  /\ (forall qc sel qidx a,
        fix_qidx f = Ok qidx ->
        fix_selected f = Ok sel ->
        0 <= qidx ->
        nth_error qcs (Z.to_nat qidx) = Some (JDict qc) ->
        py_int (dict_get_or qc "answer_index" (JInt (-1))) = Ok a ->
        fst (Fix.lesson u s l (JDict lesson) POST f d)
        = Ok (Redirect "perspectives_bp.lesson"
                [if sel =? a then "Correct!" else "Try again—check the feedback."]))
  /\ (forall sel qidx,
        fix_qidx f = Ok qidx ->
        fix_selected f = Ok sel ->
        qidx < 0 \/ Z.of_nat (List.length qcs) <= qidx ->
        Fix.lesson u s l (JDict lesson) POST f d
        = (Ok (Redirect "perspectives_bp.lesson" []), fix_entry d u s l))
  /\ (forall qc rest choices a sel,
        qcs = JDict qc :: rest ->
        dict_get qc "choices" = Some (JList choices) ->
        dict_get qc "answer_index" = Some (JInt a) ->
        app_selected f = Ok sel ->
        fix_selected f = Ok sel ->
        fix_qidx f = Ok 0 ->
        sel < 0 \/ Z.of_nat (List.length choices) <= sel ->
        (exists p,
           fst (App.lesson_detail u s l (JDict lesson) POST f d)
           = Ok (LessonPage p
                   (Some (mkQuizResult (sel =? a) sel (JInt a)
                            (dict_get_or qc "feedback" (JList []))))
                   None))
        /\ fst (Fix.lesson u s l (JDict lesson) POST f d)
           = Ok (Redirect "perspectives_bp.lesson"
                   [if sel =? a then "Correct!"
                    else "Try again—check the feedback."])).
Proof.
  destruct (app_entry_row d u s l) as [pa [Hfa _]].
  destruct (fix_entry_row d u s l) as [pf [Hff _]].
  split; [|split; [|split; [|split]]].
  - intros qc rest sel -> Hsel. exists pa. split; [exact Hfa|].
    rewrite app_enter.
    rewrite (app_quiz_any u s l lesson qc rest f sel _ pa Hfa Ha Hsel Hqcs).
    reflexivity.
  - intros sel -> Hsel. rewrite app_enter.
    rewrite (app_quiz_none u s l lesson f sel _ pa Hfa Ha Hsel Hqcs).
    reflexivity.
  - intros qc sel qidx a Hq Hsel H0 Hn Hans. rewrite fix_enter.
    rewrite (fix_quiz_any u s l lesson qc qcs f sel qidx a _ pf
               Hff Ha Hq Hsel Hqcs H0 Hn Hans).
    reflexivity.
  - intros sel qidx Hq Hsel Hout. rewrite fix_enter.
    exact (fix_quiz_outside u s l lesson qcs f sel qidx _ pf Hff Ha Hq Hsel Hqcs Hout).
  - intros qc rest choices a sel -> _ Hans Hsa Hsf Hq _. split.
    + eexists. rewrite app_enter.
      rewrite (app_quiz_any u s l lesson qc rest f sel _ pa Hfa Ha Hsa Hqcs).
      unfold dict_get_or at 1 2 3. rewrite Hans, py_eq_int. reflexivity.
    + rewrite fix_enter.
      rewrite (fix_quiz_any u s l lesson qc (JDict qc :: rest) f sel 0 a _ pf
                 Hff Ha Hq Hsf Hqcs (Z.le_refl 0) eq_refl).
      * reflexivity.
      * unfold dict_get_or. rewrite Hans. reflexivity.
Qed.

Lemma quiz_graded_witness :
  let f := [("action", "submit_quiz"); ("answer", "7")] in
  (exists p,
     fst (App.lesson_detail 7 "media" "signals-of-reliability" seed_lesson POST f empty_db)
     = Ok (LessonPage p
             (Some (mkQuizResult false 7 (JInt 1)
                      (JList [JStr "Logos can be easily faked.";
                              JStr "Correct.";
                              JStr "Advertisements say nothing about the evidence."])))
             None))
  /\ fst (Fix.lesson 7 "media" "signals-of-reliability" seed_lesson POST f empty_db)
     = Ok (Redirect "perspectives_bp.lesson" ["Try again—check the feedback."]).
Proof.
  exact (proj2 (proj2 (proj2 (proj2
           (quiz_graded_without_range_check 7 "media" "signals-of-reliability"
              seed_items _ [("action", "submit_quiz"); ("answer", "7")]
              empty_db eq_refl eq_refl))))
           _ _
           [JStr "Has a professional-looking logo";
            JStr "Lists sources and has a corrections policy";
            JStr "Has lots of advertisements"]
           1 7 eq_refl eq_refl eq_refl eq_refl eq_refl eq_refl
           (or_intror (proj1 (Z.leb_le 3 7) eq_refl))).
Defined.

(** Against C1 as stated: the seeded quick check has three choices and
    the answer 1; the selection 7 is graded as incorrect in both flows, with
    no failure, [app.py] returning the whole feedback list; and in
    [app_perspectives_fix.py] the quick-check index 5 is passed over. *)
Lemma quiz_outside_choices_is_graded :
  let quiz := [("action", "submit_quiz"); ("answer", "7")] in
  let far := [("action", "submit_quiz"); ("answer", "1"); ("qidx", "5")] in
  fst (App.lesson_detail 7 "media" "signals-of-reliability" seed_lesson POST quiz empty_db)
  = Ok (LessonPage (mkProgress 1 7 "media" "signals-of-reliability" started 0)
          (Some (mkQuizResult false 7 (JInt 1)
                   (JList [JStr "Logos can be easily faked.";
                           JStr "Correct.";
                           JStr "Advertisements say nothing about the evidence."])))
          None)
  /\ fst (Fix.lesson 7 "media" "signals-of-reliability" seed_lesson POST quiz empty_db)
     = Ok (Redirect "perspectives_bp.lesson" ["Try again—check the feedback."])
  /\ fst (Fix.lesson 7 "media" "signals-of-reliability" seed_lesson POST far empty_db)
     = Ok (Redirect "perspectives_bp.lesson" []).
Proof. vm_compute. repeat split; reflexivity. Qed.

(** ** Completion on a correct answer *)

(** C7, as the code has it.  After a correct answer to the first quick
    check, [app.py] leaves the status of the lesson as it was (there the
    status changes only by [mark_complete], which completes the lesson),
    and [app_perspectives_fix.py] has the lesson completed: the two flows
    end in the same status exactly when the lesson was completed already. *)
Theorem correct_quiz_completion
    (u : Z) (s l : string) (lesson qc : list (string * json)) (rest : list json)
    (f : form) (t : string) (a : Z) (d : db)
    (Hqcs : dict_get lesson "quick_checks" = Some (JList (JDict qc :: rest)))
    (Hans : dict_get qc "answer_index" = Some (JInt a))
    (Ha : form_get f "action" = Some "submit_quiz")
    (Hq : form_get f "qidx" = None)
    (Ht : form_get f "answer" = Some t)
    (Hsel : int_of_str t = Ok a) :
  let after_app := snd (App.lesson_detail u s l (JDict lesson) POST f d) in
  let after_fix := snd (Fix.lesson u s l (JDict lesson) POST f d) in
  stored_status after_app u s l = entry_status d u s l
  /\ stored_status after_fix u s l = completed
  /\ (stored_status after_app u s l = stored_status after_fix u s l
      <-> entry_status d u s l = completed)
  /\ (forall lesson' method f',
        py_eq (form_value f' "action") (JStr "mark_complete") = false ->
        stored_status (snd (App.lesson_detail u s l lesson' method f' d)) u s l
        = entry_status d u s l)
  /\ (forall lesson' f',
        form_get f' "action" = Some "mark_complete" ->
        stored_status (snd (App.lesson_detail u s l lesson' POST f' d)) u s l
        = completed).
Proof.
  cbv zeta.
  assert (stored_status (snd (App.lesson_detail u s l (JDict lesson) POST f d)) u s l
          = entry_status d u s l) as Happ.
  { apply app_status_kept. unfold form_value. rewrite Ha. reflexivity. }
  assert (stored_status (snd (Fix.lesson u s l (JDict lesson) POST f d)) u s l
          = completed) as Hfix.
  { destruct (fix_entry_row d u s l) as [p [Hf Hst]].
    pose proof (first_progress_key _ _ _ _ _ Hf) as Hk.
    rewrite fix_enter.
    assert (match form_get f "qidx" with Some x => int_of_str x | None => Ok 0 end
            = Ok 0) as Hq0 by (rewrite Hq; reflexivity).
    rewrite (fix_quiz_graded u s l lesson qc (JDict qc :: rest) f t a 0 a _ p
               Hf Ha Hq0 Ht Hsel Hqcs (Z.le_refl 0) eq_refl Hans).
    cbn [snd]. rewrite Z.eqb_refl. cbn [andb].
    unfold stored_status.
    destruct (status_eqb (p_status p) completed) eqn:Ec; cbn [negb].
    - unfold add_event. cbn [snd].
      change (first_progress _ u s l) with (first_progress (fix_entry d u s l) u s l).
      rewrite Hf. destruct (p_status p); simpl in Ec; congruence.
    - change (first_progress _ u s l)
        with (first_progress (snd (update_progress (Fix.complete p) (fix_entry d u s l))) u s l).
      rewrite (first_progress_update (Fix.complete p) p u s l _ Hf eq_refl Hk).
      reflexivity. }
  split; [exact Happ|]. split; [exact Hfix|]. split.
  - rewrite Happ, Hfix. tauto.
  - split.
    + intros lesson' method f' Hnot. apply app_status_kept; assumption.
    + intros lesson' f' Hm. apply app_mark_complete; assumption.
Qed.

Lemma correct_quiz_completion_witness :
  let f := [("action", "submit_quiz"); ("answer", "1")] in
  stored_status
    (snd (App.lesson_detail 7 "media" "signals-of-reliability" seed_lesson POST f empty_db))
    7 "media" "signals-of-reliability"
  = entry_status empty_db 7 "media" "signals-of-reliability"
  /\ stored_status
       (snd (Fix.lesson 7 "media" "signals-of-reliability" seed_lesson POST f empty_db))
       7 "media" "signals-of-reliability"
     = completed.
Proof.
  pose proof (correct_quiz_completion 7 "media" "signals-of-reliability"
                seed_items _ _ [("action", "submit_quiz"); ("answer", "1")] "1" 1
                empty_db eq_refl eq_refl eq_refl eq_refl eq_refl eq_refl) as H.
  cbv zeta in H. destruct H as [H1 [H2 _]]. split; [exact H1 | exact H2].
Defined.

(** Against C7 as stated: after the same correct answer on the same
    tables the lesson is started in the flow of [app.py] and completed in
    the flow of [app_perspectives_fix.py]. *)
Lemma correct_quiz_status_differs :
  let f := [("action", "submit_quiz"); ("answer", "1")] in
  stored_status
    (snd (App.lesson_detail 7 "media" "signals-of-reliability" seed_lesson POST f empty_db))
    7 "media" "signals-of-reliability"
  = started
  /\ stored_status
       (snd (Fix.lesson 7 "media" "signals-of-reliability" seed_lesson POST f empty_db))
       7 "media" "signals-of-reliability"
     = completed.
Proof. vm_compute. split; reflexivity. Qed.
(** ** Looking a perspective up by its slug *)

(** C10.  When the content directory has the file [<slug>.json] and the
    file loads, [_load_perspective] returns the loaded document as it is,
    with none of the guard rails of [_load_all_perspectives] applied.  So
    the look-up by file name and a look-up by scanning can differ: for the
    file [intro.json] that has only its lessons the first returns the bare
    document, the scan of [app_perspectives_fix.py] the document with
    slug, title, summary and order filled in, and the scan of [app.py]
    raises on the missing slug; and where two files declare each other's
    name as slug, the first returns one file and the scans the other. *)
Theorem load_perspective_returns_file_as_stored
    (files : content_dir) (slug base : string) (doc : json)
    (Hfile : find (fun f => String.eqb (fst f) slug) files = Some (base, Ok doc)) :
  Fix._load_perspective files slug = Ok doc
  /\ (Fix._load_perspective bare_dir "intro" = Ok (JDict [("lessons", JList [])])
      /\ Fix.scan bare_dir "intro"
         = Ok (JDict [("lessons", JList []); ("slug", JStr "intro");
                      ("title", JStr "Intro"); ("summary", JStr "");
                      ("order", JInt 9999)])
      /\ App.get_perspective_by_slug bare_dir "intro" = Raise KeyError)
  /\ (Fix._load_perspective crossed_dir "alpha"
      = Ok (JDict [("slug", JStr "beta"); ("title", JStr "B"); ("order", JInt 1)])
      /\ Fix.scan crossed_dir "alpha"
         = Ok (JDict [("slug", JStr "alpha"); ("title", JStr "A"); ("order", JInt 2);
                      ("summary", JStr ""); ("lessons", JList [])])
      /\ App.get_perspective_by_slug crossed_dir "alpha"
         = Ok (JDict [("slug", JStr "alpha"); ("title", JStr "A"); ("order", JInt 2)])).
Proof.
  split.
  - unfold Fix._load_perspective. rewrite Hfile. reflexivity.
  - split; vm_compute; repeat split; reflexivity.
Qed.

Lemma load_perspective_witness :
  find (fun f => String.eqb (fst f) "intro") bare_dir
  = Some ("intro", Ok (JDict [("lessons", JList [])]))
  /\ Fix._load_perspective bare_dir "intro" = Ok (JDict [("lessons", JList [])]).
Proof.
  split.
  - reflexivity.
  - exact (proj1 (load_perspective_returns_file_as_stored bare_dir "intro" "intro"
                    (JDict [("lessons", JList [])]) eq_refl)).
Defined.
(** ** Order on strings *)

Lemma ascii_compare_trans (a b c : ascii) :
  Ascii.compare a b = Lt -> Ascii.compare b c = Lt -> Ascii.compare a c = Lt.
Proof.
  unfold Ascii.compare. rewrite !N.compare_lt_iff. apply N.lt_trans.
Qed.

Lemma string_compare_refl (a : string) : String.compare a a = Eq.
Proof.
  induction a as [|x a IH]; simpl; [reflexivity|].
  unfold Ascii.compare. rewrite N.compare_refl. exact IH.
Qed.

Lemma string_compare_trans : forall a b c : string,
  String.compare a b = Lt -> String.compare b c = Lt -> String.compare a c = Lt.
Proof.
  induction a as [|x a IH]; intros [|y b] [|z c]; simpl; try congruence.
  destruct (Ascii.compare x y) eqn:Exy; try congruence;
    destruct (Ascii.compare y z) eqn:Eyz; try congruence; intros H1 H2.
  - apply Ascii.compare_eq_iff in Exy, Eyz. subst.
    unfold Ascii.compare. rewrite N.compare_refl. eapply IH; eauto.
  - apply Ascii.compare_eq_iff in Exy. subst. rewrite Eyz. reflexivity.
  - apply Ascii.compare_eq_iff in Eyz. subst. rewrite Exy. reflexivity.
  - rewrite (ascii_compare_trans _ _ _ Exy Eyz). reflexivity.
Qed.

Lemma string_ltb_leb (a b : string) : String.ltb a b = false <-> String.leb b a = true.
Proof.
  unfold String.ltb, String.leb. rewrite (String.compare_antisym a b).
  destruct (String.compare b a); simpl; split; congruence.
Qed.

Lemma string_ltb_asym (a b : string) : String.ltb a b = true -> String.ltb b a = false.
Proof.
  unfold String.ltb. rewrite (String.compare_antisym a b).
  destruct (String.compare b a); simpl; congruence.
Qed.

Lemma string_ltb_irrefl (a : string) : String.ltb a a = false.
Proof. unfold String.ltb. rewrite string_compare_refl. reflexivity. Qed.

(** Not below is transitive. *)
Lemma string_nlt_trans (a b c : string) :
  String.ltb b a = false -> String.ltb c b = false -> String.ltb c a = false.
Proof.
  unfold String.ltb. intros H1 H2.
  destruct (String.compare c a) eqn:Eca; try reflexivity. exfalso.
  destruct (String.compare b a) eqn:Eba; try discriminate.
  - apply String.compare_eq_iff in Eba. subst. rewrite Eca in H2. discriminate.
  - destruct (String.compare c b) eqn:Ecb; try discriminate.
    + apply String.compare_eq_iff in Ecb. subst. congruence.
    + (* a < b (since b > a), c < a, so c < b: contradiction with c > b *)
      assert (String.compare a b = Lt) as Hab.
      { rewrite String.compare_antisym, Eba. reflexivity. }
      rewrite (string_compare_trans _ _ _ Eca Hab) in Ecb. discriminate.
Qed.

(** ** Order on keys *)

Lemma py_lt_int (a b : Z) : py_lt (JInt a) (JInt b) = Ok (a <? b).
Proof.
  cbn [py_lt json_num]. unfold xcmp.
  rewrite Z.min_id, Z.sub_diag. change (2 ^ 0) with 1. rewrite !Z.mul_1_r.
  reflexivity.
Qed.

Lemma tuple_lt_key (a b : json * json) :
  int_str_key a -> int_str_key b -> Fix.tuple_lt a b = Ok (key_ltb a b).
Proof.
  intros [n [t ->]] [n' [t' ->]]. unfold Fix.tuple_lt, key_ltb. cbn [fst snd].
  rewrite py_eq_int, py_eq_str, py_lt_int.
  destruct (n =? n'); [|reflexivity].
  destruct (String.eqb_spec t t') as [->|Hne].
  - rewrite string_ltb_irrefl. reflexivity.
  - reflexivity.
Qed.

Lemma key_ltb_asym (a b : json * json) :
  int_str_key a -> int_str_key b -> key_ltb a b = true -> key_ltb b a = false.
Proof.
  intros [n [t ->]] [n' [t' ->]]. unfold key_ltb.
  rewrite (Z.eqb_sym n' n).
  destruct (Z.eqb_spec n n') as [->|Hne].
  - apply string_ltb_asym.
  - rewrite Z.ltb_lt. intro. apply Z.ltb_ge. lia.
Qed.

Lemma key_nlt_trans (a b c : json * json) :
  int_str_key a -> int_str_key b -> int_str_key c ->
  key_ltb b a = false -> key_ltb c b = false -> key_ltb c a = false.
Proof.
  intros [n1 [t1 ->]] [n2 [t2 ->]] [n3 [t3 ->]]. unfold key_ltb.
  destruct (Z.eqb_spec n2 n1) as [E21|E21];
    destruct (Z.eqb_spec n3 n2) as [E32|E32];
    destruct (Z.eqb_spec n3 n1) as [E31|E31];
    try (exfalso; lia);
    rewrite ?Z.ltb_ge; intros H1 H2;
    first [ lia | eapply string_nlt_trans; eassumption | idtac ].
Qed.
(** ** Sorting *)

Section SortOrdered.
Context {K A : Type}.
Variables (lt : K -> K -> result bool) (ltb : K -> K -> bool) (dom : K -> Prop).
Hypothesis lt_dom : forall a b, dom a -> dom b -> lt a b = Ok (ltb a b).
Hypothesis ltb_asym : forall a b, dom a -> dom b -> ltb a b = true -> ltb b a = false.
Hypothesis nlt_trans : forall a b c, dom a -> dom b -> dom c ->
  ltb b a = false -> ltb c b = false -> ltb c a = false.

Let le (x y : K * A) : Prop := ltb (fst y) (fst x) = false.
Let indom (x : K * A) : Prop := dom (fst x).

Lemma insert_ordered (x : K * A) : forall acc,
  indom x -> Forall indom acc -> StronglySorted le acc ->
  exists r, insert lt x acc = Ok r
            /\ Permutation r (x :: acc)
            /\ StronglySorted le r.
Proof.
  induction acc as [|y acc IH]; intros Hx Hacc Hs; simpl.
  - exists [x]. repeat split; auto. constructor; constructor.
  - inversion Hacc as [|? ? Hy Hacc']; subst.
    inversion Hs as [|? ? Hs' Hall]; subst.
    rewrite (lt_dom _ _ Hx Hy). simpl.
    destruct (ltb (fst x) (fst y)) eqn:Exy.
    + exists (x :: y :: acc). split; [reflexivity|]. split; [apply Permutation_refl|].
      constructor; [assumption|].
      assert (le x y) as Hxy by (apply ltb_asym; assumption).
      constructor; [exact Hxy|].
      rewrite Forall_forall in Hall, Hacc' |- *. intros z Hz.
      unfold le in *. eapply (nlt_trans (fst x) (fst y) (fst z)); auto.
      apply Hacc'; assumption.
    + destruct (IH Hx Hacc' Hs') as [r [Hr [Hp Hsr]]].
      rewrite Hr. simpl. exists (y :: r). split; [reflexivity|]. split.
      * rewrite Hp. apply perm_swap.
      * constructor; [assumption|].
        rewrite Forall_forall in Hall |- *. intros z Hz.
        apply (Permutation_in _ Hp) in Hz. destruct Hz as [<-|Hz].
        -- exact Exy.
        -- apply Hall; assumption.
Qed.

Lemma sort_keyed_ordered : forall l acc,
  Forall indom l -> Forall indom acc -> StronglySorted le acc ->
  exists r, sort_keyed lt acc l = Ok r
            /\ Permutation r (acc ++ l)
            /\ StronglySorted le r.
Proof.
  induction l as [|x l IH]; intros acc Hl Hacc Hs; simpl.
  - exists acc. rewrite app_nil_r. auto.
  - inversion Hl as [|? ? Hx Hl']; subst.
    destruct (insert_ordered x acc Hx Hacc Hs) as [r [Hr [Hp Hsr]]].
    rewrite Hr. simpl.
    assert (Forall indom r) as Hdr.
    { rewrite Forall_forall. intros z Hz.
      apply (Permutation_in _ Hp) in Hz. destruct Hz as [<-|Hz]; [assumption|].
      rewrite Forall_forall in Hacc. auto. }
    destruct (IH r Hl' Hdr Hsr) as [r' [Hr' [Hp' Hsr']]].
    exists r'. split; [assumption|]. split; [|assumption].
    rewrite Hp'. rewrite Hp.
    change (x :: acc ++ l)%list with ((x :: acc) ++ l)%list.
    rewrite (Permutation_middle acc l x). reflexivity.
Qed.

(** When the keys of the items are in a domain that [<] orders, the sort
    returns the items, all of them, in an order in which no item is below
    one before it. *)
Lemma sort_by_ordered (key : A -> result K) (kf : A -> K) (l : list A) :
  (forall x, In x l -> key x = Ok (kf x) /\ dom (kf x)) ->
  exists r, sort_by lt key l = Ok r
            /\ Permutation r l
            /\ StronglySorted (fun x y => ltb (kf y) (kf x) = false) r.
Proof.
  intro Hkey. unfold sort_by.
  assert (with_keys key l = Ok (map (fun x => (kf x, x)) l)) as Hk.
  { induction l as [|x l IH]; simpl; [reflexivity|].
    destruct (Hkey x (or_introl eq_refl)) as [-> _]. simpl.
    rewrite IH; [reflexivity|]. intros y Hy. apply Hkey. right; assumption. }
  rewrite Hk. simpl.
  destruct (sort_keyed_ordered (map (fun x => (kf x, x)) l) [])
    as [r [Hr [Hp Hs]]].
  - rewrite Forall_forall. intros kx Hin. apply in_map_iff in Hin.
    destruct Hin as [x [<- Hx]]. apply Hkey; assumption.
  - constructor.
  - constructor.
  - rewrite Hr. simpl. exists (map snd r). split; [reflexivity|].
    simpl in Hp. split.
    + rewrite Hp. rewrite map_map. simpl. rewrite map_id. reflexivity.
    + assert (Forall (fun kx => fst kx = kf (snd kx)) r) as Hfst.
      { rewrite Forall_forall. intros kx Hin.
        apply (Permutation_in _ Hp) in Hin. apply in_map_iff in Hin.
        destruct Hin as [x [<- Hx]]. reflexivity. }
      clear Hr Hp. induction Hs as [|kx r Hs IH Hall]; simpl; [constructor|].
      inversion Hfst as [|? ? Hkx Hfst']; subst.
      constructor; [apply IH; assumption|].
      rewrite Forall_forall in Hall, Hfst' |- *. intros y Hy.
      apply in_map_iff in Hy. destruct Hy as [ky [<- Hky]].
      specialize (Hall ky Hky). unfold le in Hall.
      rewrite Hkx, (Hfst' ky Hky) in Hall. exact Hall.
Qed.
End SortOrdered.
(** ** Loading the perspectives *)

Lemma dict_get_set (d : list (string * json)) (k : string) (v : json) (k' : string) :
  dict_get (dict_set d k v) k' = if String.eqb k k' then Some v else dict_get d k'.
Proof.
  induction d as [|[k0 v0] d IH]; simpl.
  - destruct (String.eqb k k'); reflexivity.
  - destruct (String.eqb_spec k0 k) as [->|Hne]; simpl.
    + destruct (String.eqb k k'); reflexivity.
    + rewrite IH. destruct (String.eqb_spec k0 k') as [->|Hne'].
      * destruct (String.eqb_spec k k'); [congruence|reflexivity].
      * reflexivity.
Qed.

Lemma dict_get_setdefault (d : list (string * json)) (k : string) (v : json) (k' : string) :
  dict_get (dict_setdefault d k v) k'
  = if String.eqb k k' then Some (dict_get_or d k v) else dict_get d k'.
Proof.
  unfold dict_setdefault, dict_mem, dict_get_or.
  destruct (dict_get d k) as [w|] eqn:Hk.
  - destruct (String.eqb_spec k k') as [<-|]; [assumption|reflexivity].
  - apply dict_get_set.
Qed.

(** The guard rails fill in what is missing of a document that is an
    object. *)
Lemma guard_defaulted (st : string) (d : list (string * json)) :
  exists g, Fix.guard st (JDict d) = Ok g /\ defaulted st d g.
Proof.
  unfold Fix.guard. eexists. split; [reflexivity|].
  eexists. split; [reflexivity|]. unfold dict_get_or.
  repeat split.
  1-5: repeat (rewrite ?dict_get_setdefault, ?dict_get_set;
               unfold dict_get_or;
               cbn [String.eqb Ascii.eqb Bool.eqb]);
       reflexivity.
  intros k Hk. simpl in Hk.
  repeat (first [rewrite (dict_get_setdefault _ _ _ k) | rewrite (dict_get_set _ _ _ k)];
          match goal with
          | |- context [String.eqb ?a k] =>
              destruct (String.eqb_spec a k) as [<-|];
              [exfalso; apply Hk; tauto|]
          end).
  reflexivity.
Qed.

Lemma gather_kept (files : content_dir) :
  Forall2 (fun sd g => defaulted (fst sd) (snd sd) g) (kept files) (Fix.gather files).
Proof.
  induction files as [|[base content] files IH]; [constructor|].
  unfold kept, Fix.gather in *. cbn [flat_map fst snd].
  destruct content as [doc|e]; cbn [rbind app]; [|exact IH].
  destruct (match doc with JDict _ => true | _ => false end) eqn:Edoc.
  - destruct doc; try discriminate.
    destruct (guard_defaulted (stem base) d) as [g [Hg Hd]].
    rewrite Hg. cbn [app]. constructor; assumption.
  - destruct doc; try discriminate; exact IH.
Qed.

Lemma notes_skipped (files : content_dir) :
  Fix.notes files
  = flat_map (fun f =>
                match snd f with
                | Ok (JDict _) => []
                | _ => [fst f ++ ".json"]
                end) files.
Proof.
  induction files as [|[base content] files IH]; [reflexivity|].
  unfold Fix.notes in *. cbn [flat_map fst snd]. rewrite IH. f_equal.
  destruct content as [doc|e]; cbn [rbind]; [|reflexivity].
  destruct (match doc with JDict _ => true | _ => false end) eqn:Edoc.
  - destruct doc; try discriminate.
    destruct (guard_defaulted (stem base) d) as [g [Hg _]].
    rewrite Hg. reflexivity.
  - destruct doc; try discriminate; reflexivity.
Qed.

Lemma kept_in (files : content_dir) (st : string) (d : list (string * json)) :
  In (st, d) (kept files) ->
  exists f, In f files /\ snd f = Ok (JDict d) /\ st = stem (fst f).
Proof.
  unfold kept. intro H. apply in_flat_map in H. destruct H as [f [Hf Hin]].
  exists f. split; [assumption|].
  destruct (snd f) as [doc|]; [|contradiction].
  destruct doc; try contradiction.
  destruct Hin as [Heq|[]]. injection Heq as -> ->. auto.
Qed.

Lemma Forall2_in_right {A B : Type} (R : A -> B -> Prop) (l : list A) (l' : list B) :
  Forall2 R l l' -> forall y, In y l' -> exists x, In x l /\ R x y.
Proof.
  induction 1 as [|x y l l' Hxy _ IH]; intros z Hz; [contradiction|].
  destruct Hz as [<-|Hz].
  - exists x. split; [left; reflexivity|assumption].
  - destruct (IH z Hz) as [x' [Hx' Hr]]. exists x'. split; [right|]; assumption.
Qed.

Lemma strongly_sorted_impl {A : Type} (R R' : A -> A -> Prop) (l : list A) :
  (forall x y, In x l -> In y l -> R x y -> R' x y) ->
  StronglySorted R l -> StronglySorted R' l.
Proof.
  intros Himp Hs. induction Hs as [|x l Hs IH Hall]; [constructor|].
  constructor.
  - apply IH. intros a b Ha Hb. apply Himp; right; assumption.
  - rewrite Forall_forall in Hall |- *. intros y Hy.
    apply Himp; [left; reflexivity|right; assumption|apply Hall; assumption].
Qed.

Lemma key_nlt_le (x y : json) : key_ltb (doc_key y) (doc_key x) = false -> key_le x y.
Proof.
  unfold key_ltb, doc_key, key_le.
  destruct (Z.eqb_spec (doc_order y) (doc_order x)) as [E|E].
  - intro H. right. split; [congruence|]. apply string_ltb_leb; assumption.
  - rewrite Z.ltb_ge. intro. left. lia.
Qed.

(** X23.  When the titles that the documents declare are strings,
    [_load_all_perspectives] returns, whatever else the directory holds:
    every document that loads and is an object, once, and no other (a
    file that does not load or holds another value is skipped, with a
    note printed for it); each with slug, title, summary, lessons and
    order filled in as [defaulted] says; in ascending order of
    (order, title). *)
Theorem load_all_defaults_and_sorts (files : content_dir)
    (Htitles : forall f d t,
        In f files -> snd f = Ok (JDict d) -> dict_get d "title" = Some t ->
        exists s, t = JStr s) :
  exists out,
    Fix._load_all_perspectives files = Ok out
    /\ Permutation out (Fix.gather files)
    /\ Forall2 (fun sd g => defaulted (fst sd) (snd sd) g)
               (kept files) (Fix.gather files)
    /\ Fix.notes files
       = flat_map (fun f =>
                     match snd f with
                     | Ok (JDict _) => []
                     | _ => [fst f ++ ".json"]
                     end) files
    /\ StronglySorted key_le out.
Proof.
  pose proof (gather_kept files) as Hk.
  assert (forall x, In x (Fix.gather files) ->
            Fix.sort_key x = Ok (doc_key x) /\ int_str_key (doc_key x)) as Hkey.
  { intros x Hx. split; [|unfold doc_key, int_str_key; eauto].
    destruct (Forall2_in_right _ _ _ Hk x Hx) as [[st d] [Hin Hd]].
    destruct Hd as [gd [-> [_ [Ht [_ [_ [Ho _]]]]]]]. simpl in Ht, Ho.
    destruct (kept_in _ _ _ Hin) as [f [Hf [Hsnd _]]].
    assert (exists s, dict_get gd "title" = Some (JStr s)) as [s Hs].
    { rewrite Ht. unfold dict_get_or.
      destruct (dict_get d "title") as [t|] eqn:Et; [|eauto].
      destruct (Htitles f d t Hf Hsnd Et) as [s ->]. eauto. }
    unfold Fix.sort_key, doc_key, doc_order, doc_title. cbn [py_get rbind].
    rewrite Ho, Hs. reflexivity. }
  destruct (sort_by_ordered Fix.tuple_lt key_ltb int_str_key
              tuple_lt_key key_ltb_asym key_nlt_trans
              Fix.sort_key doc_key (Fix.gather files) Hkey) as [out [Hout [Hp Hs]]].
  exists out. split; [exact Hout|]. split; [exact Hp|]. split; [exact Hk|].
  split; [apply notes_skipped|].
  eapply strongly_sorted_impl; [|exact Hs].
  intros x y _ _. apply key_nlt_le.
Qed.

Lemma load_all_witness :
  exists out,
    Fix._load_all_perspectives mixed_dir = Ok out
    /\ Permutation out (Fix.gather mixed_dir)
    /\ Forall2 (fun sd g => defaulted (fst sd) (snd sd) g)
               (kept mixed_dir) (Fix.gather mixed_dir)
    /\ Fix.notes mixed_dir = ["broken.json"; "notes.json"]
    /\ StronglySorted key_le out.
Proof.
  apply (load_all_defaults_and_sorts mixed_dir).
  intros f d t Hin Hf Ht. simpl in Hin.
  repeat (destruct Hin as [<-|Hin]; [simpl in Hf |]);
    try contradiction; try discriminate;
    injection Hf as <-; simpl in Ht;
    try discriminate; injection Ht as <-; eexists; reflexivity.
Defined.

(** C6.  Two files that load and pass the guard rails, with no order
    (so both get 9999) and the titles 1 and "x".  No file is skipped and
    no note is printed, and each of the two loads when it is alone in the
    directory.  Together they make the sort, which follows the loop
    outside its [try], compare the title 1 with the title "x":
    [_load_all_perspectives] raises [TypeError] and nothing is loaded,
    where the loop says of itself that it skips malformed files and does
    not crash the app. *)
Theorem load_all_aborts_in_sort :
  let one := ("one", Ok (JDict [("title", JInt 1)])) in
  let two := ("two", Ok (JDict [("title", JStr "x")])) in
  Fix._load_all_perspectives [one; two] = Raise TypeError
  /\ Fix.notes [one; two] = []
  /\ Fix.gather [one; two]
     = [JDict [("title", JInt 1); ("slug", JStr "one"); ("summary", JStr "");
               ("order", JInt 9999); ("lessons", JList [])];
        JDict [("title", JStr "x"); ("slug", JStr "two"); ("summary", JStr "");
               ("order", JInt 9999); ("lessons", JList [])]]
  /\ Fix._load_all_perspectives [one]
     = Ok [JDict [("title", JInt 1); ("slug", JStr "one"); ("summary", JStr "");
                  ("order", JInt 9999); ("lessons", JList [])]]
  /\ Fix._load_all_perspectives [two]
     = Ok [JDict [("title", JStr "x"); ("slug", JStr "two"); ("summary", JStr "");
                  ("order", JInt 9999); ("lessons", JList [])]].
Proof. vm_compute. repeat split; reflexivity. Qed.

(** ** The artifact table stays in creation order *)

Lemma keeps_order_add_event (e : Event) : keeps ordered_artifacts (add_event e).
Proof. intros d H. exact H. Qed.

Lemma keeps_order_update_progress (q : Progress) :
  keeps ordered_artifacts (update_progress q).
Proof. intros d H. exact H. Qed.

Lemma keeps_order_add_progress (u : Z) (s l : string) (st : progress_status) (sc : Z) :
  keeps ordered_artifacts (add_progress u s l st sc).
Proof.
  intros d H. unfold add_progress.
  destruct (existsb _ (progress d)); exact H.
Qed.

Lemma keeps_order_add_review (aid : option Z) (u c lg fa : Z) (cm : string) :
  keeps ordered_artifacts (add_review aid u c lg fa cm).
Proof.
  intros d H. unfold add_review.
  destruct (negb (fits_integer c && fits_integer lg && fits_integer fa)); [exact H|].
  destruct aid as [a|]; [|exact H].
  destruct (existsb _ (peer_reviews d)); exact H.
Qed.

Lemma keeps_order_add_artifact (u : Z) (s t b : string) :
  keeps ordered_artifacts (add_artifact u s t b).
Proof. intros d H. apply add_artifact_keeps_order. exact H. Qed.

Ltac order_step :=
  first
    [ apply keeps_ret
    | apply keeps_lift
    | apply keeps_get_db
    | apply keeps_try
    | apply keeps_order_add_event
    | apply keeps_order_update_progress
    | apply keeps_order_add_progress
    | apply keeps_order_add_review
    | apply keeps_order_add_artifact
    | apply keeps_bind; [|intros]
    | match goal with
      | |- keeps _ (if ?b then _ else _) => destruct b
      | |- keeps _ (match ?x with _ => _ end) => destruct x
      end ].

(** A fresh database has its artifacts in creation order, and every route
    keeps them so: the hypothesis of the review queue holds in every state
    the routes reach. *)
Lemma routes_keep_creation_order :
  ordered_artifacts empty_db
  /\ (forall files u s m f, keeps ordered_artifacts (App.creator_challenge files u s m f))
  /\ (forall u m f aid, keeps ordered_artifacts (App.peer_review_queue u m f aid))
  /\ (forall u s l lesson m f, keeps ordered_artifacts (App.lesson_detail u s l lesson m f))
  /\ (forall u s l lesson m f, keeps ordered_artifacts (Fix.lesson u s l lesson m f)).
Proof.
  split; [constructor|].
  repeat split; intros.
  - unfold App.creator_challenge, App.log_event. repeat order_step.
  - unfold App.peer_review_queue, App.log_event. repeat order_step.
  - unfold App.lesson_detail, App.log_event. repeat order_step.
  - unfold Fix.lesson, Fix.grade, Fix.play, Fix._log_event. repeat order_step.
Qed.
(** ** How the tables change under requests *)

Lemma improves_refl (p : Progress) : improves p p.
Proof. unfold improves. repeat split; try lia. left; reflexivity. Qed.

Lemma improves_trans (p q r : Progress) : improves p q -> improves q r -> improves p r.
Proof.
  unfold improves.
  intros [H1 [H2 [H3 [H4 [H5 H6]]]]] [K1 [K2 [K3 [K4 [K5 K6]]]]].
  repeat split; try congruence; try lia.
  destruct K6 as [K6|K6]; [|right; assumption].
  destruct H6 as [H6|H6]; [left|right]; congruence.
Qed.

Lemma improves_key (p q : Progress) : improves p q -> key_of q = key_of p.
Proof.
  unfold improves, key_of. intros [_ [H2 [H3 [H4 _]]]]. congruence.
Qed.

Lemma improves_progress_key (p q : Progress) (u : Z) (s l : string) :
  improves p q -> progress_key u s l q = progress_key u s l p.
Proof.
  unfold improves, progress_key. intros [_ [H2 [H3 [H4 _]]]]. congruence.
Qed.

Lemma forall2_improves_refl (l : list Progress) : Forall2 improves l l.
Proof. induction l; constructor; [apply improves_refl | assumption]. Qed.

Lemma forall2_improves_trans (l1 l2 l3 : list Progress) :
  Forall2 improves l1 l2 -> Forall2 improves l2 l3 -> Forall2 improves l1 l3.
Proof.
  intro H. revert l3. induction H as [|x y l1 l2 Hxy _ IH]; intros l3 H3;
    inversion H3; subst; constructor.
  - eapply improves_trans; eassumption.
  - apply IH; assumption.
Qed.

Lemma evolves_refl (l : list Progress) : evolves l l.
Proof.
  exists l, []. split; [symmetry; apply app_nil_r | apply forall2_improves_refl].
Qed.

Lemma evolves_snoc (l : list Progress) (x : Progress) : evolves l (l ++ [x]).
Proof. exists l, [x]. split; [reflexivity | apply forall2_improves_refl]. Qed.

Lemma forall2_app_left {A B : Type} (R : A -> B -> Prop) (l1 l2 : list A) (l' : list B) :
  Forall2 R (l1 ++ l2) l' ->
  exists l1' l2', l' = (l1' ++ l2')%list /\ Forall2 R l1 l1' /\ Forall2 R l2 l2'.
Proof.
  revert l'. induction l1 as [|x l1 IH]; intros l' H; simpl in H.
  - exists [], l'. repeat split; [constructor | assumption].
  - inversion H as [|? y ? l'' Hxy Hrest]; subst.
    destruct (IH _ Hrest) as [l1' [l2' [-> [H1 H2]]]].
    exists (y :: l1'), l2'. repeat split; [constructor|]; assumption.
Qed.

Lemma evolves_trans (l1 l2 l3 : list Progress) :
  evolves l1 l2 -> evolves l2 l3 -> evolves l1 l3.
Proof.
  intros [a [ea [-> Ha]]] [b [eb [-> Hb]]].
  destruct (forall2_app_left _ _ _ _ Hb) as [b1 [b2 [-> [Hb1 Hb2]]]].
  exists b1, (b2 ++ eb)%list. split; [symmetry; apply app_assoc|].
  eapply forall2_improves_trans; eassumption.
Qed.

Lemma nodup_map_inj {A B : Type} (g : A -> B) (l : list A) (x y : A) :
  NoDup (map g l) -> In x l -> In y l -> g x = g y -> x = y.
Proof.
  induction l as [|a l IH]; intros Hn Hx Hy Hg; [contradiction|].
  simpl in Hn. inversion Hn as [|? ? Hnotin Hn']; subst.
  destruct Hx as [->|Hx], Hy as [->|Hy].
  - reflexivity.
  - exfalso. apply Hnotin. rewrite Hg. apply in_map; assumption.
  - exfalso. apply Hnotin. rewrite <- Hg. apply in_map; assumption.
  - apply IH; assumption.
Qed.

Lemma written_twice (q q' : Progress) (l : list Progress) :
  p_id q' = p_id q -> written q' (written q l) = written q' l.
Proof.
  intro Hid. unfold written. rewrite map_map. apply map_ext. intro x.
  rewrite Hid.
  destruct (p_id x =? p_id q) eqn:E; [rewrite Z.eqb_refl | rewrite E]; reflexivity.
Qed.

(** Writing an improvement of a row of a table with distinct ids improves
    the table row by row. *)
Lemma written_improves (p q : Progress) (l : list Progress) :
  NoDup (map p_id l) -> In p l -> improves p q ->
  Forall2 improves l (written q l).
Proof.
  intros Hn Hp Hq.
  assert (forall x, In x l -> improves x (if p_id x =? p_id q then q else x)) as Hx.
  { intros x Hin. destruct (Z.eqb_spec (p_id x) (p_id q)) as [E|E].
    - assert (x = p) as ->.
      { apply (nodup_map_inj p_id l); auto. destruct Hq as [Hid _]. congruence. }
      exact Hq.
    - apply improves_refl. }
  clear Hn Hp. unfold written. induction l as [|a l IH]; simpl; constructor.
  - apply Hx. left; reflexivity.
  - apply IH. intros x Hin. apply Hx. right; assumption.
Qed.

Lemma forall2_improves_maps (l l' : list Progress) :
  Forall2 improves l l' ->
  map p_id l' = map p_id l /\ map key_of l' = map key_of l.
Proof.
  induction 1 as [|x y l l' Hxy _ [IH1 IH2]]; simpl; [auto|].
  rewrite IH1, IH2, (improves_key _ _ Hxy). destruct Hxy as [-> _]. auto.
Qed.

(** A row found in a table is found, improved, in the table later on. *)
Lemma evolves_first (l l' : list Progress) (u : Z) (s k : string) (p : Progress) :
  evolves l l' ->
  find (progress_key u s k) l = Some p ->
  exists p', find (progress_key u s k) l' = Some p' /\ improves p p'.
Proof.
  intros [l1 [extra [-> H]]]. revert p.
  induction H as [|x y l l1 Hxy _ IH]; intros p Hf; simpl in *; [discriminate|].
  rewrite (improves_progress_key _ _ u s k Hxy).
  destruct (progress_key u s k x).
  - injection Hf as <-. exists y. auto.
  - apply IH; assumption.
Qed.

(** ** The body of a lesson route *)

Section Body.
Variables (d1 : db) (p : Progress).

Lemma body_state_start : body_state d1 p d1.
Proof.
  unfold body_state. repeat split; auto. exists []. symmetry; apply app_nil_r.
Qed.

Lemma keeps_body_event (e : Event) : keeps (body_state d1 p) (add_event e).
Proof.
  intros d [Ha [Hr [[tail He] Hp]]]. unfold add_event; simpl.
  repeat split; auto. exists (tail ++ [e])%list. rewrite He. symmetry; apply app_assoc.
Qed.

Lemma keeps_body_update (q : Progress) :
  improves p q -> keeps (body_state d1 p) (update_progress q).
Proof.
  intros Hq d [Ha [Hr [He Hp]]]. unfold update_progress; simpl.
  repeat split; auto. right. exists q. split; [assumption|].
  fold (written q (progress d)).
  destruct Hp as [->|[q0 [Hq0 ->]]]; [reflexivity|].
  apply written_twice. destruct Hq as [-> _]. destruct Hq0 as [-> _]. reflexivity.
Qed.
End Body.

Lemma ratchet_improves (p : Progress) (sc : Z) : improves p (App.ratchet p sc).
Proof.
  unfold improves, App.ratchet; simpl. repeat split; try lia. left; reflexivity.
Qed.

Lemma mark_complete_improves (p : Progress) : improves p (App.mark_complete p).
Proof.
  unfold improves, App.mark_complete; simpl. repeat split; try lia. right; reflexivity.
Qed.

Lemma complete_improves (p : Progress) : improves p (Fix.complete p).
Proof.
  unfold improves, Fix.complete, Fix.or_zero; simpl. repeat split.
  - destruct (Z.eqb_spec (p_score p) 0); lia.
  - right; reflexivity.
Qed.

Ltac body_step :=
  first
    [ apply keeps_ret
    | apply keeps_lift
    | apply keeps_get_db
    | apply keeps_try
    | apply keeps_body_event
    | apply keeps_body_update;
        first [apply ratchet_improves | apply mark_complete_improves
              | apply complete_improves]
    | apply keeps_bind; [|intros]
    | match goal with
      | |- keeps _ (if ?b then _ else _) => destruct b
      | |- keeps _ (match ?x with _ => _ end) => destruct x
      end ].

Lemma app_body (u : Z) (s l : string) (lesson : json) (m : http_method) (f : form)
    (d1 : db) (p : Progress) :
  first_progress d1 u s l = Some p ->
  body_state d1 p (snd (App.lesson_detail u s l lesson m f d1)).
Proof.
  intro Hf. pose proof (body_state_start d1 p) as HI.
  unfold App.lesson_detail.
  unfold bind at 1. cbn [get_db fst snd]. rewrite Hf.
  unfold bind at 1. cbn [ret].
  keeps_from HI. unfold App.log_event.
  repeat body_step.
Qed.

Lemma fix_body (u : Z) (s l : string) (lesson : json) (m : http_method) (f : form)
    (d1 : db) (p : Progress) :
  first_progress d1 u s l = Some p ->
  body_state d1 p (snd (Fix.lesson u s l lesson m f d1)).
Proof.
  intro Hf. pose proof (body_state_start d1 p) as HI.
  unfold Fix.lesson.
  unfold bind at 1. cbn [get_db fst snd]. rewrite Hf.
  unfold bind at 1. cbn [ret].
  keeps_from HI. unfold Fix.grade, Fix.play, Fix._log_event.
  repeat body_step.
Qed.
(** ** One request, and many *)

Lemma nodup_snoc {A : Type} (l : list A) (x : A) :
  NoDup l -> ~ In x l -> NoDup (l ++ [x]).
Proof.
  induction l as [|a l IH]; intros Hn Hx; simpl.
  - constructor; [intros []|constructor].
  - inversion Hn as [|? ? Ha Hn']; subst. constructor.
    + intro Hin. apply in_app_or in Hin. destruct Hin as [Hin|[<-|[]]].
      * contradiction.
      * apply Hx. left; reflexivity.
    + apply IH; [assumption|]. intro. apply Hx. right; assumption.
Qed.

Lemma grown_refl (d : db) : grown d d.
Proof.
  unfold grown. split; [apply evolves_refl|].
  repeat split; exists []; symmetry; apply app_nil_r.
Qed.

Lemma grown_trans (a b c : db) : grown a b -> grown b c -> grown a c.
Proof.
  intros [Hp [[t1 Ha] [[t2 Hr] [t3 He]]]] [Kp [[u1 Ka] [[u2 Kr] [u3 Ke]]]].
  split; [eapply evolves_trans; eassumption|].
  repeat split.
  - exists (t1 ++ u1)%list. rewrite Ka, Ha. symmetry; apply app_assoc.
  - exists (t2 ++ u2)%list. rewrite Kr, Hr. symmetry; apply app_assoc.
  - exists (t3 ++ u3)%list. rewrite Ke, He. symmetry; apply app_assoc.
Qed.

(** The head of a lesson route: the row is there or is made, under a new
    id and a key that no row had. *)
Lemma entry_rows (d : db) (u : Z) (s l : string) :
  unique_rows d ->
  (progress (app_entry d u s l) = progress (fix_entry d u s l))
  /\ NoDup (map p_id (progress (app_entry d u s l)))
  /\ NoDup (map key_of (progress (app_entry d u s l)))
  /\ evolves (progress d) (progress (app_entry d u s l)).
Proof.
  intros [Hid [Hkey _]]. unfold app_entry, fix_entry.
  destruct (first_progress d u s l) as [p|] eqn:Hf.
  - repeat split; auto. apply evolves_refl.
  - cbn [progress]. split; [reflexivity|].
    rewrite !map_app. cbn [map]. repeat split.
    + apply nodup_snoc; [assumption|]. unfold new_row; cbn [p_id].
      intro Hin. pose proof (next_id_above (map p_id (progress d))) as Hab.
      rewrite Forall_forall in Hab. specialize (Hab _ Hin). lia.
    + apply nodup_snoc; [assumption|]. intro Hin. apply in_map_iff in Hin.
      destruct Hin as [x [Hx Hin]].
      pose proof (find_none _ _ Hf x Hin) as Hk.
      unfold key_of, new_row in Hx; cbn in Hx. injection Hx as H1 H2 H3.
      unfold progress_key in Hk. rewrite H1, H2, H3 in Hk.
      rewrite Z.eqb_refl, !String.eqb_refl in Hk. discriminate.
    + apply evolves_snoc.
Qed.

Lemma entry_others (d : db) (u : Z) (s l : string) :
  artifacts (app_entry d u s l) = artifacts d
  /\ peer_reviews (app_entry d u s l) = peer_reviews d
  /\ (exists tail, events (app_entry d u s l) = (events d ++ tail)%list)
  /\ artifacts (fix_entry d u s l) = artifacts d
  /\ peer_reviews (fix_entry d u s l) = peer_reviews d
  /\ events (fix_entry d u s l) = events d.
Proof.
  unfold app_entry, fix_entry.
  destruct (first_progress d u s l); cbn; repeat split; eauto.
  exists []. symmetry; apply app_nil_r.
Qed.

(** What the body of a lesson route leaves, from tables with distinct
    ids. *)
Lemma body_grown (d1 d' : db) (p : Progress) (u : Z) (s l : string) :
  NoDup (map p_id (progress d1)) ->
  NoDup (map key_of (progress d1)) ->
  first_progress d1 u s l = Some p ->
  body_state d1 p d' ->
  grown d1 d'
  /\ NoDup (map p_id (progress d')) /\ NoDup (map key_of (progress d'))
  /\ peer_reviews d' = peer_reviews d1.
Proof.
  intros Hid Hkey Hf [Ha [Hr [He Hp]]].
  assert (Forall2 improves (progress d1) (progress d')) as H2.
  { destruct Hp as [->|[q [Hq ->]]]; [apply forall2_improves_refl|].
    apply (written_improves p); auto.
    apply find_some in Hf. apply Hf. }
  destruct (forall2_improves_maps _ _ H2) as [E1 E2].
  repeat split.
  - exists (progress d'), []. split; [symmetry; apply app_nil_r | assumption].
  - exists []. rewrite Ha. symmetry; apply app_nil_r.
  - exists []. rewrite Hr. symmetry; apply app_nil_r.
  - exact He.
  - rewrite E1. assumption.
  - rewrite E2. assumption.
  - exact Hr.
Qed.

Section Side.
Variable d0 : db.

Lemma side_state_start : side_state d0 d0.
Proof.
  unfold side_state. repeat split; auto; exists []; symmetry; apply app_nil_r.
Qed.

Lemma keeps_side_event (e : Event) : keeps (side_state d0) (add_event e).
Proof.
  intros d [Hp [Ha [Hr [[t He] Hn]]]]. unfold add_event; cbn.
  repeat split; auto. exists (t ++ [e])%list. rewrite He. symmetry; apply app_assoc.
Qed.

Lemma keeps_side_artifact (u : Z) (s t b : string) :
  keeps (side_state d0) (add_artifact u s t b).
Proof.
  intros d [Hp [[ta Ha] [Hr [He Hn]]]]. unfold add_artifact; cbn.
  repeat split; auto. eexists. rewrite Ha. symmetry; apply app_assoc.
Qed.

Lemma keeps_side_review (aid : option Z) (u c lg fa : Z) (cm : string) :
  keeps (side_state d0) (add_review aid u c lg fa cm).
Proof.
  intros d HI. unfold add_review.
  destruct (negb (fits_integer c && fits_integer lg && fits_integer fa)); [exact HI|].
  destruct aid as [a|]; [|exact HI].
  destruct (existsb (review_key a u) (peer_reviews d)) eqn:Ex; [exact HI|].
  destruct HI as [Hp [Ha [[tr Hr] [He Hn]]]].
  cbn [snd progress artifacts peer_reviews events].
  repeat split; auto.
  - eexists. rewrite Hr. symmetry; apply app_assoc.
  - intro H0. cbn [peer_reviews]. rewrite map_app. cbn [map].
    apply nodup_snoc; [auto|].
    intro Hin. apply in_map_iff in Hin. destruct Hin as [x [Hx Hin]].
    assert (existsb (review_key a u) (peer_reviews d) = true) as Ht.
    { apply existsb_exists. exists x. split; [assumption|].
      unfold pair_of in Hx; cbn in Hx. injection Hx as H1 H2.
      unfold review_key. rewrite H1, H2, !Z.eqb_refl. reflexivity. }
    congruence.
Qed.
End Side.

Ltac side_step :=
  first
    [ apply keeps_ret
    | apply keeps_lift
    | apply keeps_get_db
    | apply keeps_try
    | apply keeps_side_event
    | apply keeps_side_artifact
    | apply keeps_side_review
    | apply keeps_bind; [|intros]
    | match goal with
      | |- keeps _ (if ?b then _ else _) => destruct b
      | |- keeps _ (match ?x with _ => _ end) => destruct x
      end ].

Lemma creator_side (files : content_dir) (u : Z) (s : string) (m : http_method)
    (f : form) (d : db) :
  side_state d (snd (App.creator_challenge files u s m f d)).
Proof.
  pose proof (side_state_start d) as HI. keeps_from HI.
  unfold App.creator_challenge, App.log_event. repeat side_step.
Qed.

Lemma queue_side (u : Z) (m : http_method) (f : form) (aid : option Z) (d : db) :
  side_state d (snd (App.peer_review_queue u m f aid d)).
Proof.
  pose proof (side_state_start d) as HI. keeps_from HI.
  unfold App.peer_review_queue, App.log_event. repeat side_step.
Qed.

Lemma side_grown (d d' : db) :
  unique_rows d -> side_state d d' -> unique_rows d' /\ grown d d'.
Proof.
  intros [Hid [Hkey Hrev]] [Hp [Ha [Hr [He Hn]]]]. split.
  - unfold unique_rows. rewrite Hp. auto.
  - unfold grown. rewrite Hp. split; [apply evolves_refl|]. auto.
Qed.

(** One request leaves the tables grown and their rows unique. *)
Lemma handle_grown (r : request) (d : db) :
  unique_rows d -> unique_rows (snd (handle r d)) /\ grown d (snd (handle r d)).
Proof.
  intro Hu. destruct r as [u s l lesson m f|u s l lesson m f|files u s m f|u m f aid];
    cbn [handle].
  - destruct (entry_rows d u s l Hu) as [_ [Hid [Hkey Hev]]].
    destruct (entry_others d u s l) as [Ha [Hr [He _]]].
    destruct (app_entry_row d u s l) as [p [Hf _]].
    rewrite app_enter.
    destruct (body_grown _ _ p u s l Hid Hkey Hf (app_body u s l lesson m f _ p Hf))
      as [Hg [Hid' [Hkey' Hr']]].
    split.
    + unfold unique_rows. rewrite Hr', Hr. destruct Hu as [_ [_ Hrev]]. auto.
    + eapply grown_trans; [|exact Hg].
      unfold grown. split; [exact Hev|]. rewrite Ha, Hr. repeat split; auto;
        exists []; symmetry; apply app_nil_r.
  - destruct (entry_rows d u s l Hu) as [Heq [Hid [Hkey Hev]]].
    destruct (entry_others d u s l) as [_ [_ [_ [Ha [Hr He]]]]].
    destruct (fix_entry_row d u s l) as [p [Hf _]].
    rewrite Heq in Hid, Hkey, Hev.
    rewrite fix_enter.
    destruct (body_grown _ _ p u s l Hid Hkey Hf (fix_body u s l lesson m f _ p Hf))
      as [Hg [Hid' [Hkey' Hr']]].
    split.
    + unfold unique_rows. rewrite Hr', Hr. destruct Hu as [_ [_ Hrev]]. auto.
    + eapply grown_trans; [|exact Hg].
      unfold grown. split; [exact Hev|]. rewrite Ha, Hr, He. repeat split;
        exists []; symmetry; apply app_nil_r.
  - apply side_grown; [assumption | apply creator_side].
  - apply side_grown; [assumption | apply queue_side].
Qed.

Lemma serve_grown (rs : list request) : forall d,
  unique_rows d -> unique_rows (serve rs d) /\ grown d (serve rs d).
Proof.
  induction rs as [|r rs IH]; intros d Hu; cbn [serve].
  - split; [assumption | apply grown_refl].
  - destruct (handle_grown r d Hu) as [Hu' Hg].
    destruct (IH _ Hu') as [Hu'' Hg'].
    split; [assumption | eapply grown_trans; eassumption].
Qed.
(** ** What holds in every state the requests reach *)

Lemma empty_unique : unique_rows empty_db.
Proof. unfold unique_rows, empty_db; cbn. repeat split; constructor. Qed.

(** X2.  Whatever requests follow, in either flow and for any users and
    lessons, the row of a lesson stays the same row, its score never goes
    down, and its status stays as it is or becomes completed: a completed
    lesson stays completed. *)
Theorem progress_only_improves (rs : list request) (d : db) (u : Z) (s l : string)
    (p : Progress)
    (Hu : unique_rows d)
    (Hf : first_progress d u s l = Some p) :
  exists p',
    first_progress (serve rs d) u s l = Some p'
    /\ p_id p' = p_id p
    /\ p_score p <= p_score p'
    /\ (p_status p' = p_status p \/ p_status p' = completed)
    /\ (p_status p = completed -> p_status p' = completed).
Proof.
  destruct (serve_grown rs d Hu) as [_ [Hev _]].
  destruct (evolves_first _ _ u s l p Hev Hf) as [p' [Hf' Hi]].
  exists p'. split; [exact Hf'|].
  destruct Hi as [Hid [_ [_ [_ [Hsc Hst]]]]].
  repeat split; auto.
  intro Hc. destruct Hst as [Hst|Hst]; congruence.
Qed.

Lemma progress_only_improves_witness :
  exists p',
    first_progress
      (serve [FixLesson 7 "media" "signals-of-reliability" seed_lesson POST
                [("action", "submit_quiz"); ("answer", "0")];
              LessonDetail 7 "media" "signals-of-reliability" seed_lesson GET []]
             after_two_requests)
      7 "media" "signals-of-reliability" = Some p'
    /\ p_id p' = 1
    /\ 100 <= p_score p'
    /\ (p_status p' = completed \/ p_status p' = completed)
    /\ (completed = completed -> p_status p' = completed).
Proof.
  assert (unique_rows after_two_requests) as Hu.
  { unfold unique_rows. vm_compute.
    repeat split; repeat constructor; simpl; intuition discriminate. }
  exact (progress_only_improves _ after_two_requests 7 "media" "signals-of-reliability"
           (mkProgress 1 7 "media" "signals-of-reliability" completed 100)
           Hu eq_refl).
Defined.
Lemma handle_appends (r : request) (d : db) :
  prefix_of (artifacts d) (artifacts (snd (handle r d)))
  /\ prefix_of (peer_reviews d) (peer_reviews (snd (handle r d)))
  /\ prefix_of (events d) (events (snd (handle r d))).
Proof.
  unfold prefix_of.
  destruct r as [u s l lesson m f|u s l lesson m f|files u s m f|u m f aid];
    cbn [handle].
  - destruct (entry_others d u s l) as [Ha [Hr [[t He] _]]].
    destruct (app_entry_row d u s l) as [p [Hf _]].
    rewrite app_enter.
    destruct (app_body u s l lesson m f _ p Hf) as [Ka [Kr [[t' Ke] _]]].
    rewrite Ka, Kr, Ke, Ha, Hr, He. repeat split.
    + exists []. symmetry; apply app_nil_r.
    + exists []. symmetry; apply app_nil_r.
    + exists (t ++ t')%list. symmetry; apply app_assoc.
  - destruct (entry_others d u s l) as [_ [_ [_ [Ha [Hr He]]]]].
    destruct (fix_entry_row d u s l) as [p [Hf _]].
    rewrite fix_enter.
    destruct (fix_body u s l lesson m f _ p Hf) as [Ka [Kr [[t' Ke] _]]].
    rewrite Ka, Kr, Ke, Ha, Hr, He. repeat split.
    + exists []. symmetry; apply app_nil_r.
    + exists []. symmetry; apply app_nil_r.
    + exists t'. reflexivity.
  - destruct (creator_side files u s m f d) as [_ [Ha [Hr [He _]]]]. auto.
  - destruct (queue_side u m f aid d) as [_ [Ha [Hr [He _]]]]. auto.
Qed.

(** X3.  No request edits or deletes an artifact, a review or an event:
    after any sequence of requests each of these tables is the table
    before with new rows at its end. *)
Theorem tables_only_grow (rs : list request) (d : db) :
  prefix_of (artifacts d) (artifacts (serve rs d))
  /\ prefix_of (peer_reviews d) (peer_reviews (serve rs d))
  /\ prefix_of (events d) (events (serve rs d)).
Proof.
  revert d. induction rs as [|r rs IH]; intro d; cbn [serve].
  - unfold prefix_of. repeat split; exists []; symmetry; apply app_nil_r.
  - destruct (handle_appends r d) as [[a Ha] [[b Hb] [c Hc]]].
    destruct (IH (snd (handle r d))) as [[a' Ha'] [[b' Hb'] [c' Hc']]].
    unfold prefix_of. repeat split.
    + exists (a ++ a')%list. rewrite Ha', Ha. symmetry; apply app_assoc.
    + exists (b ++ b')%list. rewrite Hb', Hb. symmetry; apply app_assoc.
    + exists (c ++ c')%list. rewrite Hc', Hc. symmetry; apply app_assoc.
Qed.

(** ** One [lesson_started] for a row in the flow of [app.py] *)

Section Quiet.
Variable d1 : db.

Lemma quiet_start : quiet d1 d1.
Proof. exists []. split; [symmetry; apply app_nil_r | constructor]. Qed.

Lemma keeps_quiet_event (e : Event) :
  String.eqb (e_type e) "lesson_started" = false -> keeps (quiet d1) (add_event e).
Proof.
  intros He d [t [Ht Hall]]. exists (t ++ [e])%list. unfold add_event; cbn.
  split; [rewrite Ht; symmetry; apply app_assoc|].
  apply Forall_app. split; [assumption|]. constructor; [assumption|constructor].
Qed.

Lemma keeps_quiet_update (q : Progress) : keeps (quiet d1) (update_progress q).
Proof. intros d H. exact H. Qed.

Lemma keeps_quiet_artifact (u : Z) (s t b : string) :
  keeps (quiet d1) (add_artifact u s t b).
Proof. intros d H. exact H. Qed.

Lemma keeps_quiet_review (aid : option Z) (u c lg fa : Z) (cm : string) :
  keeps (quiet d1) (add_review aid u c lg fa cm).
Proof.
  intros d H. unfold add_review.
  destruct (negb (fits_integer c && fits_integer lg && fits_integer fa)); [exact H|].
  destruct aid as [a|]; [|exact H].
  destruct (existsb _ (peer_reviews d)); exact H.
Qed.
End Quiet.

Ltac quiet_step :=
  first
    [ apply keeps_ret
    | apply keeps_lift
    | apply keeps_get_db
    | apply keeps_try
    | apply keeps_quiet_event; reflexivity
    | apply keeps_quiet_update
    | apply keeps_quiet_artifact
    | apply keeps_quiet_review
    | apply keeps_bind; [|intros]
    | match goal with
      | |- keeps _ (if ?b then _ else _) => destruct b
      | |- keeps _ (match ?x with _ => _ end) => destruct x
      end ].

Lemma app_body_quiet (u : Z) (s l : string) (lesson : json) (m : http_method)
    (f : form) (d1 : db) (p : Progress) :
  first_progress d1 u s l = Some p ->
  quiet d1 (snd (App.lesson_detail u s l lesson m f d1)).
Proof.
  intro Hf. pose proof (quiet_start d1) as HI.
  unfold App.lesson_detail.
  unfold bind at 1. cbn [get_db fst snd]. rewrite Hf.
  unfold bind at 1. cbn [ret].
  keeps_from HI. unfold App.log_event.
  repeat quiet_step.
Qed.

Lemma creator_quiet (files : content_dir) (u : Z) (s : string) (m : http_method)
    (f : form) (d : db) :
  quiet d (snd (App.creator_challenge files u s m f d)).
Proof.
  pose proof (quiet_start d) as HI. keeps_from HI.
  unfold App.creator_challenge, App.log_event. repeat quiet_step.
Qed.

Lemma queue_quiet (u : Z) (m : http_method) (f : form) (aid : option Z) (d : db) :
  quiet d (snd (App.peer_review_queue u m f aid d)).
Proof.
  pose proof (quiet_start d) as HI. keeps_from HI.
  unfold App.peer_review_queue, App.log_event. repeat quiet_step.
Qed.

Lemma quiet_events_of (d1 d : db) (u : Z) (s l : string) :
  quiet d1 d ->
  events_of d "lesson_started" u s l = events_of d1 "lesson_started" u s l.
Proof.
  intros [t [Ht Hall]]. unfold events_of. rewrite Ht, filter_app.
  rewrite <- app_nil_r. f_equal. clear Ht.
  induction Hall as [|e t He _ IH]; [reflexivity|].
  cbn [filter]. rewrite He. cbn [andb]. exact IH.
Qed.

Lemma improved_filter_length (l l' : list Progress) (u : Z) (s k : string) :
  Forall2 improves l l' ->
  List.length (filter (progress_key u s k) l')
  = List.length (filter (progress_key u s k) l).
Proof.
  induction 1 as [|x y l l' Hxy _ IH]; [reflexivity|].
  cbn [filter]. rewrite (improves_progress_key _ _ u s k Hxy).
  destruct (progress_key u s k x); cbn [List.length]; congruence.
Qed.

Lemma app_entry_matches (d : db) (u : Z) (s l : string) :
  started_matches d -> started_matches (app_entry d u s l).
Proof.
  intros HJ u' s' l'. unfold app_entry.
  destruct (first_progress d u s l); [apply HJ|].
  unfold events_of. cbn [events progress]. rewrite !filter_app, !length_app, <- HJ.
  unfold events_of. f_equal.
  unfold progress_key, new_row.
  cbn [filter e_type e_user_id e_perspective_slug e_lesson_id
       p_user_id p_perspective_slug p_lesson_id].
  rewrite String.eqb_refl. cbn [andb].
  destruct ((u =? u') && (s =? s')%string && (l =? l')%string); reflexivity.
Qed.

(** One request of [app.py] keeps the count of [lesson_started] events
    equal to the count of rows. *)
Lemma handle_matches (r : request) (d : db) :
  app_only r = true -> unique_rows d -> started_matches d ->
  started_matches (snd (handle r d)).
Proof.
  intros Happ Hu HJ.
  destruct r as [u s l lesson m f|u s l lesson m f|files u s m f|u m f aid];
    cbn [handle]; try discriminate.
  - destruct (entry_rows d u s l Hu) as [_ [Hid [Hkey _]]].
    destruct (app_entry_row d u s l) as [p [Hf _]].
    pose proof (app_entry_matches d u s l HJ) as HJ1.
    rewrite app_enter.
    pose proof (app_body u s l lesson m f _ p Hf) as Hb.
    pose proof (app_body_quiet u s l lesson m f _ p Hf) as Hq.
    intros u' s' l'.
    rewrite (quiet_events_of _ _ u' s' l' Hq), HJ1.
    symmetry. apply improved_filter_length.
    destruct Hb as [_ [_ [_ [->|[q [Hi ->]]]]]]; [apply forall2_improves_refl|].
    apply (written_improves p); auto. apply find_some in Hf. apply Hf.
  - intros u' s' l'.
    rewrite (quiet_events_of _ _ u' s' l' (creator_quiet files u s m f d)).
    destruct (creator_side files u s m f d) as [-> _]. apply HJ.
  - intros u' s' l'.
    rewrite (quiet_events_of _ _ u' s' l' (queue_quiet u m f aid d)).
    destruct (queue_side u m f aid d) as [-> _]. apply HJ.
Qed.

Lemma filter_key_at_most_one (l : list Progress) (u : Z) (s k : string) :
  NoDup (map key_of l) -> (List.length (filter (progress_key u s k) l) <= 1)%nat.
Proof.
  induction l as [|x l IH]; intro Hn; cbn [filter List.length]; [lia|].
  cbn [map] in Hn. inversion Hn as [|? ? Hx Hn']; subst.
  specialize (IH Hn').
  destruct (progress_key u s k x) eqn:Ex; [|assumption].
  assert (filter (progress_key u s k) l = []) as ->; [|cbn; lia].
  destruct (filter (progress_key u s k) l) as [|y t] eqn:Ef; [reflexivity|].
  exfalso. apply Hx.
  assert (In y (filter (progress_key u s k) l)) as Hy by (rewrite Ef; left; reflexivity).
  apply filter_In in Hy. destruct Hy as [Hin Hk].
  assert (key_of x = key_of y) as ->; [|apply in_map; assumption].
  unfold progress_key in Ex, Hk. unfold key_of.
  apply andb_true_iff in Ex, Hk. destruct Ex as [Ex E3], Hk as [Hk K3].
  apply andb_true_iff in Ex, Hk. destruct Ex as [E1 E2], Hk as [K1 K2].
  apply Z.eqb_eq in E1, K1. apply String.eqb_eq in E2, E3, K2, K3. congruence.
Qed.

(** X4.  As long as only the routes of [app.py] are used, every lesson of
    every user has exactly as many [lesson_started] events as it has
    Progress rows, and that is at most one: the event is emitted when the
    row is made and never again, whatever else is requested. *)
Theorem lesson_started_once_per_row (rs : list request) (u : Z) (s l : string)
    (Happ : forallb app_only rs = true) :
  let d := serve rs empty_db in
  List.length (events_of d "lesson_started" u s l)
  = List.length (filter (progress_key u s l) (progress d))
  /\ (List.length (events_of d "lesson_started" u s l) <= 1)%nat.
Proof.
  cbv zeta.
  assert (forall rs d, forallb app_only rs = true -> unique_rows d ->
            started_matches d -> started_matches (serve rs d)) as Hserve.
  { clear. induction rs as [|r rs IH]; intros d Happ Hu HJ; cbn [serve]; [exact HJ|].
    cbn [forallb] in Happ. apply andb_true_iff in Happ. destruct Happ as [Hr Hrs].
    apply IH; [assumption | apply handle_grown; assumption
              | apply handle_matches; assumption]. }
  assert (started_matches empty_db) as H0 by (intros ? ? ?; reflexivity).
  pose proof (Hserve rs empty_db Happ empty_unique H0 u s l) as HJ.
  split; [exact HJ|]. rewrite HJ.
  apply filter_key_at_most_one.
  destruct (serve_grown rs empty_db empty_unique) as [[_ [Hk _]] _]. exact Hk.
Qed.

Lemma lesson_started_once_witness :
  let d := after_two_requests in
  List.length (events_of d "lesson_started" 7 "media" "signals-of-reliability")
  = List.length (filter (progress_key 7 "media" "signals-of-reliability") (progress d))
  /\ (List.length (events_of d "lesson_started" 7 "media" "signals-of-reliability") <= 1)%nat.
Proof.
  exact (lesson_started_once_per_row
           [LessonDetail 7 "media" "signals-of-reliability" seed_lesson POST
              [("action", "submit_quiz"); ("answer", "1")];
            LessonDetail 7 "media" "signals-of-reliability" seed_lesson POST
              [("action", "mark_complete")]]
           7 "media" "signals-of-reliability" eq_refl).
Defined.
(** ** Reviews and the queue *)

(** X5.  Whenever [peer_review_queue] raises (a rating that is not the
    text of an integer or that the column cannot hold, a missing artifact
    id, a second review of the same artifact by the same reviewer), the
    tables are left exactly as they were: no review and no event is
    stored. *)
Theorem failed_review_stores_nothing (user_id : Z) (method : http_method)
    (f : form) (artifact_id : option Z) (d : db) (e : exn)
    (Hfail : fst (App.peer_review_queue user_id method f artifact_id d) = Raise e) :
  snd (App.peer_review_queue user_id method f artifact_id d) = d.
Proof.
  revert Hfail.
  unfold App.peer_review_queue, bind, lift, ret, get_db, add_review,
    App.log_event, add_event.
  destruct method; [intros; reflexivity|].
  destruct (py_eq (form_value f "action") (JStr "submit_review")).
  - destruct (match form_get f "clarity" with Some s => int_of_str s | None => Ok 1 end);
      [|intros; reflexivity].
    destruct (match form_get f "logic" with Some s => int_of_str s | None => Ok 1 end);
      [|intros; reflexivity].
    destruct (match form_get f "fairness" with Some s => int_of_str s | None => Ok 1 end);
      [|intros; reflexivity].
    match goal with
    | |- context [negb ?b] => destruct (negb b); [intros; reflexivity|]
    end.
    destruct artifact_id as [aid|]; [|intros; reflexivity].
    destruct (existsb (review_key aid user_id) (peer_reviews d));
      [intros; reflexivity|].
    cbn. discriminate.
  - destruct (py_eq (form_value f "action") (JStr "report")); cbn; discriminate.
Qed.

Lemma failed_review_witness :
  snd (App.peer_review_queue 1 POST fair_review (Some 2) queue_db) = queue_db.
Proof.
  exact (failed_review_stores_nothing 1 POST fair_review (Some 2) queue_db
           IntegrityError eq_refl).
Defined.

(** The tables after a review that is accepted. *)
Lemma review_submitted (v : Z) (f : form) (aid : Z) (d : db) (c lg fa : Z) :
  form_get f "action" = Some "submit_review" ->
  match form_get f "clarity" with Some s => int_of_str s | None => Ok 1 end = Ok c ->
  match form_get f "logic" with Some s => int_of_str s | None => Ok 1 end = Ok lg ->
  match form_get f "fairness" with Some s => int_of_str s | None => Ok 1 end = Ok fa ->
  fits_integer c && fits_integer lg && fits_integer fa = true ->
  existsb (review_key aid v) (peer_reviews d) = false ->
  exists r ev,
    App.peer_review_queue v POST f (Some aid) d
    = (Ok (Redirect "peer_review_queue" ["Review submitted successfully!"]),
       mkDb (progress d) (artifacts d) (peer_reviews d ++ [r]) (events d ++ [ev]))
    /\ r_artifact_id r = aid /\ r_reviewer_id r = v.
Proof.
  intros Ha Hc Hl Hf Hfits Hnew.
  unfold App.peer_review_queue, form_value. rewrite Ha.
  cbn [py_eq String.eqb Ascii.eqb Bool.eqb].
  unfold bind, lift. rewrite Hc, Hl, Hf.
  unfold add_review. rewrite Hfits, Hnew.
  unfold App.log_event, add_event. cbn.
  eexists. eexists. split; [reflexivity|]. split; reflexivity.
Qed.

Lemma existsb_pointwise {A : Type} (g h : A -> bool) (l : list A) :
  (forall x, g x = h x) -> existsb g l = existsb h l.
Proof.
  intro H. induction l as [|x l IH]; cbn [existsb]; [reflexivity|].
  rewrite H, IH. reflexivity.
Qed.

Lemma may_review_key (d : db) (v : Z) (a : Artifact) :
  may_review d v a = true -> existsb (review_key (a_id a) v) (peer_reviews d) = false.
Proof.
  unfold may_review. intro H. apply andb_true_iff in H. destruct H as [_ H].
  apply negb_true_iff in H. rewrite <- H. apply existsb_pointwise.
  intro r. unfold review_key. apply andb_comm.
Qed.

Lemma may_review_after (d d' : db) (v aid : Z) (r : PeerReview) :
  peer_reviews d' = (peer_reviews d ++ [r])%list ->
  r_artifact_id r = aid -> r_reviewer_id r = v ->
  forall w b,
    may_review d' w b
    = may_review d w b && negb ((v =? w) && (aid =? a_id b)).
Proof.
  intros Hr Ha Hv w b. unfold may_review. rewrite Hr, existsb_app.
  cbn [existsb]. rewrite Ha, Hv, orb_false_r, negb_orb, andb_assoc. reflexivity.
Qed.

(** What an accepted review does to the queues. *)
Lemma accepted_review_queues (v : Z) (f : form) (a : Artifact) (d : db) (c lg fa : Z)
    (Ha : form_get f "action" = Some "submit_review")
    (Hc : match form_get f "clarity" with Some s => int_of_str s | None => Ok 1 end = Ok c)
    (Hl : match form_get f "logic" with Some s => int_of_str s | None => Ok 1 end = Ok lg)
    (Hf : match form_get f "fairness" with Some s => int_of_str s | None => Ok 1 end = Ok fa)
    (Hfits : fits_integer c && fits_integer lg && fits_integer fa = true)
    (Hoffered : App.next_artifact d v = Some a) :
  let d' := snd (App.peer_review_queue v POST f (Some (a_id a)) d) in
  fst (App.peer_review_queue v POST f (Some (a_id a)) d)
  = Ok (Redirect "peer_review_queue" ["Review submitted successfully!"])
  /\ artifacts d' = artifacts d
  /\ (forall b, may_review d' v b = may_review d v b && negb (a_id a =? a_id b))
  /\ (forall w b, w <> v -> may_review d' w b = may_review d w b)
  /\ App.next_artifact d' v <> Some a.
Proof.
  cbv zeta.
  assert (may_review d v a = true) as Hm.
  { apply find_some in Hoffered. apply Hoffered. }
  destruct (review_submitted v f (a_id a) d c lg fa Ha Hc Hl Hf Hfits
              (may_review_key _ _ _ Hm))
    as [r [ev [Hrun [Hra Hrv]]]].
  rewrite Hrun. cbn [fst snd artifacts].
  pose proof (may_review_after d
                (mkDb (progress d) (artifacts d) (peer_reviews d ++ [r]) (events d ++ [ev]))
                v (a_id a) r eq_refl Hra Hrv) as Hafter.
  split; [reflexivity|]. split; [reflexivity|]. split; [|split].
  - intro b. rewrite Hafter, Z.eqb_refl. reflexivity.
  - intros w b Hw. rewrite Hafter.
    replace (v =? w) with false by (symmetry; apply Z.eqb_neq; congruence).
    cbn. apply andb_true_r.
  - intro Hn. apply find_some in Hn. destruct Hn as [_ Hn].
    change (may_review
              (mkDb (progress d) (artifacts d) (peer_reviews d ++ [r]) (events d ++ [ev]))
              v a = true) in Hn.
    rewrite Hafter, !Z.eqb_refl, andb_false_r in Hn. discriminate.
Qed.

(** X6.  A review of the artifact that the queue offers, whose ratings
    are integers that the columns can hold, is accepted; it takes the
    artifact out of the queue of its reviewer and changes nothing else
    about any queue: afterwards the reviewer may review exactly the
    artifacts they might review before, but for the reviewed one, and
    every other reviewer may review what they might before. *)
Theorem review_leaves_queue (v : Z) (f : form) (a : Artifact) (d : db) (c lg fa : Z)
    (Ha : form_get f "action" = Some "submit_review")
    (Hc : match form_get f "clarity" with Some s => int_of_str s | None => Ok 1 end = Ok c)
    (Hl : match form_get f "logic" with Some s => int_of_str s | None => Ok 1 end = Ok lg)
    (Hf : match form_get f "fairness" with Some s => int_of_str s | None => Ok 1 end = Ok fa)
    (Hfits : fits_integer c && fits_integer lg && fits_integer fa = true)
    (Hoffered : App.next_artifact d v = Some a) :
  let d' := snd (App.peer_review_queue v POST f (Some (a_id a)) d) in
  fst (App.peer_review_queue v POST f (Some (a_id a)) d)
  = Ok (Redirect "peer_review_queue" ["Review submitted successfully!"])
  /\ artifacts d' = artifacts d
  /\ (forall b, may_review d' v b = may_review d v b && negb (a_id a =? a_id b))
  /\ (forall w b, w <> v -> may_review d' w b = may_review d w b)
  /\ App.next_artifact d' v <> Some a.
Proof.
  exact (accepted_review_queues v f a d c lg fa Ha Hc Hl Hf Hfits Hoffered).
Qed.

Lemma review_leaves_queue_witness :
  let d' := snd (App.peer_review_queue 1 POST fair_review (Some 3) queue_db) in
  fst (App.peer_review_queue 1 POST fair_review (Some 3) queue_db)
  = Ok (Redirect "peer_review_queue" ["Review submitted successfully!"])
  /\ artifacts d' = artifacts queue_db
  /\ (forall b, may_review d' 1 b = may_review queue_db 1 b && negb (3 =? a_id b))
  /\ (forall w b, w <> 1 -> may_review d' w b = may_review queue_db w b)
  /\ App.next_artifact d' 1 <> Some (mkArtifact 3 3 "media" "Sources" "text").
Proof.
  exact (review_leaves_queue 1 fair_review (mkArtifact 3 3 "media" "Sources" "text")
           queue_db 4 3 5 eq_refl eq_refl eq_refl eq_refl eq_refl eq_refl).
Defined.

Lemma filter_shrinks {A : Type} (g h : A -> bool) (l : list A) (a : A) :
  In a l -> g a = true -> h a = false ->
  (List.length (filter (fun b => g b && h b) l) < List.length (filter g l))%nat.
Proof.
  intros Hin Hg Hh.
  assert (forall l0, (List.length (filter (fun b => g b && h b) l0)
                      <= List.length (filter g l0))%nat) as Hle.
  { induction l0 as [|x l0 IH]; cbn [filter]; [lia|].
    destruct (g x), (h x); cbn [andb List.length]; lia. }
  induction l as [|x l IH]; [contradiction|]. cbn [filter].
  destruct Hin as [->|Hin].
  - rewrite Hg, Hh. cbn [andb List.length]. specialize (Hle l). lia.
  - specialize (IH Hin). destruct (g x), (h x); cbn [andb List.length]; lia.
Qed.

(** X7.  A reviewer who keeps reviewing what the queue offers, with
    ratings that are integers the columns can hold, comes to the end of
    the queue: after at most as many reviews as there are artifacts the
    queue offers nothing more, and no artifact has been changed on the
    way. *)
Theorem queue_is_worked_off (v : Z) (f : form) (d : db) (c lg fa : Z)
    (Ha : form_get f "action" = Some "submit_review")
    (Hc : match form_get f "clarity" with Some s => int_of_str s | None => Ok 1 end = Ok c)
    (Hl : match form_get f "logic" with Some s => int_of_str s | None => Ok 1 end = Ok lg)
    (Hf : match form_get f "fairness" with Some s => int_of_str s | None => Ok 1 end = Ok fa)
    (Hfits : fits_integer c && fits_integer lg && fits_integer fa = true) :
  let d' := work_off (List.length (artifacts d)) v f d in
  App.next_artifact d' v = None /\ artifacts d' = artifacts d.
Proof.
  cbv zeta.
  assert (forall n d0,
            (List.length (filter (may_review d0 v) (artifacts d0)) <= n)%nat ->
            App.next_artifact (work_off n v f d0) v = None
            /\ artifacts (work_off n v f d0) = artifacts d0) as Hgen.
  { induction n as [|n IH]; intros d0 Hm; cbn [work_off].
    - split; [|reflexivity].
      destruct (App.next_artifact d0 v) as [a|] eqn:Hn; [|reflexivity].
      apply find_some in Hn. destruct Hn as [Hin Hmay].
      assert (In a (filter (may_review d0 v) (artifacts d0))) as Hf0
        by (apply filter_In; auto).
      destruct (filter (may_review d0 v) (artifacts d0)); [contradiction|].
      cbn in Hm. lia.
    - destruct (App.next_artifact d0 v) as [a|] eqn:Hn; [|auto].
      destruct (accepted_review_queues v f a d0 c lg fa Ha Hc Hl Hf Hfits Hn)
        as [_ [Hart [Hsame _]]].
      apply find_some in Hn. destruct Hn as [Hin Hmay].
      set (d1 := snd (App.peer_review_queue v POST f (Some (a_id a)) d0)) in *.
      destruct (IH d1) as [H1 H2].
      + rewrite Hart.
        rewrite (filter_ext _ _ (Hsame)).
        assert (negb (a_id a =? a_id a) = false) as Hself
          by (rewrite Z.eqb_refl; reflexivity).
        pose proof (filter_shrinks (may_review d0 v)
                      (fun b => negb (a_id a =? a_id b)) (artifacts d0) a
                      Hin Hmay Hself) as Hs.
        lia.
      + split; [assumption | congruence]. }
  apply Hgen.
  etransitivity; [apply filter_length_le | apply Nat.le_refl].
Qed.

Lemma queue_is_worked_off_witness :
  let d' := work_off (List.length (artifacts queue_db)) 1 fair_review queue_db in
  App.next_artifact d' 1 = None /\ artifacts d' = artifacts queue_db.
Proof.
  exact (queue_is_worked_off 1 fair_review queue_db 4 3 5
           eq_refl eq_refl eq_refl eq_refl eq_refl).
Defined.
(** ** The creator challenge *)

Lemma find_snoc {A : Type} (g : A -> bool) (l : list A) (a : A) :
  find g (l ++ [a])
  = match find g l with
    | Some x => Some x
    | None => if g a then Some a else None
    end.
Proof.
  induction l as [|x l IH]; cbn [app find]; [reflexivity|].
  destruct (g x); [reflexivity | exact IH].
Qed.

(** X8.  A creator challenge posted with a title or a text that is empty
    or only white space stores nothing: no artifact, no event; the page
    comes back with the message that both are required. *)
Theorem blank_artifact_is_refused (files : content_dir) (u : Z) (slug : string)
    (f : form) (d : db) (perspective : json)
    (Hp : App.get_perspective_by_slug files slug = Ok perspective)
    (Hfound : py_truthy perspective = true)
    (Hblank : str_strip (match form_get f "title" with Some s => s | None => "" end) = ""
              \/ str_strip (match form_get f "body_text" with Some s => s | None => "" end) = "") :
  App.creator_challenge files u slug POST f d
  = (Ok (CreatorPage ["Both title and content are required"]), d).
Proof.
  unfold App.creator_challenge, bind, lift. rewrite Hp, Hfound. cbn [negb].
  destruct Hblank as [-> | ->]; cbn [String.eqb orb]; [reflexivity|].
  rewrite orb_true_r. reflexivity.
Qed.

Lemma blank_artifact_witness :
  App.creator_challenge seed_dir 7 "digital-media-literacy" POST
    [("title", "   "); ("body_text", "My checklist")] empty_db
  = (Ok (CreatorPage ["Both title and content are required"]), empty_db).
Proof.
  apply (blank_artifact_is_refused seed_dir 7 "digital-media-literacy" _ empty_db
           (JDict [("slug", JStr "digital-media-literacy");
                   ("title", JStr "Digital Media Literacy");
                   ("summary", JStr "Spot manipulation, verify sources.");
                   ("order", JInt 2);
                   ("lessons", JList [seed_lesson])])).
  - reflexivity.
  - reflexivity.
  - left. reflexivity.
Defined.

(** X9.  An artifact that is submitted goes to the end of the table, under
    a new id, with its title and text stripped of white space around them
    and the user as author.  It never comes up in the queue of its author;
    and it comes up for another reviewer whose queue was empty, unless a
    review by that reviewer is already stored against the new id. *)
Theorem submitted_artifact_is_queued (files : content_dir) (u : Z) (slug : string)
    (f : form) (d : db) (perspective : json) (title body : string)
    (Hp : App.get_perspective_by_slug files slug = Ok perspective)
    (Hfound : py_truthy perspective = true)
    (Ht : str_strip (match form_get f "title" with Some s => s | None => "" end) = title)
    (Hb : str_strip (match form_get f "body_text" with Some s => s | None => "" end) = body)
    (Htitle : title <> "") (Hbody : body <> "") :
  let a := mkArtifact (next_id (map a_id (artifacts d))) u slug title body in
  let d' := snd (App.creator_challenge files u slug POST f d) in
  artifacts d' = (artifacts d ++ [a])%list
  /\ peer_reviews d' = peer_reviews d
  /\ App.next_artifact d' u = App.next_artifact d u
  /\ (forall v, v <> u ->
        App.next_artifact d v = None ->
        existsb (review_key (a_id a) v) (peer_reviews d) = false ->
        App.next_artifact d' v = Some a).
Proof.
  cbv zeta.
  assert (snd (App.creator_challenge files u slug POST f d)
          = mkDb (progress d)
                 (artifacts d ++ [mkArtifact (next_id (map a_id (artifacts d))) u slug title body])
                 (peer_reviews d)
                 (events d ++ [mkEvent u "artifact_submitted" (Some slug) None None]))
    as Hrun.
  { unfold App.creator_challenge, bind, lift. rewrite Hp, Hfound. cbn [negb].
    rewrite Ht, Hb.
    apply String.eqb_neq in Htitle, Hbody. rewrite Htitle, Hbody. reflexivity. }
  rewrite Hrun. cbn [artifacts peer_reviews].
  set (a := mkArtifact (next_id (map a_id (artifacts d))) u slug title body).
  set (d' := mkDb _ _ _ _).
  assert (forall w, App.next_artifact d' w
                    = match App.next_artifact d w with
                      | Some x => Some x
                      | None => if may_review d w a then Some a else None
                      end) as Hnext.
  { intro w. unfold App.next_artifact.
    change (find (may_review d w) (artifacts d ++ [a])
            = match find (may_review d w) (artifacts d) with
              | Some x => Some x
              | None => if may_review d w a then Some a else None
              end).
    apply find_snoc. }
  repeat split.
  - rewrite Hnext.
    assert (may_review d u a = false) as ->.
    { unfold may_review, a. cbn [a_user_id]. rewrite Z.eqb_refl. reflexivity. }
    destruct (App.next_artifact d u); reflexivity.
  - intros v Hv Hnone Hnew. rewrite Hnext, Hnone.
    assert (may_review d v a = true) as ->; [|reflexivity].
    unfold may_review. apply andb_true_iff. split.
    + apply negb_true_iff. apply Z.eqb_neq. unfold a; cbn [a_user_id]. congruence.
    + apply negb_true_iff. rewrite <- Hnew. apply existsb_pointwise.
      intro r. unfold review_key. apply andb_comm.
Qed.

Lemma submitted_artifact_witness :
  let f := [("title", " Sharing checklist "); ("body_text", "Five steps.")] in
  let a := mkArtifact 1 7 "digital-media-literacy" "Sharing checklist" "Five steps." in
  let d' := snd (App.creator_challenge seed_dir 7 "digital-media-literacy" POST f empty_db) in
  artifacts d' = [a]
  /\ peer_reviews d' = []
  /\ App.next_artifact d' 7 = None
  /\ (forall v, v <> 7 ->
        App.next_artifact empty_db v = None ->
        existsb (review_key 1 v) [] = false ->
        App.next_artifact d' v = Some a).
Proof.
  refine (submitted_artifact_is_queued seed_dir 7 "digital-media-literacy"
            [("title", " Sharing checklist "); ("body_text", "Five steps.")]
            empty_db _ "Sharing checklist" "Five steps."
            eq_refl eq_refl eq_refl eq_refl _ _); discriminate.
Defined.
(** ** Looking up perspectives and lessons *)

Lemma py_eq_str_right (x : json) (t : string) :
  py_eq x (JStr t) = true -> x = JStr t.
Proof.
  destruct x as [|b|n|fl|s|l|dd]; cbn [py_eq json_num]; intro H;
    try discriminate.
  apply String.eqb_eq in H. congruence.
Qed.

Lemma insert_perm {K A : Type} (lt : K -> K -> result bool) (x : K * A) :
  forall acc r, insert lt x acc = Ok r -> Permutation r (x :: acc).
Proof.
  induction acc as [|y acc IH]; intros r H; cbn [insert] in H.
  - injection H as <-. apply Permutation_refl.
  - destruct (lt (fst x) (fst y)) as [b|e]; cbn [rbind] in H; [|discriminate].
    destruct b.
    + injection H as <-. apply Permutation_refl.
    + destruct (insert lt x acc) as [r'|e]; cbn [rbind] in H; [|discriminate].
      injection H as <-. rewrite (IH r' eq_refl). apply perm_swap.
Qed.

Lemma sort_keyed_perm {K A : Type} (lt : K -> K -> result bool) :
  forall (l acc r : list (K * A)),
    sort_keyed lt acc l = Ok r -> Permutation r (acc ++ l).
Proof.
  induction l as [|x l IH]; intros acc r H; cbn [sort_keyed] in H.
  - injection H as <-. rewrite app_nil_r. apply Permutation_refl.
  - destruct (insert lt x acc) as [acc'|e] eqn:Hi; cbn [rbind] in H; [|discriminate].
    rewrite (IH _ _ H). rewrite (insert_perm lt x acc acc' Hi).
    cbn [app]. apply Permutation_middle.
Qed.

Lemma with_keys_snd {K A : Type} (key : A -> result K) :
  forall (l : list A) (kl : list (K * A)), with_keys key l = Ok kl -> map snd kl = l.
Proof.
  induction l as [|x l IH]; intros kl H; cbn [with_keys] in H.
  - injection H as <-. reflexivity.
  - destruct (key x) as [k|e]; cbn [rbind] in H; [|discriminate].
    destruct (with_keys key l) as [kl'|e]; cbn [rbind] in H; [|discriminate].
    injection H as <-. cbn [map snd]. rewrite (IH kl' eq_refl). reflexivity.
Qed.

(** Whatever the comparison of the keys is, a sort that does not raise
    returns the items it was given, each as often as it was given. *)
Lemma sort_by_perm {K A : Type} (lt : K -> K -> result bool) (key : A -> result K)
    (l r : list A) :
  sort_by lt key l = Ok r -> Permutation r l.
Proof.
  unfold sort_by. intro H.
  destruct (with_keys key l) as [kl|e] eqn:Hk; cbn [rbind] in H; [|discriminate].
  destruct (sort_keyed lt [] kl) as [s|e] eqn:Hs; cbn [rbind] in H; [|discriminate].
  injection H as <-. rewrite <- (with_keys_snd key l kl Hk).
  apply Permutation_map. apply (sort_keyed_perm lt kl [] s Hs).
Qed.

Lemma app_first_with_slug (slug : string) : forall (l : list json) (p : json),
  App.first_with_slug l slug = Ok p ->
  (In p l /\ py_item p "slug" = Ok (JStr slug))
  \/ (p = JNull /\ forall x, In x l -> py_item x "slug" <> Ok (JStr slug)).
Proof.
  induction l as [|x l IH]; intros p H; cbn [App.first_with_slug] in H.
  - injection H as <-. right. split; [reflexivity|]. intros x [].
  - destruct (py_item x "slug") as [sv|e] eqn:Hs; cbn [rbind] in H; [|discriminate].
    destruct (py_eq sv (JStr slug)) eqn:He.
    + injection H as <-. left. split; [left; reflexivity|].
      apply py_eq_str_right in He. congruence.
    + destruct (IH p H) as [[Hin Hp]|[Hp Hnone]].
      * left. split; [right; assumption | assumption].
      * right. split; [assumption|]. intros y [<-|Hy]; [|apply Hnone; assumption].
        rewrite Hs. intro Hc. injection Hc as ->.
        cbn [py_eq] in He. rewrite String.eqb_refl in He. discriminate.
Qed.

Lemma loaded_in (files : content_dir) (x : json) :
  In x (flat_map (fun f => match snd f with Ok v => [v] | Raise _ => [] end) files)
  <-> exists base, In (base, Ok x) files.
Proof.
  rewrite in_flat_map. split.
  - intros [[base c] [Hin Hx]]. cbn [snd] in Hx. destruct c as [v|e]; [|contradiction].
    destruct Hx as [<-|[]]. exists base. exact Hin.
  - intros [base Hin]. exists (base, Ok x). split; [assumption | left; reflexivity].
Qed.

(** X10.  When [get_perspective_by_slug] of [app.py] returns a
    perspective, it is the document of one of the files and the slug it
    declares is the slug asked for; and when it returns [None], no file
    that loads declares that slug. *)
Theorem lookup_returns_the_slug_asked_for (files : content_dir) (slug : string)
    (p : json)
    (Hp : App.get_perspective_by_slug files slug = Ok p) :
  ((exists base, In (base, Ok p) files) /\ py_item p "slug" = Ok (JStr slug))
  \/ (p = JNull
      /\ forall base doc, In (base, Ok doc) files ->
                          py_item doc "slug" <> Ok (JStr slug)).
Proof.
  unfold App.get_perspective_by_slug, App.load_perspectives in Hp.
  destruct (sort_by _ _ _) as [sorted|e] eqn:Hs; cbn [rbind] in Hp; [|discriminate].
  pose proof (sort_by_perm _ _ _ _ Hs) as Hperm.
  destruct (app_first_with_slug slug sorted p Hp) as [[Hin Hslug]|[Hnull Hnone]].
  - left. split; [|assumption]. apply loaded_in.
    apply (Permutation_in _ Hperm). assumption.
  - right. split; [assumption|]. intros base doc Hin. apply Hnone.
    apply (Permutation_in _ (Permutation_sym Hperm)). apply loaded_in.
    exists base. assumption.
Qed.

Lemma lookup_witness :
  ((exists base,
       In (base, Ok (JDict [("slug", JStr "alpha"); ("title", JStr "A"); ("order", JInt 2)]))
          crossed_dir)
   /\ py_item (JDict [("slug", JStr "alpha"); ("title", JStr "A"); ("order", JInt 2)]) "slug"
      = Ok (JStr "alpha"))
  \/ (JDict [("slug", JStr "alpha"); ("title", JStr "A"); ("order", JInt 2)] = JNull
      /\ forall base doc, In (base, Ok doc) crossed_dir ->
                          py_item doc "slug" <> Ok (JStr "alpha")).
Proof.
  exact (lookup_returns_the_slug_asked_for crossed_dir "alpha" _ eq_refl).
Defined.

Lemma find_lesson_found (lesson_id : string) : forall (l : list json) (x : json),
  App.find_lesson l lesson_id = Ok (Some x) ->
  In x l /\ py_item x "id" = Ok (JStr lesson_id).
Proof.
  induction l as [|y l IH]; intros x H; cbn [App.find_lesson] in H; [discriminate|].
  destruct (py_item y "id") as [i|e] eqn:Hi; cbn [rbind] in H; [|discriminate].
  destruct (py_eq i (JStr lesson_id)) eqn:He.
  - injection H as <-. split; [left; reflexivity|].
    apply py_eq_str_right in He. congruence.
  - destruct (IH x H) as [Hin Hx]. split; [right; assumption | assumption].
Qed.

(** X11.  [lesson_detail] of [app.py] touches the tables only for a lesson
    of the perspective: either the request leaves the tables as they are
    (the perspective or the lesson is not found, or the look-up raises),
    or the perspective is found, one of its lessons declares the id asked
    for, and the route does what its body does on that lesson.  So no
    Progress row is ever made for a lesson that the perspective does not
    have. *)
Theorem lesson_route_needs_a_lesson (files : content_dir) (u : Z)
    (slug lesson_id : string) (m : http_method) (f : form) (d : db) :
  let out := App.lesson_detail_route files u slug lesson_id m f d in
  snd out = d
  \/ exists perspective lessons lesson,
       App.get_perspective_by_slug files slug = Ok perspective
       /\ rbind (py_get perspective "lessons" (JList [])) py_iter = Ok lessons
       /\ In lesson lessons
       /\ py_item lesson "id" = Ok (JStr lesson_id)
       /\ out = App.lesson_detail u slug lesson_id lesson m f d.
Proof.
  cbv zeta. unfold App.lesson_detail_route, bind, lift.
  destruct (App.get_perspective_by_slug files slug) as [p|e] eqn:Hp;
    [|left; reflexivity].
  destruct (py_truthy p); cbn [negb]; [|left; reflexivity].
  destruct (rbind (py_get p "lessons" (JList [])) py_iter) as [ls|e] eqn:Hl;
    [|left; reflexivity].
  destruct (App.find_lesson ls lesson_id) as [[x|]|e] eqn:Hf;
    [|left; reflexivity|left; reflexivity].
  destruct (find_lesson_found _ _ _ Hf) as [Hin Hid].
  destruct (py_truthy x); [|left; reflexivity].
  right. exists p, ls, x. repeat split; assumption.
Qed.
(** ** The guard rails, once more *)

Lemma dict_set_same (d : list (string * json)) (k : string) (v : json) :
  dict_get d k = Some v -> dict_set d k v = d.
Proof.
  induction d as [|[k0 v0] d IH]; cbn [dict_get dict_set]; [discriminate|].
  destruct (String.eqb k0 k).
  - intro H. injection H as ->. reflexivity.
  - intro H. rewrite (IH H). reflexivity.
Qed.

Lemma setdefault_present (d : list (string * json)) (k : string) (v w : json) :
  dict_get d k = Some w -> dict_setdefault d k v = d.
Proof. unfold dict_setdefault, dict_mem. intros ->. reflexivity. Qed.

(** A document that has the five fields, its order an integer, passes the
    guard rails as it is. *)
Lemma guard_fixed (st : string) (d : list (string * json)) (n : Z) (a b c e : json) :
  dict_get d "slug" = Some a -> dict_get d "title" = Some b ->
  dict_get d "summary" = Some c -> dict_get d "lessons" = Some e ->
  dict_get d "order" = Some (JInt n) ->
  Fix.guard st (JDict d) = Ok (JDict d).
Proof.
  intros Ha Hb Hc He Ho. unfold Fix.guard.
  rewrite (setdefault_present d "slug" _ a Ha).
  rewrite (setdefault_present d "title" _ b Hb).
  rewrite (setdefault_present d "summary" _ c Hc).
  rewrite Ho. cbn [py_int].
  rewrite (dict_set_same d "order" (JInt n) Ho).
  rewrite (setdefault_present d "lessons" _ e He).
  reflexivity.
Qed.

(** X12.  The guard rails of [_load_all_perspectives] are idempotent: a
    document that has passed them passes them again unchanged, under
    whatever file name. *)
Theorem guard_is_idempotent (st st' : string) (x g : json)
    (Hg : Fix.guard st x = Ok g) :
  Fix.guard st' g = Ok g.
Proof.
  destruct x as [| | | | | |d]; try discriminate.
  destruct (guard_defaulted st d) as [g' [Hg' Hd]].
  rewrite Hg in Hg'. injection Hg' as <-.
  destruct Hd as [gd [-> [H1 [H2 [H3 [H4 [H5 _]]]]]]].
  eapply guard_fixed; eassumption.
Qed.

Lemma guard_is_idempotent_witness :
  Fix.guard "elsewhere"
    (JDict [("lessons", JList []); ("slug", JStr "intro"); ("title", JStr "Intro");
            ("summary", JStr ""); ("order", JInt 9999)])
  = Ok (JDict [("lessons", JList []); ("slug", JStr "intro"); ("title", JStr "Intro");
               ("summary", JStr ""); ("order", JInt 9999)]).
Proof.
  exact (guard_is_idempotent "intro" "elsewhere" (JDict [("lessons", JList [])]) _ eq_refl).
Defined.

Lemma missing_field_none (d : list (string * json)) : forall fields,
  App.missing_field fields (JDict d) = Ok None ->
  forall k, In k fields -> exists v, dict_get d k = Some v.
Proof.
  induction fields as [|x fields IH]; intros H k Hk; [contradiction|].
  cbn [App.missing_field py_in rbind] in H. unfold dict_mem in H.
  destruct (dict_get d x) as [v|] eqn:Hx; [|discriminate].
  destruct Hk as [<-|Hk]; [eauto | apply IH; assumption].
Qed.

(** X13.  A document that the check of [admin_upload] accepts (an object
    with slug, title, summary, order and lessons) and whose order is an
    integer is served as it was uploaded: the guard rails of the loader
    change nothing in it. *)
Theorem accepted_upload_loads_unchanged (st : string) (d : list (string * json))
    (n : Z)
    (Hok : App.missing_field App.required_fields (JDict d) = Ok None)
    (Horder : dict_get d "order" = Some (JInt n)) :
  Fix.guard st (JDict d) = Ok (JDict d).
Proof.
  pose proof (missing_field_none d _ Hok) as H.
  destruct (H "slug") as [a Ha]; [cbn; tauto|].
  destruct (H "title") as [b Hb]; [cbn; tauto|].
  destruct (H "summary") as [c Hc]; [cbn; tauto|].
  destruct (H "lessons") as [e He]; [cbn; tauto|].
  eapply guard_fixed; eassumption.
Qed.

Lemma accepted_upload_witness :
  Fix.guard "any-name"
    (JDict [("slug", JStr "alpha"); ("title", JStr "A"); ("summary", JStr "");
            ("order", JInt 2); ("lessons", JList [])])
  = Ok (JDict [("slug", JStr "alpha"); ("title", JStr "A"); ("summary", JStr "");
               ("order", JInt 2); ("lessons", JList [])]).
Proof.
  exact (accepted_upload_loads_unchanged "any-name"
           [("slug", JStr "alpha"); ("title", JStr "A"); ("summary", JStr "");
            ("order", JInt 2); ("lessons", JList [])] 2 eq_refl eq_refl).
Defined.

(** X14.  The check of [admin_upload] on an object names the first of
    slug, title, summary, order, lessons that the object lacks, and
    accepts the object exactly when it has all five. *)
Theorem upload_check_names_first_missing (d : list (string * json)) :
  (App.missing_field App.required_fields (JDict d) = Ok None
   <-> forall k, In k App.required_fields -> dict_mem d k = true)
  /\ forall k,
       App.missing_field App.required_fields (JDict d) = Ok (Some k) ->
       exists before after,
         App.required_fields = (before ++ k :: after)%list
         /\ dict_mem d k = false
         /\ forall j, In j before -> dict_mem d j = true.
Proof.
  assert (forall fields,
            (App.missing_field fields (JDict d) = Ok None
             <-> forall k, In k fields -> dict_mem d k = true)
            /\ forall k,
                 App.missing_field fields (JDict d) = Ok (Some k) ->
                 exists before after,
                   fields = (before ++ k :: after)%list
                   /\ dict_mem d k = false
                   /\ forall j, In j before -> dict_mem d j = true) as Hgen.
  { induction fields as [|x fields [IH1 IH2]]; cbn [App.missing_field py_in rbind].
    - split; [split; [intros _ k [] | reflexivity] | discriminate].
    - destruct (dict_mem d x) eqn:Hx; split.
      + rewrite IH1. split.
        * intros H k [<-|Hk]; [assumption | apply H; assumption].
        * intros H k Hk. apply H. right; assumption.
      + intros k Hk. destruct (IH2 k Hk) as [b [a [-> [Hm Hb]]]].
        exists (x :: b), a. repeat split; [assumption|].
        intros j [<-|Hj]; [assumption | apply Hb; assumption].
      + split; [discriminate|]. intro H. specialize (H x (or_introl eq_refl)). congruence.
      + intros k Hk. injection Hk as <-. exists [], fields.
        repeat split; [assumption | intros j []]. }
  apply Hgen.
Qed.

(** ** The completion percentage stays in range *)

Lemma round_half_even_range (num den : Z) :
  0 < den -> 0 <= num <= 100 * den ->
  0 <= round_half_even num den <= 100
  /\ (num = 0 -> round_half_even num den = 0)
  /\ (num = 100 * den -> round_half_even num den = 100).
Proof.
  intros Hd Hn. unfold round_half_even.
  pose proof (Z.div_mod num den ltac:(lia)) as Hdm.
  pose proof (Z.mod_pos_bound num den Hd) as Hm.
  assert (0 <= num / den <= 100) as Hq.
  { split; [apply Z.div_pos; lia|]. apply Z.div_le_upper_bound; lia. }
  repeat split.
  - destruct (2 * (num mod den) ?= den); try destruct (Z.even (num / den)); lia.
  - destruct (Z.compare_spec (2 * (num mod den)) den) as [E|E|E];
      try destruct (Z.even (num / den)); try lia; nia.
  - intros ->. rewrite Z.div_0_l, Z.mod_0_l by lia. change (2 * 0) with 0.
    destruct (Z.compare_spec 0 den); try lia; reflexivity.
  - intros ->. rewrite Z.div_mul, Z.mod_mul by lia. change (2 * 0) with 0.
    destruct (Z.compare_spec 0 den); try lia; reflexivity.
Qed.

(** X15.  For a perspective of up to 200 lessons [_compute_progress]
    returns a whole percentage between 0 and 100: 0 when the user has
    completed nothing, 100 when the completed rows are as many as the
    lessons or more; and 0 for a perspective without lessons. *)
Theorem compute_progress_in_range (d : db) (user_id : Z) (slug : string) (total : Z)
    (Hb : total <= 200) :
  exists pct,
    Fix._compute_progress d user_id slug total = Ok pct
    /\ 0 <= pct <= 100
    /\ (total <= 0 -> pct = 0)
    /\ (count_completed d user_id slug = 0 -> pct = 0)
    /\ (0 < total -> total <= count_completed d user_id slug -> pct = 100).
Proof.
  eexists. split; [apply compute_progress_rounds; assumption|].
  assert (0 <= count_completed d user_id slug) as Hc by (unfold count_completed; lia).
  destruct (Z.leb_spec total 0) as [H0|H0].
  - repeat split; try lia.
  - destruct (round_half_even_range
                (100 * Z.min (count_completed d user_id slug) total) total H0
                ltac:(lia)) as [Hr [Hz Hfull]].
    repeat split; lia.
Qed.

Lemma compute_progress_in_range_witness :
  exists pct,
    Fix._compute_progress two_of_three 7 "media" 3 = Ok pct
    /\ 0 <= pct <= 100
    /\ (3 <= 0 -> pct = 0)
    /\ (count_completed two_of_three 7 "media" = 0 -> pct = 0)
    /\ (0 < 3 -> 3 <= count_completed two_of_three 7 "media" -> pct = 100).
Proof.
  apply (compute_progress_in_range two_of_three 7 "media" 3). lia.
Defined.
(** ** [load_perspectives] of [app.py] *)

Lemma int_lt_dom (a b : json) :
  int_key a -> int_key b -> py_lt a b = Ok (int_ltb a b).
Proof. intros [n ->] [m ->]. apply py_lt_int. Qed.

Lemma int_ltb_asym (a b : json) :
  int_key a -> int_key b -> int_ltb a b = true -> int_ltb b a = false.
Proof.
  intros [n ->] [m ->]. unfold int_ltb. rewrite Z.ltb_lt, Z.ltb_ge. lia.
Qed.

Lemma int_nlt_trans (a b c : json) :
  int_key a -> int_key b -> int_key c ->
  int_ltb b a = false -> int_ltb c b = false -> int_ltb c a = false.
Proof.
  intros [n ->] [m ->] [k ->]. unfold int_ltb. rewrite !Z.ltb_ge. lia.
Qed.

(** X16.  When every document that loads is an object whose order is an
    integer or is missing, [load_perspectives] of [app.py] returns exactly
    the documents that load, skipping the files that do not, in ascending
    order of their order, a missing order counting as 999. *)
Theorem app_load_sorts_by_order (files : content_dir)
    (Hdocs : forall base doc,
        In (base, Ok doc) files ->
        exists d, doc = JDict d
                  /\ (dict_get d "order" = None
                      \/ exists n, dict_get d "order" = Some (JInt n))) :
  exists out,
    App.load_perspectives files = Ok out
    /\ Permutation out
         (flat_map (fun f => match snd f with Ok v => [v] | Raise _ => [] end) files)
    /\ StronglySorted (fun x y => app_order x <= app_order y) out.
Proof.
  unfold App.load_perspectives.
  destruct (sort_by_ordered py_lt int_ltb int_key int_lt_dom int_ltb_asym int_nlt_trans
              (fun x => py_get x "order" (JInt 999)) (fun x => JInt (app_order x))
              (flat_map (fun f => match snd f with Ok v => [v] | Raise _ => [] end) files))
    as [out [Hout [Hp Hs]]].
  - intros x Hx. apply loaded_in in Hx. destruct Hx as [base Hin].
    destruct (Hdocs base x Hin) as [d [-> Ho]]. split; [|eexists; reflexivity].
    unfold app_order. cbn [py_get].
    destruct Ho as [->|[n ->]]; reflexivity.
  - exists out. split; [exact Hout|]. split; [exact Hp|].
    eapply strongly_sorted_impl; [|exact Hs].
    intros x y _ _. unfold int_ltb. rewrite Z.ltb_ge. auto.
Qed.

Lemma app_load_sorts_witness :
  exists out,
    App.load_perspectives crossed_dir = Ok out
    /\ Permutation out
         (flat_map (fun f => match snd f with Ok v => [v] | Raise _ => [] end) crossed_dir)
    /\ StronglySorted (fun x y => app_order x <= app_order y) out.
Proof.
  apply (app_load_sorts_by_order crossed_dir).
  intros base doc Hin. cbn in Hin.
  destruct Hin as [H|[H|[]]]; injection H as _ <-;
    eexists; (split; [reflexivity|]); right; eexists; reflexivity.
Defined.

(** ** Quiz and mini-game submissions *)

(** X18.  A mini-game of the type choice whose [correct_option] is a
    string is judged by equality of strings in both flows: [app.py]
    returns [correct] true exactly when the posted [minigame_choice] is the
    correct option, with the explanation of the lesson unchanged, and
    [app_perspectives_fix.py] flashes its praise exactly when the posted
    [picked_option] is; an option that is not posted counts as wrong. *)
Theorem choice_is_judged_by_equality (u : Z) (s l : string)
    (lesson mg : list (string * json)) (c : string) (f : form) (d : db)
    (Hmg : dict_get lesson "minigame" = Some (JDict mg))
    (Htype : dict_get mg "type" = Some (JStr "choice"))
    (Hc : dict_get mg "correct_option" = Some (JStr c))
    (Ha : form_get f "action" = Some "submit_minigame") :
  let chose (k : string) :=
    match form_get f k with Some x => String.eqb x c | None => false end in
  (exists p,
     fst (App.lesson_detail u s l (JDict lesson) POST f d)
     = Ok (LessonPage p None
             (Some (mkMinigameResult (chose "minigame_choice")
                      (form_value f "minigame_choice")
                      (dict_get_or mg "explanation" (JStr ""))))))
  /\ fst (Fix.lesson u s l (JDict lesson) POST f d)
     = Ok (Redirect "perspectives_bp.lesson"
             [if chose "picked_option" then "Mini-game: nice!"
              else "Mini-game: close—check the explanation."]).
Proof.
  cbv zeta. split.
  - destruct (app_entry_row d u s l) as [p [Hf _]]. exists p.
    rewrite app_enter.
    rewrite (app_minigame_result u s l lesson mg f _ p Hf Ha Hmg).
    rewrite Hc. unfold form_value, dict_get_or.
    destruct (form_get f "minigame_choice"); reflexivity.
  - destruct (fix_entry_row d u s l) as [p [Hf _]].
    rewrite fix_enter.
    unfold Fix.lesson. unfold bind at 1. cbn [get_db]. rewrite Hf.
    unfold bind at 1. cbn [ret]. rewrite Ha.
    cbn [String.eqb Ascii.eqb Bool.eqb orb].
    unfold Fix.play, bind, lift. cbn [py_get]. rewrite Hmg.
    destruct mg as [|kv mg']; [discriminate|]. cbn [py_truthy].
    cbn [py_get]. rewrite Htype, Hc.
    cbn [py_eq String.eqb Ascii.eqb Bool.eqb].
    unfold form_value, Fix._log_event, add_event.
    destruct (form_get f "picked_option"); reflexivity.
Qed.

Lemma choice_is_judged_witness :
  let f := [("action", "submit_minigame"); ("minigame_choice", "Medium");
            ("picked_option", "High")] in
  (exists p,
     fst (App.lesson_detail 7 "media" "signals-of-reliability" seed_lesson POST f empty_db)
     = Ok (LessonPage p None
             (Some (mkMinigameResult true (JStr "Medium")
                      (JStr "Some transparency, not full accountability.")))))
  /\ fst (Fix.lesson 7 "media" "signals-of-reliability" seed_lesson POST f empty_db)
     = Ok (Redirect "perspectives_bp.lesson"
             ["Mini-game: close—check the explanation."]).
Proof.
  exact (choice_is_judged_by_equality 7 "media" "signals-of-reliability"
           seed_items _ "Medium"
           [("action", "submit_minigame"); ("minigame_choice", "Medium");
            ("picked_option", "High")] empty_db eq_refl eq_refl eq_refl eq_refl).
Defined.
(** ** The pages of a perspective *)

Lemma same_key (u : Z) (s k : string) (p q : Progress) :
  progress_key u s k p = true -> progress_key u s k q = true -> key_of p = key_of q.
Proof.
  unfold progress_key, key_of. intros Hp Hq.
  apply andb_true_iff in Hp, Hq. destruct Hp as [Hp P3], Hq as [Hq Q3].
  apply andb_true_iff in Hp, Hq. destruct Hp as [P1 P2], Hq as [Q1 Q2].
  apply Z.eqb_eq in P1, Q1. apply String.eqb_eq in P2, P3, Q2, Q3. congruence.
Qed.

Lemma key_row_is_first (l : list Progress) (u : Z) (s k : string) (q : Progress) :
  NoDup (map key_of l) -> In q l -> progress_key u s k q = true ->
  find (progress_key u s k) l = Some q.
Proof.
  induction l as [|x l IH]; intros Hn Hin Hq; [destruct Hin|].
  cbn [map] in Hn. inversion Hn as [|? ? Hx Hn']; subst.
  cbn [find]. destruct (progress_key u s k x) eqn:Ex.
  - destruct Hin as [->|Hin]; [reflexivity|].
    exfalso. apply Hx. rewrite (same_key u s k x q Ex Hq). apply in_map. assumption.
  - destruct Hin as [->|Hin]; [congruence|]. apply IH; assumption.
Qed.

Lemma fold_rows_get (val : Progress -> json) (k : string) :
  forall rows acc,
  dict_get (fold_left (fun dict r => dict_set dict (p_lesson_id r) (val r)) rows acc) k
  = match find (fun r => String.eqb (p_lesson_id r) k) (rev rows) with
    | Some r => Some (val r)
    | None => dict_get acc k
    end.
Proof.
  induction rows as [|x rows IH] using rev_ind; intro acc; [reflexivity|].
  rewrite fold_left_app, rev_app_distr. cbn [fold_left rev app find].
  rewrite dict_get_set. destruct (String.eqb (p_lesson_id x) k); [reflexivity|].
  apply IH.
Qed.

Lemma user_progress_get (d : db) (u : Z) (s k : string) :
  NoDup (map key_of (progress d)) ->
  dict_get (App.get_user_progress d u s) k
  = match first_progress d u s k with
    | Some p => Some (JDict [("status", JStr (status_name (p_status p)));
                             ("score", JInt (p_score p))])
    | None => None
    end.
Proof.
  intro Hn. unfold App.get_user_progress. rewrite fold_rows_get. cbn [dict_get].
  unfold first_progress.
  destruct (find (fun r => String.eqb (p_lesson_id r) k) _) as [p|] eqn:E.
  - apply find_some in E. destruct E as [Hin Hk].
    rewrite <- in_rev in Hin. apply filter_In in Hin. destruct Hin as [Hin Hg].
    rewrite (key_row_is_first _ u s k p Hn Hin); [reflexivity|].
    unfold progress_key. rewrite Hg, Hk. reflexivity.
  - destruct (find (progress_key u s k) (progress d)) as [p|] eqn:F; [|reflexivity].
    exfalso. apply find_some in F. destruct F as [Hin Hk].
    unfold progress_key in Hk. apply andb_true_iff in Hk. destruct Hk as [Hg Hl].
    assert (In p (rev (filter (fun p0 => (p_user_id p0 =? u)
                                 && String.eqb (p_perspective_slug p0) s) (progress d))))
      as Hp by (rewrite <- in_rev; apply filter_In; split; assumption).
    pose proof (find_none _ _ E p Hp) as Hc. cbv beta in Hc. congruence.
Qed.

Lemma with_progress_stored (d : db) (u : Z) (s : string)
    (ld : list (string * json)) (i : string) :
  NoDup (map key_of (progress d)) ->
  dict_get ld "id" = Some (JStr i) ->
  App.with_progress (App.get_user_progress d u s) (JDict ld)
  = Ok (JDict (dict_set
                 (dict_set ld "status" (JStr (status_name (stored_status d u s i))))
                 "score"
                 (match first_progress d u s i with
                  | Some p => JInt (p_score p)
                  | None => JNull
                  end))).
Proof.
  intros Hn Hi. unfold App.with_progress. cbn [py_item]. rewrite Hi.
  cbn [rbind dict_get_key]. rewrite (user_progress_get d u s i Hn).
  unfold stored_status.
  destruct (first_progress d u s i) as [p|]; reflexivity.
Qed.

(** X19.  When the rows of the progress table have distinct keys and each
    lesson of the perspective is an object with a string id,
    [perspective_detail] of [app.py] renders the perspective with the same
    lessons in the same order, each given the status stored for the user
    ([not_started] when there is no row) and the stored score (none when
    there is no row). *)
Theorem lessons_carry_stored_progress (files : content_dir) (d : db) (u : Z)
    (slug : string) (pd : list (string * json)) (ls : list json)
    (Hp : App.get_perspective_by_slug files slug = Ok (JDict pd))
    (Hl : dict_get pd "lessons" = Some (JList ls))
    (Hid : Forall (fun l => exists ld i,
                      l = JDict ld /\ dict_get ld "id" = Some (JStr i)) ls)
    (Hn : NoDup (map key_of (progress d))) :
  exists ls',
    App.perspective_detail files d u slug
    = Ok (Rendered (JDict (dict_set pd "lessons" (JList ls'))))
    /\ Forall2
         (fun l l' =>
            exists ld i,
              l = JDict ld /\ dict_get ld "id" = Some (JStr i)
              /\ l' = JDict (dict_set
                               (dict_set ld "status"
                                  (JStr (status_name (stored_status d u slug i))))
                               "score"
                               (match first_progress d u slug i with
                                | Some p => JInt (p_score p)
                                | None => JNull
                                end)))
         ls ls'.
Proof.
  assert (exists ls', App.each_with_progress (App.get_user_progress d u slug) ls = Ok ls'
            /\ Forall2
                 (fun l l' =>
                    exists ld i,
                      l = JDict ld /\ dict_get ld "id" = Some (JStr i)
                      /\ l' = JDict (dict_set
                                       (dict_set ld "status"
                                          (JStr (status_name (stored_status d u slug i))))
                                       "score"
                                       (match first_progress d u slug i with
                                        | Some p => JInt (p_score p)
                                        | None => JNull
                                        end)))
                 ls ls') as [ls' [He Hf]].
  { clear Hl. induction Hid as [|l r [ld [i [-> Hi]]] _ IH].
    - exists []. split; [reflexivity|constructor].
    - destruct IH as [r' [Hr Hf]]. eexists. split.
      + cbn [App.each_with_progress].
        rewrite (with_progress_stored d u slug ld i Hn Hi). cbn [rbind].
        rewrite Hr. reflexivity.
      + constructor; [|exact Hf]. exists ld, i. repeat split. exact Hi. }
  exists ls'. split; [|exact Hf].
  unfold App.perspective_detail. rewrite Hp. cbn [rbind].
  destruct pd as [|kv pd']; [discriminate|]. cbn [py_truthy negb].
  cbn [py_get]. rewrite Hl. cbn [rbind py_iter]. rewrite He. cbn [rbind].
  unfold dict_mem. rewrite Hl. reflexivity.
Qed.

Lemma lessons_carry_stored_progress_witness :
  exists ls',
    App.perspective_detail [("media", Ok three_lessons)] two_of_three 7 "media"
    = Ok (Rendered
            (JDict (dict_set [("slug", JStr "media"); ("title", JStr "Media");
                              ("lessons",
                               JList [JDict [("id", JStr "a")]; JDict [("id", JStr "b")];
                                      JDict [("id", JStr "c")]])]
                      "lessons" (JList ls'))))
    /\ Forall2
         (fun l l' =>
            exists ld i,
              l = JDict ld /\ dict_get ld "id" = Some (JStr i)
              /\ l' = JDict (dict_set
                               (dict_set ld "status"
                                  (JStr (status_name (stored_status two_of_three 7 "media" i))))
                               "score"
                               (match first_progress two_of_three 7 "media" i with
                                | Some p => JInt (p_score p)
                                | None => JNull
                                end)))
         [JDict [("id", JStr "a")]; JDict [("id", JStr "b")]; JDict [("id", JStr "c")]]
         ls'.
Proof.
  apply (lessons_carry_stored_progress [("media", Ok three_lessons)] two_of_three 7 "media").
  - reflexivity.
  - reflexivity.
  - repeat (constructor; [eexists; eexists; split; reflexivity|]). constructor.
  - cbn. repeat (constructor; [cbn; intuition discriminate|]). constructor.
Defined.

(** X20.  When the rows of the progress table have distinct keys and the
    perspective that is loaded is a non-empty object,
    [perspective_detail] of [app_perspectives_fix.py] renders it with its
    lessons (none when it has no [lessons]) and with a set of completed
    ids that holds a lesson id exactly when the status stored for the user
    is [completed]. *)
Theorem completed_ids_are_completed_lessons (files : content_dir) (d : db) (u : Z)
    (slug : string) (data : list (string * json))
    (Hd : Fix._load_perspective files slug = Ok (JDict data))
    (Ht : data <> [])
    (Hn : NoDup (map key_of (progress d))) :
  exists ids,
    Fix.perspective_detail files d u slug
    = Ok (Rendered (JDict data, dict_get_or data "lessons" (JList []), ids))
    /\ forall l, In l ids <-> stored_status d u slug l = completed.
Proof.
  unfold Fix.perspective_detail. rewrite Hd. cbn [rbind].
  destruct data as [|kv data']; [congruence|]. cbn [py_truthy negb py_get rbind].
  eexists. split; [reflexivity|].
  intro l. unfold stored_status, first_progress. rewrite in_map_iff. split.
  - intros [p [Hl Hin]]. apply filter_In in Hin. destruct Hin as [Hin Hg].
    apply andb_true_iff in Hg. destruct Hg as [Hg Hs].
    rewrite (key_row_is_first _ u slug l p Hn Hin).
    + destruct (p_status p); try discriminate. reflexivity.
    + unfold progress_key. rewrite Hg, Hl. rewrite String.eqb_refl. reflexivity.
  - destruct (find (progress_key u slug l) (progress d)) as [p|] eqn:F;
      [|discriminate].
    intro Hs. apply find_some in F. destruct F as [Hin Hk].
    unfold progress_key in Hk. apply andb_true_iff in Hk. destruct Hk as [Hg Hl].
    apply String.eqb_eq in Hl.
    exists p. split; [assumption|]. apply filter_In. split; [assumption|].
    rewrite Hg, Hs. reflexivity.
Qed.

Lemma completed_ids_witness :
  exists ids,
    Fix.perspective_detail [("media", Ok three_lessons)] two_of_three 7 "media"
    = Ok (Rendered
            (three_lessons,
             JList [JDict [("id", JStr "a")]; JDict [("id", JStr "b")];
                    JDict [("id", JStr "c")]],
             ids))
    /\ forall l, In l ids <-> stored_status two_of_three 7 "media" l = completed.
Proof.
  apply (completed_ids_are_completed_lessons [("media", Ok three_lessons)]
           two_of_three 7 "media"
           [("slug", JStr "media"); ("title", JStr "Media");
            ("lessons",
             JList [JDict [("id", JStr "a")]; JDict [("id", JStr "b")];
                    JDict [("id", JStr "c")]])]).
  - reflexivity.
  - discriminate.
  - cbn. repeat (constructor; [cbn; intuition discriminate|]). constructor.
Defined.
(** ** What a request does to the status in [app.py] *)

Lemma app_get_keeps_status (u : Z) (s l : string) (lesson : json) (f : form) (d : db) :
  stored_status (snd (App.lesson_detail u s l lesson GET f d)) u s l
  = entry_status d u s l.
Proof.
  rewrite app_enter. destruct (app_entry_row d u s l) as [p [Hf Hst]].
  unfold App.lesson_detail, bind. cbn [get_db]. rewrite Hf. cbn [ret snd].
  unfold stored_status. rewrite Hf. exact Hst.
Qed.

(** X21.  In [app.py] a quiz submission whose answer is not an integer
    makes the request fail with the error of [int]; by then the row of the
    lesson has been made, and nothing else is written. *)
Theorem app_bad_answer_fails (u : Z) (s l : string) (lesson : json) (f : form)
    (d : db) (t : string) (e : exn)
    (Ha : form_get f "action" = Some "submit_quiz")
    (Ht : form_get f "answer" = Some t)
    (He : int_of_str t = Raise e) :
  App.lesson_detail u s l lesson POST f d = (Raise e, app_entry d u s l).
Proof.
  rewrite app_enter. destruct (app_entry_row d u s l) as [p [Hf _]].
  unfold App.lesson_detail. unfold bind at 1. cbn [get_db]. rewrite Hf.
  unfold bind at 1. cbn [ret]. unfold form_value. rewrite Ha.
  cbn [py_eq String.eqb Ascii.eqb Bool.eqb json_num].
  unfold bind at 1. unfold lift. rewrite Ht, He. reflexivity.
Qed.

Lemma app_bad_answer_witness :
  App.lesson_detail 7 "media" "signals-of-reliability" seed_lesson POST
    [("action", "submit_quiz"); ("answer", "one")] empty_db
  = (Raise ValueError, app_entry empty_db 7 "media" "signals-of-reliability").
Proof.
  apply (app_bad_answer_fails 7 "media" "signals-of-reliability" seed_lesson
           [("action", "submit_quiz"); ("answer", "one")] empty_db "one" ValueError);
    reflexivity.
Defined.

(** X22.  In [app.py] a lesson becomes completed only on request: after a
    request to [lesson_detail] the stored status of the lesson is
    [completed] exactly when it was before, or the request is a POST with
    the action [mark_complete]; no quiz and no mini-game completes a
    lesson. *)
Theorem app_completes_only_on_request (u : Z) (s l : string) (lesson : json)
    (m : http_method) (f : form) (d : db) :
  stored_status (snd (App.lesson_detail u s l lesson m f d)) u s l = completed
  <-> (stored_status d u s l = completed
       \/ (m = POST /\ form_get f "action" = Some "mark_complete")).
Proof.
  assert (entry_status d u s l = completed <-> stored_status d u s l = completed) as He.
  { unfold entry_status, stored_status.
    destruct (first_progress d u s l); [tauto|]. split; discriminate. }
  destruct m.
  - rewrite app_get_keeps_status, He. split; [auto|].
    intros [H|[H _]]; [assumption|discriminate].
  - destruct (py_eq (form_value f "action") (JStr "mark_complete")) eqn:Ea.
    + apply py_eq_str_right in Ea. unfold form_value in Ea.
      destruct (form_get f "action") as [a|] eqn:Hg; [|discriminate].
      injection Ea as ->.
      rewrite (app_mark_complete u s l lesson f d Hg). split; auto.
    + rewrite (app_status_kept u s l lesson POST f d Ea), He. split; [auto|].
      intros [H|[_ H]]; [assumption|].
      unfold form_value in Ea. rewrite H in Ea. discriminate.
Qed.

(** ** The stored score under quiz submissions *)

Lemma app_quiz_step (u : Z) (s l : string) (lesson qc : list (string * json))
    (rest : list json) (a : Z) (f : form) (n : Z) (d : db) (p : Progress) :
  dict_get lesson "quick_checks" = Some (JList (JDict qc :: rest)) ->
  dict_get qc "answer_index" = Some (JInt a) ->
  first_progress d u s l = Some p ->
  selects f n ->
  first_progress (snd (App.lesson_detail u s l (JDict lesson) POST f d)) u s l
  = Some (App.ratchet p (candidate a n)).
Proof.
  intros Hqcs Hans Hf [Ha [Hsel _]].
  pose proof (first_progress_key _ _ _ _ _ Hf) as Hk.
  rewrite (app_quiz_any u s l lesson qc rest f n d p Hf Ha Hsel Hqcs).
  unfold dict_get_or. rewrite Hans, py_eq_int. fold (candidate a n).
  cbn [snd]. unfold add_event. cbn [snd].
  change (first_progress _ u s l)
    with (first_progress (snd (update_progress (App.ratchet p (candidate a n)) d)) u s l).
  apply (first_progress_update _ p); [assumption|reflexivity|exact Hk].
Qed.

Lemma fix_quiz_step (u : Z) (s l : string) (lesson qc : list (string * json))
    (rest : list json) (a : Z) (f : form) (n : Z) (d : db) (p : Progress) :
  dict_get lesson "quick_checks" = Some (JList (JDict qc :: rest)) ->
  dict_get qc "answer_index" = Some (JInt a) ->
  first_progress d u s l = Some p ->
  selects f n ->
  first_progress (snd (Fix.lesson u s l (JDict lesson) POST f d)) u s l
  = Some (if (n =? a) && negb (status_eqb (p_status p) completed)
          then Fix.complete p else p).
Proof.
  intros Hqcs Hans Hf [Ha [_ [Hsel Hq]]].
  pose proof (first_progress_key _ _ _ _ _ Hf) as Hk.
  rewrite (fix_quiz_any u s l lesson qc (JDict qc :: rest) f n 0 a d p
             Hf Ha Hq Hsel Hqcs (Z.le_refl 0) eq_refl);
    [|unfold dict_get_or; rewrite Hans; reflexivity].
  cbn [snd].
  destruct ((n =? a) && negb (status_eqb (p_status p) completed)).
  - unfold add_event at 1. cbn [snd].
    change (first_progress _ u s l)
      with (first_progress (snd (update_progress (Fix.complete p) d)) u s l).
    apply (first_progress_update _ p); [assumption|reflexivity|exact Hk].
  - exact Hf.
Qed.

Lemma existsb_perm {A : Type} (g : A -> bool) (l l' : list A) :
  Permutation l l' -> existsb g l = existsb g l'.
Proof.
  induction 1 as [|x l l' _ IH|x y l|l1 l2 l3 _ IH1 _ IH2]; cbn [existsb].
  - reflexivity.
  - rewrite IH. reflexivity.
  - destruct (g x), (g y); reflexivity.
  - congruence.
Qed.

Lemma app_quizzes_score (u : Z) (s l : string) (lesson qc : list (string * json))
    (rest : list json) (a : Z) :
  dict_get lesson "quick_checks" = Some (JList (JDict qc :: rest)) ->
  dict_get qc "answer_index" = Some (JInt a) ->
  forall fs ns, Forall2 selects fs ns ->
  forall d p, first_progress d u s l = Some p ->
  stored_score (app_quizzes u s l (JDict lesson) fs d) u s l
  = Some (fold_left Z.max (map (candidate a) ns) (p_score p)).
Proof.
  intros Hqcs Hans fs ns Hfs.
  induction Hfs as [|f n fs ns Hsel _ IH]; intros d p Hf.
  - unfold app_quizzes, stored_score. cbn [map serve]. rewrite Hf. reflexivity.
  - unfold app_quizzes. cbn [map serve handle fold_left].
    pose proof (app_quiz_step u s l lesson qc rest a f n d p Hqcs Hans Hf Hsel) as Hstep.
    specialize (IH _ _ Hstep). unfold app_quizzes in IH. rewrite IH.
    reflexivity.
Qed.

Lemma fix_quizzes_score (u : Z) (s l : string) (lesson qc : list (string * json))
    (rest : list json) (a : Z) :
  dict_get lesson "quick_checks" = Some (JList (JDict qc :: rest)) ->
  dict_get qc "answer_index" = Some (JInt a) ->
  forall fs ns, Forall2 selects fs ns ->
  forall d p, first_progress d u s l = Some p ->
  stored_score (fix_quizzes u s l (JDict lesson) fs d) u s l
  = Some (if negb (status_eqb (p_status p) completed)
             && existsb (fun n => n =? a) ns
          then Z.max (p_score p) 100 else p_score p).
Proof.
  intros Hqcs Hans fs ns Hfs.
  induction Hfs as [|f n fs ns Hsel _ IH]; intros d p Hf.
  - unfold fix_quizzes, stored_score. cbn [map serve existsb]. rewrite Hf.
    rewrite andb_false_r. reflexivity.
  - unfold fix_quizzes. cbn [map serve handle existsb].
    pose proof (fix_quiz_step u s l lesson qc rest a f n d p Hqcs Hans Hf Hsel) as Hstep.
    specialize (IH _ _ Hstep). unfold fix_quizzes in IH. rewrite IH.
    f_equal.
    destruct (n =? a); cbn [andb orb];
      destruct (status_eqb (p_status p) completed) eqn:Ec; cbn [negb andb].
    + rewrite ?Ec. reflexivity.
    + unfold Fix.complete, Fix.or_zero. cbn [p_status p_score status_eqb negb andb].
      destruct (Z.eqb_spec (p_score p) 0) as [->|]; reflexivity.
    + rewrite ?Ec. reflexivity.
    + rewrite ?Ec. reflexivity.
Qed.

(** C8, as the code has it.  A lesson whose first quick check has the
    integer answer [a], a row [p] of the lesson, and quiz forms [fs]
    selecting the indices [ns], posted one after the other; each is a
    candidate score, 100 when the index is [a] and 0 when it is not.

    In the flow of [app.py] the stored score afterwards is the greatest of
    the score of [p] and all the candidates.  In the flow of
    [app_perspectives_fix.py] the candidate 100 is taken, as
    [max(score or 0, 100)], only while the lesson is not completed, and
    every other submission leaves the score alone: the stored score
    afterwards is the greater of the score of [p] and 100 when the lesson
    was not completed and some index was right, and the score of [p]
    otherwise.  In both flows the score does not go down, and the same
    submissions in another order leave the same score. *)
Theorem stored_score_is_ratcheted
    (u : Z) (s l : string) (lesson qc : list (string * json)) (rest : list json)
    (a : Z) (fs : list form) (ns : list Z) (d : db) (p : Progress)
    (Hqcs : dict_get lesson "quick_checks" = Some (JList (JDict qc :: rest)))
    (Hans : dict_get qc "answer_index" = Some (JInt a))
    (Hrow : first_progress d u s l = Some p)
    (Hfs : Forall2 selects fs ns) :
  let top := fold_left Z.max (map (candidate a) ns) (p_score p) in
  let guarded :=
    if negb (status_eqb (p_status p) completed) && existsb (fun n => n =? a) ns
    then Z.max (p_score p) 100 else p_score p in
  stored_score (app_quizzes u s l (JDict lesson) fs d) u s l = Some top
  /\ stored_score (fix_quizzes u s l (JDict lesson) fs d) u s l = Some guarded
  /\ p_score p <= top
  /\ (forall c, In c (map (candidate a) ns) -> c <= top)
  /\ (top = p_score p \/ In top (map (candidate a) ns))
  /\ p_score p <= guarded
  /\ (forall fs' ns',
        Forall2 selects fs' ns' -> Permutation ns ns' ->
        stored_score (app_quizzes u s l (JDict lesson) fs' d) u s l = Some top
        /\ stored_score (fix_quizzes u s l (JDict lesson) fs' d) u s l = Some guarded).
Proof.
  cbv zeta.
  split; [exact (app_quizzes_score u s l lesson qc rest a Hqcs Hans fs ns Hfs d p Hrow)|].
  split; [exact (fix_quizzes_score u s l lesson qc rest a Hqcs Hans fs ns Hfs d p Hrow)|].
  split; [apply fold_max_ge_init|].
  split; [intros c Hc; apply fold_max_ge_each; assumption|].
  split; [apply fold_max_attained|].
  split.
  - destruct (negb (status_eqb (p_status p) completed) && existsb (fun n => n =? a) ns); lia.
  - intros fs' ns' Hfs' Hperm. split.
    + rewrite (app_quizzes_score u s l lesson qc rest a Hqcs Hans fs' ns' Hfs' d p Hrow).
      f_equal. symmetry. apply fold_max_perm. apply Permutation_map. assumption.
    + rewrite (fix_quizzes_score u s l lesson qc rest a Hqcs Hans fs' ns' Hfs' d p Hrow).
      rewrite (existsb_perm _ ns ns' Hperm). reflexivity.
Qed.

Lemma stored_score_witness :
  let wrong := [("action", "submit_quiz"); ("answer", "2")] in
  let right := [("action", "submit_quiz"); ("answer", "1")] in
  let d := snd (App.lesson_detail 7 "media" "signals-of-reliability" seed_lesson GET []
                  empty_db) in
  stored_score
    (app_quizzes 7 "media" "signals-of-reliability" seed_lesson [wrong; right; wrong] d)
    7 "media" "signals-of-reliability" = Some 100
  /\ stored_score
       (fix_quizzes 7 "media" "signals-of-reliability" seed_lesson [wrong; right; wrong] d)
       7 "media" "signals-of-reliability" = Some 100.
Proof.
  pose proof (stored_score_is_ratcheted 7 "media" "signals-of-reliability"
                seed_items _ _ 1
                [[("action", "submit_quiz"); ("answer", "2")];
                 [("action", "submit_quiz"); ("answer", "1")];
                 [("action", "submit_quiz"); ("answer", "2")]]
                [2; 1; 2]
                (snd (App.lesson_detail 7 "media" "signals-of-reliability" seed_lesson
                        GET [] empty_db))
                (mkProgress 1 7 "media" "signals-of-reliability" started 0)
                eq_refl eq_refl eq_refl) as H.
  cbv zeta in H.
  destruct H as [H1 [H2 _]].
  - repeat constructor.
  - split; [exact H1 | exact H2].
Defined.

(** Against C8 as stated.  User 7 marks the seeded lesson complete in the
    flow of [app.py], which leaves the row completed with the score 0, and
    then answers the quick check rightly in the flow of
    [app_perspectives_fix.py]: the answer is acknowledged, and the stored
    score is still 0, not the greatest of 0 and the candidate 100. *)
Lemma completed_lesson_keeps_score :
  let d := serve [LessonDetail 7 "media" "signals-of-reliability" seed_lesson POST
                    [("action", "mark_complete")]] empty_db in
  let right := [("action", "submit_quiz"); ("answer", "1")] in
  first_progress d 7 "media" "signals-of-reliability"
  = Some (mkProgress 1 7 "media" "signals-of-reliability" completed 0)
  /\ fst (Fix.lesson 7 "media" "signals-of-reliability" seed_lesson POST right d)
     = Ok (Redirect "perspectives_bp.lesson" ["Correct!"])
  /\ stored_score
       (fix_quizzes 7 "media" "signals-of-reliability" seed_lesson [right] d)
       7 "media" "signals-of-reliability" = Some 0
  /\ fold_left Z.max [candidate 1 1] 0 = 100.
Proof. vm_compute. repeat split; reflexivity. Qed.

(** ** The lesson routes and the constraints of the storage *)


















(** ** The lesson route of [app_perspectives_fix.py] as a whole *)

Lemma first_with_id_found (repr_of : json -> string) (lesson_id : string) :
  forall items x,
  Fix.first_with_id repr_of items lesson_id = Ok x ->
  x = JNull
  \/ (In x items
      /\ exists ld, x = JDict ld
                    /\ py_str repr_of (dict_get_or ld "id" JNull) = lesson_id).
Proof.
  induction items as [|y items IH]; intros x H; cbn [Fix.first_with_id] in H.
  - injection H as <-. left. reflexivity.
  - destruct y as [|b|n|fl|t|ys|ld]; try discriminate.
    cbn [py_get rbind] in H.
    destruct (String.eqb (py_str repr_of
                (match dict_get ld "id" with Some v => v | None => JNull end))
                lesson_id) eqn:E.
    + injection H as <-. right. split; [left; reflexivity|].
      exists ld. split; [reflexivity|]. apply String.eqb_eq. exact E.
    + destruct (IH x H) as [->|[Hin Hx]]; [left; reflexivity|].
      right. split; [right; assumption | exact Hx].
Qed.

Lemma get_lesson_found (repr_of : json -> string) (data : json)
    (lesson_id : string) (x : json) :
  Fix._get_lesson repr_of data lesson_id = Ok x ->
  x = JNull
  \/ exists lessons ld,
       rbind (py_get data "lessons" (JList [])) py_iter = Ok lessons
       /\ In x lessons
       /\ x = JDict ld
       /\ py_str repr_of (dict_get_or ld "id" JNull) = lesson_id.
Proof.
  unfold Fix._get_lesson. intro H.
  destruct (py_get data "lessons" (JList [])) as [ls|e]; [|discriminate].
  cbn [rbind] in H |- *.
  destruct (py_iter ls) as [items|e]; [|discriminate].
  cbn [rbind] in H.
  destruct (first_with_id_found repr_of lesson_id items x H) as [->|[Hin [ld [-> Hid]]]].
  - left. reflexivity.
  - right. exists items, ld. auto.
Qed.

(** The ways through the head of the route. *)
Lemma fix_route_cases (repr_of : json -> string) (files : content_dir)
    (u : Z) (slug lesson_id : string) (m : http_method) (f : form) (d : db) :
  let out := Fix.lesson_route repr_of files u slug lesson_id m f d in
  (snd out = d
   /\ ((exists e,
          fst out = Raise e
          /\ (Fix._load_perspective files slug = Raise e
              \/ exists data,
                   Fix._load_perspective files slug = Ok data
                   /\ Fix._get_lesson repr_of data lesson_id = Raise e))
       \/ fst out = Ok (Redirect "perspectives_bp.dashboard" ["Perspective not found."])
       \/ fst out = Ok (Redirect "perspectives_bp.perspective_detail"
                          ["Lesson not found."])))
  \/ exists data lessons ld,
       Fix._load_perspective files slug = Ok data
       /\ rbind (py_get data "lessons" (JList [])) py_iter = Ok lessons
       /\ In (JDict ld) lessons
       /\ py_str repr_of (dict_get_or ld "id" JNull) = lesson_id
       /\ out = Fix.lesson u slug lesson_id (JDict ld) m f d.
Proof.
  cbv zeta. unfold Fix.lesson_route, bind, lift, ret.
  destruct (Fix._load_perspective files slug) as [data|e] eqn:Hload; cbv beta iota.
  2:{ left. split; [reflexivity|]. left. exists e. split; [reflexivity|].
      left. reflexivity. }
  destruct (py_truthy data) eqn:Ht; cbn [negb]; cbv beta iota.
  2:{ left. split; [reflexivity|]. right. left. reflexivity. }
  destruct (Fix._get_lesson repr_of data lesson_id) as [x|e] eqn:Hget; cbv beta iota.
  2:{ left. split; [reflexivity|]. left. exists e. split; [reflexivity|].
      right. exists data. auto. }
  destruct (get_lesson_found repr_of data lesson_id x Hget)
    as [->|[lessons [ld [Hls [Hin [-> Hid]]]]]].
  - left. split; [reflexivity|]. right. right. reflexivity.
  - destruct (py_truthy (JDict ld)) eqn:Hx; cbn [negb]; cbv beta iota.
    + right. exists data, lessons, ld. auto.
    + left. split; [reflexivity|]. right. right. reflexivity.
Qed.

(** X24.  [lesson] of [app_perspectives_fix.py], with its look-up of the
    perspective and of the lesson, touches the tables only for a lesson
    of the perspective: either the request leaves the tables as they are
    (the look-up raises, which nothing catches, or the perspective or the
    lesson is not found), or the perspective has loaded, one of its
    lessons is an object whose id, as [str] gives it, is the id asked
    for, and the route does what its body does on that lesson. *)
Theorem fix_route_needs_a_lesson (repr_of : json -> string) (files : content_dir)
    (u : Z) (slug lesson_id : string) (m : http_method) (f : form) (d : db) :
  let out := Fix.lesson_route repr_of files u slug lesson_id m f d in
  (snd out = d
   /\ ((exists e,
          fst out = Raise e
          /\ (Fix._load_perspective files slug = Raise e
              \/ exists data,
                   Fix._load_perspective files slug = Ok data
                   /\ Fix._get_lesson repr_of data lesson_id = Raise e))
       \/ fst out = Ok (Redirect "perspectives_bp.dashboard" ["Perspective not found."])
       \/ fst out = Ok (Redirect "perspectives_bp.perspective_detail"
                          ["Lesson not found."])))
  \/ exists data lessons ld,
       Fix._load_perspective files slug = Ok data
       /\ rbind (py_get data "lessons" (JList [])) py_iter = Ok lessons
       /\ In (JDict ld) lessons
       /\ py_str repr_of (dict_get_or ld "id" JNull) = lesson_id
       /\ out = Fix.lesson u slug lesson_id (JDict ld) m f d.
Proof.
  exact (fix_route_cases repr_of files u slug lesson_id m f d).
Qed.

(** ** Quiz submissions to [app_perspectives_fix.py] *)

(** The quiz branch either flashes a verdict or nothing, or fails before
    it has written anything. *)
Lemma grade_outcome (u : Z) (s l : string) (lesson : json) (p : Progress)
    (f : form) (d : db) :
  (exists fl,
      fst (Fix.grade u s l lesson p f d) = Ok fl
      /\ (fl = [] \/ fl = ["Correct!"] \/ fl = ["Try again—check the feedback."]))
  \/ exists e, Fix.grade u s l lesson p f d = (Raise e, d).
Proof.
  unfold Fix.grade, bind, lift.
  destruct (match form_get f "qidx" with Some s0 => int_of_str s0 | None => Ok 0 end)
    as [qidx|e]; [|right; eexists; reflexivity].
  destruct (match form_get f "answer" with
            | Some s0 => int_of_str s0
            | None => match form_get f "choice_idx" with
                      | Some s0 => int_of_str s0
                      | None => Ok (-1)
                      end
            end) as [sel|e]; [|right; eexists; reflexivity].
  destruct (py_get lesson "quick_checks" (JList [])) as [qcs|e];
    [|right; eexists; reflexivity].
  destruct (0 <=? qidx); [|left; eexists; split; [reflexivity|auto]].
  destruct (py_len qcs) as [n|e]; [|right; eexists; reflexivity].
  destruct (qidx <? n); [|left; eexists; split; [reflexivity|auto]].
  destruct (py_index qcs qidx) as [qc|e]; [|right; eexists; reflexivity].
  destruct (rbind (py_get qc "answer_index" (JInt (-1))) py_int) as [a|e];
    [|right; eexists; reflexivity].
  left. unfold Fix._log_event, add_event, ret, update_progress.
  destruct (sel =? a); cbn [andb];
    [destruct (negb (status_eqb (p_status p) completed))|];
    eexists; (split; [reflexivity|auto]).
Qed.

(** X17.  A quiz submission to [lesson] of [app_perspectives_fix.py],
    the look-up of the perspective and of the lesson included, fails only
    when that look-up fails, and then leaves the tables as they are.
    Once the lesson is found the answer is always the redirect to the
    lesson: with a verdict or with nothing flashed, or, when the grading
    fails, with the message that the question could not be graded and
    with nothing written but the row of the visit. *)
Theorem fix_quiz_never_fails (repr_of : json -> string) (files : content_dir)
    (u : Z) (s l : string) (f : form) (d : db)
    (Ha : form_get f "action" = Some "submit_quiz"
          \/ form_get f "action" = Some "quick_check") :
  let out := Fix.lesson_route repr_of files u s l POST f d in
  (snd out = d
   /\ ((exists e,
          fst out = Raise e
          /\ (Fix._load_perspective files s = Raise e
              \/ exists data,
                   Fix._load_perspective files s = Ok data
                   /\ Fix._get_lesson repr_of data l = Raise e))
       \/ fst out = Ok (Redirect "perspectives_bp.dashboard" ["Perspective not found."])
       \/ fst out = Ok (Redirect "perspectives_bp.perspective_detail"
                          ["Lesson not found."])))
  \/ exists flashes,
       fst out = Ok (Redirect "perspectives_bp.lesson" flashes)
       /\ ((flashes = ["Could not grade this question."]
            /\ snd out = fix_entry d u s l)
           \/ flashes = []
           \/ flashes = ["Correct!"]
           \/ flashes = ["Try again—check the feedback."]).
Proof.
  cbv zeta.
  destruct (fix_route_cases repr_of files u s l POST f d)
    as [Hleft | [data [lessons [ld [_ [_ [_ [_ Hout]]]]]]]].
  - left. exact Hleft.
  - right. cbv zeta in Hout. rewrite Hout. clear Hout.
    rewrite fix_enter. destruct (fix_entry_row d u s l) as [p [Hf _]].
    assert (Fix.lesson u s l (JDict ld) POST f (fix_entry d u s l)
            = match Fix.grade u s l (JDict ld) p f (fix_entry d u s l) with
              | (Ok fl, d') => (Ok (Redirect "perspectives_bp.lesson" fl), d')
              | (Raise _, d') =>
                  (Ok (Redirect "perspectives_bp.lesson"
                         ["Could not grade this question."]), d')
              end) as ->.
    { unfold Fix.lesson. unfold bind at 1. cbn [get_db]. rewrite Hf.
      unfold bind at 1. cbn [ret].
      assert (String.eqb (match form_get f "action" with Some s0 => s0 | None => "" end)
                "submit_quiz"
              || String.eqb (match form_get f "action" with Some s0 => s0 | None => "" end)
                   "quick_check" = true) as ->.
      { destruct Ha as [-> | ->]; reflexivity. }
      unfold bind, try_except, ret.
      destruct (Fix.grade u s l (JDict ld) p f (fix_entry d u s l)) as [[fl|e] d'];
        reflexivity. }
    destruct (grade_outcome u s l (JDict ld) p f (fix_entry d u s l))
      as [[fl [Hfl Hv]] | [e He]].
    + destruct (Fix.grade u s l (JDict ld) p f (fix_entry d u s l)) as [[fl'|e'] d'];
        cbn [fst] in Hfl; [|discriminate].
      injection Hfl as ->. exists fl. cbn [fst]. split; [reflexivity|].
      right. exact Hv.
    + rewrite He. cbn [fst snd]. eexists. split; [reflexivity|].
      left. split; reflexivity.
Qed.

Lemma fix_quiz_never_fails_witness :
  let out :=
    Fix.lesson_route (fun _ => "") seed_dir 7 "digital-media-literacy"
      "signals-of-reliability" POST [("action", "submit_quiz"); ("answer", "one")]
      empty_db in
  fst out = Ok (Redirect "perspectives_bp.lesson" ["Could not grade this question."])
  /\
  ((snd out = empty_db
   /\ ((exists e,
          fst out = Raise e
          /\ (Fix._load_perspective seed_dir "digital-media-literacy" = Raise e
              \/ exists data,
                   Fix._load_perspective seed_dir "digital-media-literacy" = Ok data
                   /\ Fix._get_lesson (fun _ => "") data "signals-of-reliability"
                      = Raise e))
       \/ fst out = Ok (Redirect "perspectives_bp.dashboard" ["Perspective not found."])
       \/ fst out = Ok (Redirect "perspectives_bp.perspective_detail"
                          ["Lesson not found."])))
  \/ exists flashes,
       fst out = Ok (Redirect "perspectives_bp.lesson" flashes)
       /\ ((flashes = ["Could not grade this question."]
            /\ snd out = fix_entry empty_db 7 "digital-media-literacy"
                           "signals-of-reliability")
           \/ flashes = []
           \/ flashes = ["Correct!"]
           \/ flashes = ["Try again—check the feedback."])).
Proof.
  cbv zeta. split; [vm_compute; reflexivity|].
  apply (fix_quiz_never_fails (fun _ => "") seed_dir 7 "digital-media-literacy"
           "signals-of-reliability" [("action", "submit_quiz"); ("answer", "one")]
           empty_db).
  left. reflexivity.
Defined.
